(** * ZonalClimateAnalyzer: the analysis pipeline and its request gateway

    A shallow embedding of the parts of [ZonalClimateAnalyzer.py] and
    [api/server.py] that decide the behaviour described in the specification:
    canonical file naming, archive handling, the cache check, the statistics
    table, the lock file, the rate limiter, the archive defences, the
    vertex count and the clean-up of run directories; and, around them, the
    listing of raster files, the series handed to the plots, the origins
    allowed by CORS and the download of a run.

    Python [str] values are lists of characters; dictionaries whose order is
    irrelevant are [gmap]s, directories are [gmap]s from entry names to entry
    kinds, and the handlers of the service thread an explicit file-system
    state. *)

From Stdlib Require Import ZArith QArith Ascii String List Lia.
From stdpp Require Import gmap strings list sorting.

Local Open Scope Z_scope.
Local Open Scope list_scope.
Local Open Scope stdpp_scope.
Set Warnings "-register-all,-clear-no-such-hyp".

(** ** Python strings *)

Abbreviation str := (list ascii).

(** A literal: [py "abc"] is the Python string ['abc']. Strings are
    sequences of characters with code points below 256 (what a header
    decoded as Latin-1 holds); case folding and white space are Python's on
    these characters. *)
Definition py (s : string) : str := list_ascii_of_string s.
Global Arguments py : simpl never.

Module PyStr.

(** [s.startswith(p)] *)
Fixpoint startswith (p s : str) : bool :=
  match p, s with
  | [], _ => true
  | _ :: _, [] => false
  | a :: p', b :: s' => if decide (a = b) then startswith p' s' else false
  end.

(** [s.endswith(p)] *)
Definition endswith (p s : str) : bool := startswith (rev p) (rev s).

(** [s[:-n]] for a positive literal [n] *)
Definition drop_last (n : nat) (s : str) : str := take (length s - n) s.

(** [s[-n:]] for a positive literal [n] *)
Definition take_last (n : nat) (s : str) : str := drop (length s - n) s.

(** [pat in s] *)
Fixpoint contains (pat s : str) : bool :=
  startswith pat s ||
  match s with
  | [] => false
  | _ :: s' => contains pat s'
  end.

(** [s.replace(old, "")] for a non-empty [old]: occurrences are found from
    the left and do not overlap; [skip] counts the characters of the
    occurrence being dropped. *)
Fixpoint remove_go (old : str) (skip : nat) (s : str) : str :=
  match s with
  | [] => []
  | c :: s' =>
      match skip with
      | S k => remove_go old k s'
      | O =>
          if startswith old s
          then remove_go old (length old - 1) s'
          else c :: remove_go old 0 s'
      end
  end.

Definition remove (old s : str) : str :=
  match old with
  | [] => s
  | _ :: _ => remove_go old 0 s
  end.

(** [s.lstrip(c)] for a one-character argument: every leading [c] goes *)
Fixpoint lstrip (c : ascii) (s : str) : str :=
  match s with
  | [] => []
  | a :: s' => if decide (a = c) then lstrip c s' else s
  end.

(** [s.rstrip(c)] *)
Definition rstrip (c : ascii) (s : str) : str := rev (lstrip c (rev s)).

(** [c.isspace()]: the characters [str.strip()] removes, which below 256
    are 9 to 13, 28 to 32, 133 (next line) and 160 (no-break space). *)
Definition is_space (c : ascii) : bool :=
  let n := nat_of_ascii c in
  ((9 <=? n)%nat && (n <=? 13)%nat) || ((28 <=? n)%nat && (n <=? 32)%nat)
  || (n =? 133)%nat || (n =? 160)%nat.

Fixpoint lstrip_space (s : str) : str :=
  match s with
  | [] => []
  | a :: s' => if is_space a then lstrip_space s' else s
  end.

(** [s.strip()] *)
Definition strip (s : str) : str := rev (lstrip_space (rev (lstrip_space s))).

(** [s.split(sep)] for a one-character separator *)
Fixpoint split (sep : ascii) (s : str) : list str :=
  match s with
  | [] => [[]]
  | c :: s' =>
      if decide (c = sep) then [] :: split sep s'
      else match split sep s' with
           | p :: ps => (c :: p) :: ps
           | [] => [[c]]
           end
  end.

(** [s.rfind(c)]: the index of the last [c], if any *)
Fixpoint rfind (c : ascii) (s : str) : option nat :=
  match s with
  | [] => None
  | a :: s' =>
      match rfind c s' with
      | Some i => Some (S i)
      | None => if decide (a = c) then Some O else None
      end
  end.

(** [c.lower()]: below 256 the capital letters are 65 to 90 and 192 to
    222 without the multiplication sign 215, each 32 below its small
    letter. *)
Definition lower_char (c : ascii) : ascii :=
  let n := nat_of_ascii c in
  if ((65 <=? n)%nat && (n <=? 90)%nat)
     || ((192 <=? n)%nat && (n <=? 222)%nat && negb (n =? 215)%nat)
  then ascii_of_nat (n + 32) else c.

Definition lower (s : str) : str := map lower_char s.

End PyStr.

(** ** Paths ([pathlib.PurePosixPath]) *)

Module PyPath.

(** The components of a path: empty components and ["."] are dropped. *)
Definition parts (p : str) : list str :=
  filter (fun c => c <> [] /\ c <> py ".") (PyStr.split "/" p).

(** What a component is: not empty, not [.], without separator. *)
Definition component (c : str) : Prop := c <> [] /\ c <> py "." /\ "/"%char ∉ c.

(** [Path(p).name]: the last component, or the empty string. *)
Definition name (p : str) : str := default [] (last (parts p)).

(** The root of a path, by the number of its leading slashes: exactly two
    are kept, one and three or more are one. *)
Definition root (p : str) : str :=
  match (length p - length (PyStr.lstrip "/" p))%nat with
  | 0%nat => []
  | 2%nat => py "//"
  | _ => py "/"
  end.

(** ["/".join(cs)] *)
Fixpoint join (cs : list str) : str :=
  match cs with
  | [] => []
  | c :: cs' =>
      match cs' with
      | [] => c
      | _ :: _ => c ++ "/"%char :: join cs'
      end
  end.

(** The text of the path with root [r] and components [cs]; the path
    without either is written [.]. *)
Definition render (r : str) (cs : list str) : str :=
  match r, cs with
  | [], [] => py "."
  | _, _ => r ++ join cs
  end.

(** [str(Path(p))] *)
Definition norm (p : str) : str := render (root p) (parts p).

(** [str(Path(p).with_name(n))]; [None] stands for the [ValueError] raised
    when the path has no name or [n] is not a single name. *)
Definition with_name (p n : str) : option str :=
  if bool_decide (name p = [] \/ n = [] \/ last n = Some "/"%char
                  \/ root n <> [] \/ length (parts n) <> 1%nat)
  then None
  else Some (render (root p) (removelast (parts p) ++ [n])).

(** Where the suffix of a file name starts: the last dot, unless it is the
    first or the last character. *)
Definition suffix_index (n : str) : option nat :=
  match PyStr.rfind "." n with
  | Some i => if (0 <? i)%nat && (i <? length n - 1)%nat then Some i else None
  | None => None
  end.

(** [Path(p).suffix] *)
Definition suffix (p : str) : str :=
  let n := name p in
  match suffix_index n with Some i => drop i n | None => [] end.

(** [Path(p).stem] *)
Definition stem (p : str) : str :=
  let n := name p in
  match suffix_index n with Some i => take i n | None => n end.

End PyPath.

(** ** Directories *)

(** What a directory entry is: [unlink] removes a [File] and fails on a
    [Dir]. *)
Inductive entry := File | Dir.

Global Instance entry_eq_dec : EqDecision entry.
Proof. solve_decision. Defined.

(** A directory: its entries by name. *)
Abbreviation folder := (gmap str entry).

(** [folder.glob("*" + suf)]: the names of the directory (files and
    directories, hidden ones included) that end in [suf]. *)
Definition glob (suf : str) (d : folder) : list str :=
  filter (fun n => PyStr.endswith suf n = true) (elements (dom d)).

(** [file.unlink()] with its [OSError] swallowed: a directory stays. *)
Definition unlink (n : str) (d : folder) : folder :=
  match d !! n with
  | Some File => delete n d
  | _ => d
  end.

(** ** ZonalClimateAnalyzer.py *)

Module Analyzer.

Definition DWD_PREFIX : str := py "grids_germany_annual_".

(** The suffixes [rename_dwd_file] knows, in the order of its loop. *)
Definition KNOWN_SUFFIXES : list str :=
  [py ".asc.gz"; py ".zip"; py ".asc"; py ".tif"].

(** The [for suffix in ...: if name.endswith(suffix): ...; break] loop. *)
Fixpoint strip_first_suffix (sufs : list str) (name : str) : str :=
  match sufs with
  | [] => name
  | suf :: rest =>
      if PyStr.endswith suf name then PyStr.drop_last (length suf) name
      else strip_first_suffix rest name
  end.

(** The [if ... "_1917" ... "_2017": pass / elif ... "17": name[:-2]]
    statement. *)
Definition drop_period_code (name : str) : str :=
  if PyStr.endswith (py "_1917") name || PyStr.endswith (py "_2017") name
  then name
  else if PyStr.endswith (py "17") name then PyStr.drop_last 2 name
  else name.

Definition rename_dwd_file (file : str) : str :=
  let name := PyPath.name file in
  let name := PyStr.remove DWD_PREFIX name in
  let name := strip_first_suffix KNOWN_SUFFIXES name in
  let name := drop_period_code name in
  let name := PyStr.rstrip "_" name in
  name ++ py ".asc".

(** *** check_if_already_downloaded *)

Section Download.

(** [urlparse(link).path] of the standard library. *)
Variable urlpath : str -> str.

(** The stem a link is expected under:
    [Path(rename_dwd_file(Path(urlparse(link).path).name)).stem]. *)
Definition expected_stem (link : str) : str :=
  PyPath.stem (rename_dwd_file (PyPath.name (urlpath link))).

(** [{f.stem for f in raster_dir.glob("*.tif")}] *)
Definition tif_stems (d : folder) : gset str :=
  list_to_set (map PyPath.stem (glob (py ".tif") d)).

(** [raster_dir] is [None] when the directory does not exist. *)
Definition check_if_already_downloaded
    (raster_links : list str) (raster_dir : option folder) : bool :=
  match raster_dir with
  | None => false
  | Some d =>
      if decide (d = ∅) then false
      else
        let tif_names := tif_stems d in
        if decide (tif_names = ∅) then false
        else
          let expected : gset str :=
            list_to_set (map expected_stem raster_links) in
          bool_decide (expected ⊆ tif_names)
  end.

End Download.

(** *** decompress_file *)

(** How [zipfile] sees a file: no archive; an archive by its end record
    whose directory [zipfile.ZipFile] refuses; an archive with its member
    names in the order of the directory. *)
Inductive zip_view :=
| NotZip
| DamagedZip
| Zip (members : list str).

(** What [decompress_file] meets: the path of an existing file, the
    extension [filetype.guess] sniffs from the content, the view [zipfile]
    has of it, and the outcomes of the input and output it performs. *)
Record source_file := {
  sf_path : str;
  sf_guess : option str;
  sf_zip : zip_view;
  sf_member_opens : str -> bool;   (* zf.open(member) returns *)
  sf_member_reads : str -> bool;   (* src.read() returns *)
  sf_sibling_opens : bool;         (* decompressed_file.open("wb") returns *)
  sf_sibling_writes : bool;        (* dst.write(...) and the close return *)
  sf_is_gzip : bool;               (* gzip accepts the header *)
  sf_gzip_copies : bool            (* shutil.copyfileobj runs to the end *)
}.

Inductive decompress_error :=
| NoFileName        (* ValueError of with_name *)
| BadZipFile        (* zipfile.ZipFile on something it cannot read *)
| NoAscInArchive    (* ValueError("No .asc file found in archive.") *)
| MemberOpenError   (* what zf.open raises *)
| SiblingOpenError  (* OSError of decompressed_file.open("wb") *)
| MemberReadError   (* what src.read raises *)
| SiblingWriteError (* OSError of dst.write *)
| BadGzipFile       (* the first read of something that is no gzip *)
| CopyError.        (* what shutil.copyfileobj raises later *)

(** The returned path is that of the source or of the sibling named by
    [rename_dwd_file]; for an archive the member written there is kept. *)
Inductive decompressed :=
| Unchanged (path : str)
| FromZip (member : str) (sibling : str)
| FromGzip (sibling : str).

Definition is_zipfile (f : source_file) : bool :=
  match sf_zip f with NotZip => false | _ => true end.

(** [[m for m in zf.namelist() if m.lower().endswith(".asc")]] *)
Definition asc_members (members : list str) : list str :=
  filter (fun m => PyStr.endswith (py ".asc") (PyStr.lower m) = true) members.

Definition already_raster (f : source_file) : bool :=
  let sfx := PyStr.lower (PyPath.suffix (sf_path f)) in
  bool_decide (sfx = py ".asc" \/ sfx = py ".tif")
  || bool_decide (sf_guess f = Some (py "asc") \/ sf_guess f = Some (py "tif")).

Definition takes_zip_branch (f : source_file) : bool :=
  is_zipfile f
  || bool_decide (sf_guess f = Some (py "zip"))
  || bool_decide (PyStr.lower (PyPath.suffix (sf_path f)) = py ".zip").

(** The [with zf.open(...) as src, decompressed_file.open("wb") as dst:
    dst.write(src.read())] statement, in the order of its steps. *)
Definition copy_member (f : source_file) (member : str) : option decompress_error :=
  if negb (sf_member_opens f member) then Some MemberOpenError
  else if negb (sf_sibling_opens f) then Some SiblingOpenError
  else if negb (sf_member_reads f member) then Some MemberReadError
  else if negb (sf_sibling_writes f) then Some SiblingWriteError
  else None.

(** The two [with] statements of the gzip branch. *)
Definition copy_gzip (f : source_file) : option decompress_error :=
  if negb (sf_sibling_opens f) then Some SiblingOpenError
  else if negb (sf_is_gzip f) then Some BadGzipFile
  else if negb (sf_gzip_copies f) then Some CopyError
  else None.

Definition decompress_file (f : source_file) : decompress_error + decompressed :=
  if already_raster f then inr (Unchanged (PyPath.norm (sf_path f)))
  else
    match PyPath.with_name (sf_path f) (rename_dwd_file (PyPath.name (sf_path f))) with
    | None => inl NoFileName
    | Some decompressed_file =>
        if takes_zip_branch f then
          match sf_zip f with
          | NotZip | DamagedZip => inl BadZipFile
          | Zip members =>
              match asc_members members with
              | [] => inl NoAscInArchive
              | first :: _ =>
                  match copy_member f first with
                  | Some e => inl e
                  | None => inr (FromZip first decompressed_file)
                  end
              end
          end
        else
          match copy_gzip f with
          | Some e => inl e
          | None => inr (FromGzip decompressed_file)
          end
    end.

(** *** asc_to_tif_add_crs and delete_raster_files *)

(** The output path of [asc_to_tif_add_crs]:
    [asc_input.replace(".asc", "") + ".tif"]. *)
Definition tif_output (asc_input : str) : str :=
  PyStr.remove (py ".asc") asc_input ++ py ".tif".

Definition DELETE_PATTERNS : list str := [py ".asc"; py ".asc.gz"; py ".zip"].

(** The inner loop: every match of one pattern is unlinked. *)
Definition delete_matching (d : folder) (suf : str) : folder :=
  foldl (fun d n => unlink n d) d (glob suf d).

Definition delete_raster_files (d : folder) : folder :=
  foldl delete_matching d DELETE_PATTERNS.

(** *** The statistics table of zonal_climate_analysis *)

Section Table.

(** What [zonal_stats] returns for one raster: a list of records. *)
Variable Stats : Type.

(** A Python [dict] whose iteration order matters: keys in insertion order,
    an assignment to a present key keeps its place. *)
Fixpoint dict_set (k : str) (v : Stats) (d : list (str * Stats)) : list (str * Stats) :=
  match d with
  | [] => [(k, v)]
  | (k', v') :: d' =>
      if decide (k' = k) then (k, v) :: d' else (k', v') :: dict_set k v d'
  end.

(** [dict(zip(filenames, rasterstats_list))] *)
Definition rasterstats_dict (filenames : list str) (rasterstats_list : list Stats)
    : list (str * Stats) :=
  foldl (fun d kv => dict_set kv.1 kv.2 d) [] (zip filenames rasterstats_list).

(** [name = key[:-5]] and [year = key[-4:]] *)
Definition key_name (key : str) : str := PyStr.drop_last 5 key.
Definition key_year (key : str) : str := PyStr.take_last 4 key.

(** One turn of the loop over [rasterstats_dict.items()]. *)
Definition add_entry (json : gmap str (gmap str Stats)) (kv : str * Stats)
    : gmap str (gmap str Stats) :=
  let name := key_name kv.1 in
  let year := key_year kv.1 in
  let json := match json !! name with
              | Some _ => json
              | None => <[name := ∅]> json
              end in
  <[name := <[year := kv.2]> (default ∅ (json !! name))]> json.

Definition rasterstats_json (filenames : list str) (rasterstats_list : list Stats)
    : gmap str (gmap str Stats) :=
  foldl add_entry ∅ (rasterstats_dict filenames rasterstats_list).

End Table.

End Analyzer.

(** ** api/server.py *)

Module Server.

(** The settings read from the environment when the module is loaded. *)
Record config := {
  MAX_UPLOAD_BYTES : Z;
  MAX_ZIP_FILES : Z;
  MAX_ZIP_UNCOMPRESSED_BYTES : Z;
  MAX_FEATURES : Z;
  MAX_VERTICES : Z;
  MIN_FREE_DISK_GB : Z;
  RATE_LIMIT_PER_MIN : Z;
  REQUIRE_CLAMSCAN : bool;
  LOCK_TTL_SECONDS : Z
}.

(** The values used when the environment sets nothing. *)
Definition default_config : config := {|
  MAX_UPLOAD_BYTES := 200 * 1024 * 1024;
  MAX_ZIP_FILES := 2000;
  MAX_ZIP_UNCOMPRESSED_BYTES := 1600 * 1024 * 1024;
  MAX_FEATURES := 2000;
  MAX_VERTICES := 200000;
  MIN_FREE_DISK_GB := 2;
  RATE_LIMIT_PER_MIN := 120;
  REQUIRE_CLAMSCAN := false;
  LOCK_TTL_SECONDS := 60 * 60 * 4
|}.

Definition ALLOWED_EXT : list str := [py ".zip"; py ".shp"; py ".gpkg"; py ".geojson"].
Definition ALLOWED_ARCHIVE_EXT : list str :=
  [py ".shp"; py ".shx"; py ".dbf"; py ".prj"; py ".cpg"].

(** *** Exceptions *)

Inductive exn :=
| HTTPException (status_code : Z) (detail : string)
| OtherException (what : string).

Inductive result (A : Type) :=
| Ok (a : A)
| Raise (e : exn).
Arguments Ok {A} a.
Arguments Raise {A} e.

(** *** Geometries and _count_vertices *)

Abbreviation coord := (Q * Q)%type.

(** A ring and its [coords]. *)
Abbreviation ring := (list coord).

(** A polygon: [exterior] (which the code allows to be [None]) and
    [interiors]. *)
Record polygon := { exterior : option ring; interiors : list ring }.

Inductive geom :=
| Point (c : coord)
| LineString (cs : list coord)
| LinearRing (cs : ring)
| Polygon (p : polygon)
| MultiPoint (cs : list coord)
| MultiLineString (ls : list (list coord))
| MultiPolygon (geoms : list polygon)
| GeometryCollection (geoms : list geom).

Definition geom_type (g : geom) : string :=
  match g with
  | Point _ => "Point"
  | LineString _ => "LineString"
  | LinearRing _ => "LinearRing"
  | Polygon _ => "Polygon"
  | MultiPoint _ => "MultiPoint"
  | MultiLineString _ => "MultiLineString"
  | MultiPolygon _ => "MultiPolygon"
  | GeometryCollection _ => "GeometryCollection"
  end.

Definition sum_Z (l : list Z) : Z := foldr Z.add 0 l.

(** The [Polygon] branch:
    [sum(len(ring.coords) for ring in [exterior] + interiors if ring is not None)]. *)
Definition count_rings (p : polygon) : Z :=
  let rings := exterior p :: map Some (interiors p) in
  sum_Z (map (fun r => match r with
                       | Some r => Z.of_nat (length r)
                       | None => 0
                       end) rings).

(** [geom] is [None] for a missing geometry; the members of a
    [MultiPolygon] are polygons, so the recursive call takes the [Polygon]
    branch. *)
Definition _count_vertices (geom : option geom) : Z :=
  match geom with
  | None => 0
  | Some (Polygon p) => count_rings p
  | Some (MultiPolygon geoms) => sum_Z (map count_rings geoms)
  | Some _ => 0
  end.

(** A [GeoDataFrame]: its geometry column and its CRS. *)
Record gdf := { geometry : list (option geom); crs : option str }.

(** [int(gdf.geometry.apply(_count_vertices).sum())] *)
Definition vertex_count (g : gdf) : Z := sum_Z (map _count_vertices (geometry g)).

Definition _validate_geo_limits (cfg : config) (g : gdf) : result unit :=
  if MAX_FEATURES cfg <? Z.of_nat (length (geometry g))
  then Raise (HTTPException 400 "Too many features in upload.")
  else if MAX_VERTICES cfg <? vertex_count g
  then Raise (HTTPException 400 "Geometry is too complex.")
  else Ok tt.

(** *** The rate limiter *)

(** What the middleware reads of a request: the [x-forwarded-for] header
    (empty when absent), the peer address when there is one, and the URL
    path, which it ignores. *)
Record request := {
  x_forwarded_for : str;
  client_host : option str;
  url_path : str
}.

Definition _client_ip (r : request) : str :=
  match x_forwarded_for r with
  | [] => default (py "unknown") (client_host r)
  | forwarded => PyStr.strip (default [] (head (PyStr.split "," forwarded)))
  end.

(** [_RATE_LIMIT]: a counter per clock minute and client address. *)
Abbreviation rate_table := (gmap (Z * str) Z).

(** [key = (now // 60, _client_ip(request))] *)
Definition rate_key (now : Z) (r : request) : Z * str := (now / 60, _client_ip r).

Definition too_many : exn := HTTPException 429 "Too many requests. Please slow down.".

(** [now] is [int(time.time())]; the result is the error raised, or [None]
    when the request is passed on to [call_next]. *)
Definition rate_limit_middleware (cfg : config) (now : Z) (r : request)
    (tbl : rate_table) : option exn * rate_table :=
  if RATE_LIMIT_PER_MIN cfg <=? 0 then (None, tbl)
  else
    let key := rate_key now r in
    let count := default 0 (tbl !! key) + 1 in
    let tbl := <[key := count]> tbl in
    if RATE_LIMIT_PER_MIN cfg <? count
    then (Some too_many, tbl)
    else (None, tbl).

(** The middleware over a sequence of requests, each with its arrival time:
    the verdicts in order, and the final table. *)
Fixpoint serve (cfg : config) (reqs : list (Z * request)) (tbl : rate_table)
    : list (option exn) * rate_table :=
  match reqs with
  | [] => ([], tbl)
  | (now, r) :: rest =>
      let '(v, tbl) := rate_limit_middleware cfg now r tbl in
      let '(vs, tbl) := serve cfg rest tbl in
      (v :: vs, tbl)
  end.

(** *** The file system and the handlers' monad *)

(** An absolute path: its components below the root. *)
Abbreviation path := (list str).

(** [str(path)] *)
Definition path_str (p : path) : str :=
  match p with
  | [] => py "/"
  | _ => concat (map (fun c => py "/" ++ c) p)
  end.

(** [base / rel]: an absolute [rel] replaces [base]. *)
Definition pjoin (base rel : str) : str :=
  if PyStr.startswith (py "/") rel then rel else base ++ py "/" ++ rel.

Fixpoint resolve_go (stack : list str) (comps : list str) : path :=
  match comps with
  | [] => rev stack
  | c :: cs =>
      if bool_decide (c = [] \/ c = py ".") then resolve_go stack cs
      else if bool_decide (c = py "..") then resolve_go (tail stack) cs
      else resolve_go (c :: stack) cs
  end.

(** [Path(p).resolve()] of an absolute path in a tree without symbolic
    links: empty components and ["."] go, [".."] climbs. *)
Definition resolve (p : str) : path := resolve_go [] (PyStr.split "/" p).

(** JSON values, as [json.loads] returns them. *)
Inductive jval :=
| JNull
| JBool (b : bool)
| JInt (n : Z)
| JFloat (x : Q)
| JStr (s : str)
| JArray
| JObject.

(** What [_read_lock] makes of the lock file: a JSON object, or nothing
    (unreadable, blank, not JSON, or JSON that is no object). *)
Inductive lock_content :=
| Garbage
| LockDict (d : gmap str jval).

Inductive event :=
| LockWritten
| LockRemoved
| PipelineRun.

(** The files the service works on: the paths that exist (files, and the
    directories made explicitly), the lock file at [LOCK_PATH] ([None] when
    it does not exist), and what has been done so far. *)
Record state := {
  files : gset path;
  lock_file : option lock_content;
  log : list event
}.

Definition set_files (f : gset path -> gset path) (st : state) : state :=
  {| files := f (files st); lock_file := lock_file st; log := log st |}.

Definition set_lock (l : option lock_content) (e : event) (st : state) : state :=
  {| files := files st; lock_file := l; log := log st ++ [e] |}.

Definition add_event (e : event) (st : state) : state :=
  {| files := files st; lock_file := lock_file st; log := log st ++ [e] |}.

(** A computation that may raise and changes the state either way. *)
Definition M (A : Type) : Type := state -> result A * state.

Definition ret {A} (a : A) : M A := fun st => (Ok a, st).
Definition raise {A} (e : exn) : M A := fun st => (Raise e, st).
Definition bind {A B} (m : M A) (k : A -> M B) : M B :=
  fun st =>
    match m st with
    | (Ok a, st') => k a st'
    | (Raise e, st') => (Raise e, st')
    end.
Definition lift {A} (r : result A) : M A := fun st => (r, st).
Definition get : M state := fun st => (Ok st, st).
Definition modify (f : state -> state) : M unit := fun st => (Ok tt, f st).

(** [try: body except Exception as e: handler(e)] *)
Definition try_except {A} (body : M A) (handler : exn -> M A) : M A :=
  fun st =>
    match body st with
    | (Ok a, st') => (Ok a, st')
    | (Raise e, st') => handler e st'
    end.

(** [try: body finally: final] *)
Definition try_finally {A} (body : M A) (final : M unit) : M A :=
  fun st =>
    match body st with
    | (Ok a, st') =>
        match final st' with
        | (Ok _, st'') => (Ok a, st'')
        | (Raise e, st'') => (Raise e, st'')
        end
    | (Raise e, st') =>
        match final st' with
        | (Ok _, st'') => (Raise e, st'')
        | (Raise e', st'') => (Raise e', st'')
        end
    end.

Declare Scope M_scope.
Delimit Scope M_scope with M.
Notation "x <- m ;; k" := (bind m (fun x => k))
  (at level 100, m at next level, right associativity) : M_scope.
Notation "m ;; k" := (bind m (fun _ => k))
  (at level 100, right associativity) : M_scope.
Local Open Scope M_scope.

Definition path_exists (p : path) (fs : gset path) : bool :=
  bool_decide (set_Exists (fun q => p `prefix_of` q) fs).

(** [shutil.rmtree(d, ignore_errors=True)] where removal is permitted:
    nothing at or below [d] is left. *)
Definition rmtree (d : path) (fs : gset path) : gset path :=
  filter (fun q => ~ d `prefix_of` q) fs.

(** *** The lock *)

(** The host the service runs on: which process ids have a [/proc] entry,
    the service's own id, and whether the lock file can be removed and
    written (an [OSError] otherwise). *)
Record host := {
  pid_alive : Z -> bool;
  getpid : Z;
  lock_removable : bool;
  lock_writable : bool
}.

Definition Qltb (x y : Q) : bool := negb (Qle_bool y x).

(** [isinstance(v, int)] ([bool] is a subclass of [int]) *)
Definition is_int (v : option jval) : bool :=
  match v with
  | Some (JInt _) | Some (JBool _) => true
  | _ => false
  end.

(** The number [v] is when [isinstance(v, (int, float))]. *)
Definition as_number (v : option jval) : option Q :=
  match v with
  | Some (JInt n) => Some (inject_Z n)
  | Some (JFloat x) => Some x
  | Some (JBool b) => Some (if b then 1%Q else 0%Q)
  | _ => None
  end.

(** [Path(f"/proc/{pid}").exists()]: [/proc/True] and [/proc/False] never
    exist. *)
Definition _pid_is_alive (h : host) (pid : option jval) : bool :=
  match pid with
  | Some (JInt n) => pid_alive h n
  | _ => false
  end.

Definition _read_lock (st : state) : option (gmap str jval) :=
  match lock_file st with
  | Some (LockDict d) => Some d
  | _ => None
  end.

(** [if not data]: [None] and the empty object are both false. *)
Definition truthy (data : option (gmap str jval)) : bool :=
  match data with
  | Some d => negb (bool_decide (d = ∅))
  | None => false
  end.

Definition lock_exists (st : state) : bool :=
  match lock_file st with Some _ => true | None => false end.

(** [try: LOCK_PATH.unlink() except OSError: pass] *)
Definition unlink_lock (h : host) : M unit :=
  fun st =>
    if lock_exists st && lock_removable h
    then (Ok tt, set_lock None LockRemoved st)
    else (Ok tt, st).

(** [fresh cfg now ts]: [isinstance(ts, (int, float)) and now - ts < LOCK_TTL_SECONDS] *)
Definition fresh (cfg : config) (now : Q) (ts : option jval) : bool :=
  match as_number ts with
  | Some t => Qltb (now - t) (inject_Z (LOCK_TTL_SECONDS cfg))
  | None => false
  end.

(** [now] is the reading of [time.time()] inside the function. *)
Definition _cleanup_lock (cfg : config) (h : host) (now : Q) : M unit :=
  st <- get ;;
  if negb (lock_exists st) then ret tt
  else
    let data := _read_lock st in
    if negb (truthy data) then unlink_lock h
    else
      let pid := default ∅ data !! py "pid" in
      let ts := default ∅ data !! py "ts" in
      if is_int pid && _pid_is_alive h pid then ret tt
      else if fresh cfg now ts then ret tt
      else unlink_lock h.

(** Entering [with _analysis_lock()]: [now] is read first, [now'] is the
    later reading taken by [_cleanup_lock]. *)
Definition enter_analysis_lock (cfg : config) (h : host) (now now' : Q) : M unit :=
  st <- get ;;
  (if lock_exists st then _cleanup_lock cfg h now' else ret tt) ;;
  st <- get ;;
  (if lock_exists st then
     let data := _read_lock st in
     let ts := if truthy data then default ∅ data !! py "ts" else None in
     if fresh cfg now ts
     then raise (HTTPException 429 "Analyzer is busy. Try again soon.")
     else unlink_lock h
   else ret tt) ;;
  if lock_writable h
  then modify (set_lock
                 (Some (LockDict (<[py "pid" := JInt (getpid h)]>
                                    (<[py "ts" := JFloat now]> ∅))))
                 LockWritten)
  else raise (HTTPException 500 "Unable to acquire analysis lock.").

(** [with _analysis_lock(): body] *)
Definition _analysis_lock {A} (cfg : config) (h : host) (now now' : Q)
    (body : M A) : M A :=
  enter_analysis_lock cfg h now now' ;;
  try_finally body (unlink_lock h).

(** *** _safe_extract_zip *)

(** A [ZipInfo]: what [infolist()] tells about a member. *)
Record zip_member := { filename : str; file_size : Z }.

(** [member.is_dir()] *)
Definition is_dir (m : zip_member) : bool := PyStr.endswith (py "/") (filename m).

(** The checks of the loop body on one member; [dest_dir] is the
    destination as a string. *)
Definition check_member (dest_dir : str) (m : zip_member) : result unit :=
  let target := pjoin dest_dir (filename m) in
  if negb (PyStr.startswith (path_str (resolve dest_dir)) (path_str (resolve target)))
  then Raise (HTTPException 400 "Invalid zip contents.")
  else if is_dir m then Ok tt
  else
    let ext := PyStr.lower (PyPath.suffix (filename m)) in
    if negb (bool_decide (ext = [])) && negb (bool_decide (ext ∈ ALLOWED_ARCHIVE_EXT))
    then Raise (HTTPException 400 "Zip contains unsupported file types.")
    else Ok tt.

Fixpoint check_members (dest_dir : str) (members : list zip_member) : result unit :=
  match members with
  | [] => Ok tt
  | m :: rest =>
      match check_member dest_dir m with
      | Ok _ => check_members dest_dir rest
      | Raise e => Raise e
      end
  end.

(** Where [ZipFile.extractall] writes a member: below the destination, the
    member's name without its empty, ["."] and [".."] components. *)
Definition extract_target (dest_dir : str) (m : zip_member) : path :=
  resolve dest_dir ++
  filter (fun c => c <> [] /\ c <> py "." /\ c <> py "..")
         (PyStr.split "/" (filename m)).

(** [zip_ref.extractall(dest_dir)] where the file system takes every
    member: the errors of the extraction itself (a member below another
    that is a file, a full disk, damaged data) are not modelled. *)
Definition extractall (dest_dir : str) (members : list zip_member) : M unit :=
  modify (set_files (fun fs => fs ∪ list_to_set (map (extract_target dest_dir) members))).

Definition _safe_extract_zip (cfg : config) (members : list zip_member)
    (dest_dir : str) : M unit :=
  if MAX_ZIP_FILES cfg <? Z.of_nat (length members)
  then raise (HTTPException 400 "Zip file contains too many entries.")
  else
    let total_uncompressed := sum_Z (map file_size members) in
    if MAX_ZIP_UNCOMPRESSED_BYTES cfg <? total_uncompressed
    then raise (HTTPException 400 "Zip file is too large to extract.")
    else
      lift (check_members dest_dir members) ;;
      extractall dest_dir members.

(** *** The request handlers *)

Inductive clam_result :=
| NotInstalled            (* shutil.which finds no clamscan *)
| Exited (returncode : Z)
| ScanTimedOut.           (* subprocess.TimeoutExpired *)

Inductive pipeline_result :=
| Finished (returncode : Z) (written : list str)   (* names written to OUTPUT_DIR *)
| PipelineTimedOut.                                 (* subprocess.TimeoutExpired *)

(** What the handlers get from outside: the host, the clock, the disk, and
    the outcomes of the programs and libraries they call. *)
Record world := {
  the_host : host;
  now : Q;
  now' : Q;
  free_gb : Z;
  expired_runs : list path;
  upload_writable : bool;
  clamscan : path -> clam_result;
  zip_infolist : path -> option (list zip_member);
  listlayers : path -> option (list (option gdf));
  read_file : path -> option gdf;
  coverage_available : bool;
  covers : str -> geom -> bool;
  to_file_writable : bool;
  pipeline : path -> pipeline_result
}.

Section Handlers.

Variable cfg : config.
Variable w : world.

(** [BASE_DIR]: where the service is installed. *)
Variable BASE_DIR : path.

Definition OUTPUT_DIR : path := BASE_DIR ++ [py "output"].
Definition RUNS_DIR : path := OUTPUT_DIR ++ [py "web_runs"].

Definition _normalize_lang (lang : option str) : string :=
  match lang with
  | None | Some [] => "de"
  | Some l => if PyStr.startswith (py "en") (PyStr.lower l) then "en" else "de"
  end.

Definition _done_message (lang : option str) : string :=
  if decide (_normalize_lang lang = "en") then "Analysis completed."
  else "Analyse abgeschlossen.".

Definition _ensure_disk_space : M unit :=
  if free_gb w <? MIN_FREE_DISK_GB cfg
  then raise (HTTPException 507 "Server disk space is too low.")
  else ret tt.

(** [expired_runs w] are the run directories whose modification time is
    before the cut-off (none when the retention is switched off). *)
Definition _cleanup_old_runs : M unit :=
  modify (set_files (fun fs => foldr rmtree fs (expired_runs w))).

Definition _cleanup_run_dir (run_dir : path) : M unit :=
  st <- get ;;
  if path_exists run_dir (files st)
  then modify (set_files (rmtree run_dir))
  else ret tt.

(** The file is created before the first chunk is read; too large a stream
    is refused once the limit is passed. *)
Definition _write_upload (size : Z) (destination : path) : M Z :=
  if negb (upload_writable w) then raise (OtherException "OSError")
  else
    modify (set_files (fun fs => fs ∪ {[destination]})) ;;
    if MAX_UPLOAD_BYTES cfg <? size
    then raise (HTTPException 413 "Upload too large.")
    else ret size.

Definition _run_clamscan (p : path) : M unit :=
  match clamscan w p with
  | NotInstalled =>
      if REQUIRE_CLAMSCAN cfg
      then raise (HTTPException 500 "clamscan is not installed on the server.")
      else ret tt
  | ScanTimedOut => raise (OtherException "TimeoutExpired")
  | Exited rc =>
      if decide (rc = 1) then raise (HTTPException 400 "Upload failed malware scan.")
      else if decide (rc <> 0) then raise (HTTPException 500 "clamscan failed.")
      else ret tt
  end.

Fixpoint str_leb (a b : str) : bool :=
  match a, b with
  | [], _ => true
  | _ :: _, [] => false
  | x :: a', y :: b' =>
      if decide (x = y) then str_leb a' b'
      else (nat_of_ascii x <? nat_of_ascii y)%nat
  end.

Fixpoint path_leb (a b : path) : bool :=
  match a, b with
  | [], _ => true
  | _ :: _, [] => false
  | x :: a', y :: b' =>
      if decide (x = y) then path_leb a' b' else str_leb x y
  end.

Definition str_le (a b : str) : Prop := str_leb a b = true.
Definition path_le (a b : path) : Prop := path_leb a b = true.

Global Instance str_le_dec : RelDecision str_le :=
  fun a b => decide (str_leb a b = true).
Global Instance path_le_dec : RelDecision path_le :=
  fun a b => decide (path_leb a b = true).

(** [sorted(upload_dir.rglob("*.shp"))] *)
Definition rglob_shp (upload_dir : path) (fs : gset path) : list path :=
  merge_sort path_le
    (filter (fun q => upload_dir `prefix_of` q /\ q <> upload_dir /\
                       PyStr.endswith (py ".shp") (default [] (last q)) = true)
            (elements fs)).

Definition _find_shapefile (upload_dir : path) : M path :=
  st <- get ;;
  match rglob_shp upload_dir (files st) with
  | [] => raise (HTTPException 400 "No .shp file found in upload.")
  | first :: _ => ret first
  end.

(** [p.with_suffix(ext)] *)
Definition with_suffix (p : path) (ext : str) : path :=
  removelast p ++ [PyPath.stem (default [] (last p)) ++ ext].

Definition _validate_shapefile (shp_path : path) : M unit :=
  st <- get ;;
  let missing :=
    filter (fun ext => path_exists (with_suffix shp_path ext) (files st) = false)
           [py ".shx"; py ".dbf"] in
  match missing with
  | _ :: _ => raise (HTTPException 400 "Missing shapefile components.")
  | [] =>
      if negb (path_exists (with_suffix shp_path (py ".prj")) (files st))
      then raise (HTTPException 400 "Missing .prj CRS file.")
      else ret tt
  end.

Definition _load_geodataframe (p : path) : M gdf :=
  match read_file w p with
  | Some g => ret g
  | None => raise (HTTPException 400 "Unable to read the vector file.")
  end.

(** [gdf.empty] *)
Definition gdf_empty (g : gdf) : bool := bool_decide (geometry g = []).

Fixpoint first_usable_layer (layers : list (option gdf)) : M gdf :=
  match layers with
  | [] => raise (HTTPException 400 "GeoPackage has no usable features.")
  | None :: _ => raise (HTTPException 400 "Unable to read the vector file.")
  | Some g :: rest => if gdf_empty g then first_usable_layer rest else ret g
  end.

Definition _load_geopackage (p : path) : M gdf :=
  match listlayers w p with
  | None => raise (HTTPException 400 "Invalid GeoPackage file.")
  | Some [] => raise (HTTPException 400 "GeoPackage has no layers.")
  | Some layers => first_usable_layer layers
  end.

(** [geom_type.str.contains("polygon", case=False)] *)
Definition is_polygonal (g : geom) : bool :=
  PyStr.contains (py "polygon") (PyStr.lower (py (geom_type g))).

Definition notnull (gs : list (option geom)) : list geom := omap id gs.

Definition _ensure_within_coverage (g : gdf) : M unit :=
  if negb (coverage_available w) then raise (OtherException "RuntimeError")
  else
    match crs g with
    | None => raise (HTTPException 400 "CRS is missing. Please include a .prj file.")
    | Some c =>
        let gs := notnull (geometry g) in
        if bool_decide (gs = []) then raise (HTTPException 400 "No valid geometries found.")
        else if negb (existsb is_polygonal gs)
        then raise (HTTPException 400 "Only polygon geometries are supported.")
        else if existsb (fun x => negb (covers w c x)) gs
        then raise (HTTPException 400 "All polygons must lie within the raster coverage area.")
        else ret tt
    end.

(** [gdf.set_crs("EPSG:4326", allow_override=True)] when there is no CRS *)
Definition default_crs (g : gdf) : gdf :=
  match crs g with
  | None => {| geometry := geometry g; crs := Some (py "EPSG:4326") |}
  | Some _ => g
  end.

(** [gdf.to_file(shp_path, driver="ESRI Shapefile")] writes the shapefile
    and its companions. *)
Definition to_file (shp_path : path) : M unit :=
  if negb (to_file_writable w) then raise (OtherException "DriverError")
  else
    modify (set_files (fun fs =>
      fs ∪ list_to_set (map (with_suffix shp_path)
                            [py ".shp"; py ".shx"; py ".dbf"; py ".prj"; py ".cpg"]))).

(** The direct children of [OUTPUT_DIR] whose name starts with [stem_]. *)
Definition output_of_stem (stem : str) (q : path) : bool :=
  bool_decide (q <> [] /\ removelast q = OUTPUT_DIR)
  && PyStr.startswith (stem ++ py "_") (default [] (last q)).

Definition _purge_outputs_for_stem (stem : str) : M unit :=
  modify (set_files (filter (fun q => output_of_stem stem q = false))).

(** The outputs [_collect_outputs] copies: the plots and the map. *)
Definition is_output (stem : str) (q : path) : bool :=
  let sfx := PyStr.lower (PyPath.suffix (default [] (last q))) in
  output_of_stem stem q && bool_decide (sfx = py ".png" \/ sfx = py ".html").

Definition _collect_outputs (shp_stem : str) (run_dir : path) : M (list str) :=
  let results_dir := run_dir ++ [py "results"] in
  modify (set_files (fun fs => fs ∪ {[results_dir]})) ;;
  st <- get ;;
  let found := filter (fun q => is_output shp_stem q = true) (elements (files st)) in
  modify (set_files (fun fs =>
    fs ∪ list_to_set (map (fun q => results_dir ++ [default [] (last q)]) found))) ;;
  match found with
  | [] => raise (HTTPException 500 "No outputs were generated.")
  | _ =>
      ret (merge_sort str_le
                      (map (fun q => default [] (last q)) found))
  end.

(** [subprocess.run([... "ZonalClimateAnalyzer.py", shp_path], timeout=3600)] *)
Definition run_pipeline (shp_path : path) : M Z :=
  modify (add_event PipelineRun) ;;
  match pipeline w shp_path with
  | PipelineTimedOut => raise (OtherException "TimeoutExpired")
  | Finished rc written =>
      modify (set_files (fun fs =>
        fs ∪ list_to_set (map (fun n => OUTPUT_DIR ++ [n]) written))) ;;
      ret rc
  end.

Definition _run_analyzer (shp_path : path) (run_dir : path) : M (list str) :=
  let stem := PyPath.stem (default [] (last shp_path)) in
  _purge_outputs_for_stem stem ;;
  returncode <- _analysis_lock cfg (the_host w) (now w) (now' w) (run_pipeline shp_path) ;;
  if decide (returncode <> 0)
  then raise (HTTPException 500 "Analyzer failed.")
  else _collect_outputs stem run_dir.

(** The answer of a successful analysis. *)
Record response := {
  runId : str;
  message : string;
  outputs : list str;
  zipUrl : str
}.

Definition respond (run_id : str) (lang : option str) (outs : list str) : response :=
  {| runId := run_id;
     message := _done_message lang;
     outputs := outs;
     zipUrl := py "/api/runs/" ++ run_id ++ py "/download" |}.

(** [except HTTPException: cleanup; raise] and
    [except Exception: cleanup; raise HTTPException(500)] *)
Definition cleanup_handler {A} (run_dir : path) (e : exn) : M A :=
  match e with
  | HTTPException _ _ => _cleanup_run_dir run_dir ;; raise e
  | OtherException _ =>
      _cleanup_run_dir run_dir ;;
      raise (HTTPException 500 "Unexpected server error.")
  end.

(** [mkdir(parents=True, exist_ok=True)] of the upload directory *)
Definition mkdir_upload (run_dir upload_dir : path) : M unit :=
  modify (set_files (fun fs => fs ∪ {[run_dir; upload_dir]})).

(** The upload of a request: the file name sent by the client, the number
    of bytes of the stream, and the language. *)
Record upload := {
  up_filename : str;
  up_size : Z;
  up_lang : option str
}.

(** The [try] block of [analyze]. *)
Definition analyze_body (u : upload) (run_id : str) (ext : str)
    (run_dir upload_dir upload_path : path) : M response :=
  _write_upload (up_size u) upload_path ;;
  _run_clamscan upload_path ;;
  (if decide (ext = py ".zip") then
     match zip_infolist w upload_path with
     | None => raise (HTTPException 400 "Invalid zip file.")
     | Some members => _safe_extract_zip cfg members (path_str upload_dir)
     end ;;
     _run_clamscan upload_dir
   else ret tt) ;;
  shp_path <-
    (if bool_decide (ext = py ".gpkg" \/ ext = py ".geojson") then
       g <- (if decide (ext = py ".gpkg") then _load_geopackage upload_path
             else _load_geodataframe upload_path) ;;
       lift (_validate_geo_limits cfg g) ;;
       let g := default_crs g in
       _ensure_within_coverage g ;;
       let shp_path := upload_dir ++ [py "uploaded_vector.shp"] in
       to_file shp_path ;;
       ret shp_path
     else
       shp_path <- _find_shapefile upload_dir ;;
       _validate_shapefile shp_path ;;
       g <- _load_geodataframe shp_path ;;
       lift (_validate_geo_limits cfg g) ;;
       _ensure_within_coverage g ;;
       ret shp_path) ;;
  outs <- _run_analyzer shp_path run_dir ;;
  ret (respond run_id (up_lang u) outs).

(** [run_id] is the fresh [uuid4().hex]; the upload path is kept in the
    form the system opens it in, with [".."] components followed. *)
Definition analyze (u : upload) (run_id : str) : M response :=
  _ensure_disk_space ;;
  _cleanup_old_runs ;;
  let ext := PyStr.lower (PyPath.suffix (up_filename u)) in
  if negb (bool_decide (ext ∈ ALLOWED_EXT))
  then raise (HTTPException 400 "Unsupported file type.")
  else
    let run_dir := RUNS_DIR ++ [run_id] in
    let upload_dir := run_dir ++ [py "upload"] in
    mkdir_upload run_dir upload_dir ;;
    let upload_path := resolve (pjoin (path_str upload_dir) (up_filename u)) in
    try_except
      (analyze_body u run_id ext run_dir upload_dir upload_path)
      (cleanup_handler run_dir).

(** The [try] block of [analyze_geojson]. *)
Definition analyze_geojson_body (lang : option str) (run_id : str)
    (run_dir upload_dir geojson_path : path) : M response :=
  modify (set_files (fun fs => fs ∪ {[geojson_path]})) ;;
  _run_clamscan geojson_path ;;
  g <- match read_file w geojson_path with
       | Some g => ret g
       | None => raise (HTTPException 400 "Invalid GeoJSON.")
       end ;;
  (if gdf_empty g then raise (HTTPException 400 "GeoJSON has no features.")
   else if negb (existsb is_polygonal (notnull (geometry g)))
   then raise (HTTPException 400 "Only polygon geometries are supported.")
   else ret tt) ;;
  lift (_validate_geo_limits cfg g) ;;
  let g := default_crs g in
  _ensure_within_coverage g ;;
  let shp_path := upload_dir ++ [py "drawn.shp"] in
  to_file shp_path ;;
  outs <- _run_analyzer shp_path run_dir ;;
  ret (respond run_id lang outs).

Definition analyze_geojson (lang : option str) (run_id : str) : M response :=
  _ensure_disk_space ;;
  _cleanup_old_runs ;;
  let run_dir := RUNS_DIR ++ [run_id] in
  let upload_dir := run_dir ++ [py "upload"] in
  mkdir_upload run_dir upload_dir ;;
  let geojson_path := upload_dir ++ [py "drawn.geojson"] in
  try_except
    (analyze_geojson_body lang run_id run_dir upload_dir geojson_path)
    (cleanup_handler run_dir).

End Handlers.

End Server.

(** ** More of ZonalClimateAnalyzer.py *)

Module Listing.
Import Server.

(** [Path(name).suffixes] *)
Definition suffixes (name : str) : list str :=
  if PyStr.endswith (py ".") name then []
  else map (fun s => "."%char :: s) (tail (PyStr.split "." (PyStr.lstrip "." name))).

(** ["".join(f.suffixes).lower().endswith(file_type.lower())] *)
Definition has_file_type (file_type name : str) : bool :=
  PyStr.endswith (PyStr.lower file_type) (PyStr.lower (concat (suffixes name))).

(** [list_of_files(folder, file_type)]: [dir] is [str(folder)], and the
    folder is [None] when it does not exist. *)
Definition list_of_files (dir : str) (folder : option folder) (file_type : str)
    : list str :=
  match folder with
  | None => []
  | Some d =>
      merge_sort str_le
        (map (fun n => dir ++ py "/" ++ n)
             (filter (fun n => d !! n = Some File /\ has_file_type file_type n = true)
                     (elements (dom d))))
  end.

End Listing.

Module Visualize.

(** A record of [zonal_stats]; a value is [None] where no cell was met. *)
Record stat := {
  s_min : option Q;
  s_max : option Q;
  s_mean : option Q;
  s_count : Z
}.

(** The table as [json.load] returns it: variable, then year (a [dict]
    in the order of the file), then the records. *)
Abbreviation series := (list (str * list stat)).
Abbreviation rs_table := (gmap str series).

Definition digit_value (c : ascii) : option Z :=
  let n := nat_of_ascii c in
  if (48 <=? n)%nat && (n <=? 57)%nat then Some (Z.of_nat (n - 48)) else None.

(** The digits of an [int] literal: underscores are allowed, one at a time,
    between digits. *)
Fixpoint digits_go (acc : Z) (after_digit : bool) (r : str) : option Z :=
  match r with
  | [] => if after_digit then Some acc else None
  | c :: r' =>
      match digit_value c with
      | Some d => digits_go (10 * acc + d) true r'
      | None =>
          if decide (c = "_"%char)
          then (if after_digit then digits_go acc false r' else None)
          else None
      end
  end.

(** The white space [int()] skips at both ends of its argument: below 256
    the characters 9 to 13, 32, 133 and 160 (not 28 to 31, which
    [str.strip()] removes). *)
Definition is_int_space (c : ascii) : bool :=
  let n := nat_of_ascii c in
  ((9 <=? n)%nat && (n <=? 13)%nat) || (n =? 32)%nat || (n =? 133)%nat
  || (n =? 160)%nat.

Fixpoint lstrip_int_space (s : str) : str :=
  match s with
  | c :: r => if is_int_space c then lstrip_int_space r else s
  | [] => []
  end.

Definition strip_int_space (s : str) : str :=
  rev (lstrip_int_space (rev (lstrip_int_space s))).

(** The number of digits of a literal, underscores not counted. *)
Definition count_digits (r : str) : Z :=
  Z.of_nat (length (filter (fun c => bool_decide (is_Some (digit_value c))) r)).

Section Int.

(** [sys.get_int_max_str_digits()]: 4300 unless the interpreter is told
    otherwise, 0 for no bound (as in an interpreter that has none). *)
Variable max_str_digits : Z.

(** The number of digits up to which the bound is not looked at. *)
Definition MAX_STR_DIGITS_THRESHOLD : Z := 640.

(** [int(s)] in base ten; [None] stands for [ValueError]. White space at
    both ends is skipped, a sign may stand directly before the digits, and
    a well-formed literal of more digits than the threshold and than a
    positive [max_str_digits] is refused. *)
Definition py_int (s : str) : option Z :=
  let literal (r : str) : option Z :=
    n ← digits_go 0 false r;
    if (MAX_STR_DIGITS_THRESHOLD <? count_digits r)
       && (0 <? max_str_digits) && (max_str_digits <? count_digits r)
    then None else Some n in
  match strip_int_space s with
  | "+"%char :: r => literal r
  | "-"%char :: r => Z.opp <$> literal r
  | r => literal r
  end.

(** [sorted(l, key=...)] with the keys computed: a stable sort. *)
Fixpoint insert_by_key (x : Z * str) (l : list (Z * str)) : list (Z * str) :=
  match l with
  | [] => [x]
  | y :: l' => if x.1 <=? y.1 then x :: y :: l' else y :: insert_by_key x l'
  end.

Definition sort_by_key (l : list (Z * str)) : list (Z * str) :=
  foldr insert_by_key [] l.

(** The order of the keys, in which the sortedness of the result is
    stated. *)
Definition key_le (x y : Z * str) : Prop := x.1 <= y.1.

(** [d[y]] of a [dict] given as the list of its items *)
Fixpoint item (y : str) (d : series) : option (list stat) :=
  match d with
  | [] => None
  | (k, v) :: d' => if decide (k = y) then Some v else item y d'
  end.

Inductive lookup_error :=
| KeyError
| ValueError.

(** [years = sorted(rs_data[title], key=lambda y: int(y))] *)
Definition sorted_years (d : series) : option (list str) :=
  keys ← mapM (fun y => (fun n => (n, y)) <$> py_int y) d.*1;
  Some (sort_by_key keys).*2.

(** The three loops: the values of one field, year after year. *)
Definition values_of (field : stat -> option Q) (d : series) (years : list str)
    : list (option Q) :=
  concat (map (fun y => map field (default [] (item y d))) years).

Definition years_values (rs_data : rs_table) (parameter_name : str)
    : lookup_error
      + (str * list str * list (option Q) * list (option Q) * list (option Q)) :=
  match rs_data !! parameter_name with
  | None => inl KeyError
  | Some d =>
      match sorted_years d with
      | None => inl ValueError
      | Some years =>
          inr (parameter_name, years,
               values_of s_max d years, values_of s_mean d years,
               values_of s_min d years)
      end
  end.

End Int.

End Visualize.

(** ** More of api/server.py *)

Module Gateway.
Import Server.
Local Open Scope M_scope.

(** [_allowed_origins()]: [raw] is the value of ZCA_ALLOWED_ORIGINS, [None]
    when the variable is not set. *)
Definition _allowed_origins (raw : option str) : list str :=
  match raw with
  | None | Some [] => [py "http://localhost:5173"; py "http://127.0.0.1:5173"]
  | Some raw =>
      filter (fun origin => origin <> [])
             (map PyStr.strip (PyStr.split "," raw))
  end.

Section Download.
Variable BASE_DIR : path.

(** [_build_run_zip]: the archive is written next to the results. *)
Definition _build_run_zip (run_dir : path) : M path :=
  st <- get ;;
  if negb (path_exists (run_dir ++ [py "results"]) (files st))
  then raise (HTTPException 404 "Run results not found.")
  else
    let zip_path := run_dir ++ [py "outputs.zip"] in
    modify (set_files (fun fs => fs ∪ {[zip_path]})) ;;
    ret zip_path.

(** [GET /api/runs/{run_id}/download] *)
Definition download_run_outputs (run_id : str) : M path :=
  let run_dir := RUNS_DIR BASE_DIR ++ [run_id] in
  st <- get ;;
  if negb (path_exists run_dir (files st))
  then raise (HTTPException 404 "Run not found.")
  else _build_run_zip run_dir.

End Download.

(** *** Notions used to state the properties of the service

    None of these is in the source: they name what the theorems below
    speak of. *)

(** The two errors of [_analysis_lock]. *)
Definition busy : exn := HTTPException 429 "Analyzer is busy. Try again soon.".
Definition no_lock : exn := HTTPException 500 "Unable to acquire analysis lock.".

(** The lock file as a successful entry at [now] writes it. *)
Definition own_lock (h : host) (now : Q) : lock_content :=
  LockDict (<[py "pid" := JInt (getpid h)]> (<[py "ts" := JFloat now]> ∅)).

(** The requests of [reqs] that the rate limiter counts under the key [k]. *)
Definition seen (k : Z * str) (reqs : list (Z * request)) : nat :=
  length (filter (fun p => rate_key p.1 p.2 = k) reqs).

(** What lies under the run directory when the shapefile is looked for:
    the directory, its upload directory, and the uploaded file. *)
Definition only_upload (run_dir upload_path : path) (fs : gset path) : Prop :=
  forall q, q ∈ fs -> run_dir `prefix_of` q ->
    q = run_dir \/ q = run_dir ++ [py "upload"] \/ q = upload_path.

(** The statuses the service answers failures with. *)
Definition ERROR_STATUSES : list Z := [400; 413; 429; 500; 507].

(** What a stage inside the guarded block may raise: an HTTP error with
    one of the statuses, or an exception that is none. *)
Definition expected (e : exn) : Prop :=
  match e with
  | HTTPException code _ => code ∈ ERROR_STATUSES
  | OtherException _ => True
  end.

(** An HTTP error with one of the statuses. *)
Definition listed (e : exn) : Prop :=
  exists code detail, e = HTTPException code detail /\ code ∈ ERROR_STATUSES.

(** [m] raises nothing but what [P] allows. *)
Definition raises_only {A} (P : exn -> Prop) (m : M A) : Prop :=
  forall st e st', m st = (Raise e, st') -> P e.

End Gateway.

(** ** A sample installation

    A host, a world and two uploads on which the handlers can be run. *)

Module Sample.
Import Server.

Definition the_server : host :=
  {| pid_alive := fun p => p =? 77; getpid := 77;
     lock_removable := true; lock_writable := true |}.

Definition square : gdf :=
  {| geometry := [Some (Polygon {| exterior := Some [(0, 0); (1, 0); (1, 1); (0, 0)]%Q;
                                   interiors := [] |})];
     crs := Some (py "EPSG:4326") |}.

Definition shapefile_parts : list zip_member :=
  [ {| filename := py "area.shp"; file_size := 10 |};
    {| filename := py "area.shx"; file_size := 10 |};
    {| filename := py "area.dbf"; file_size := 10 |};
    {| filename := py "area.prj"; file_size := 10 |} ].

Definition the_world : world :=
  {| the_host := the_server; now := 100; now' := 100; free_gb := 50;
     expired_runs := []; upload_writable := true;
     clamscan := fun _ => NotInstalled;
     zip_infolist := fun _ => Some shapefile_parts;
     listlayers := fun _ => None;
     read_file := fun _ => Some square;
     coverage_available := true; covers := fun _ _ => true;
     to_file_writable := true;
     pipeline := fun _ => Finished 0 [py "area_map.html"; py "area_frost_eistage.png"] |}.

(** The same, with a pipeline that runs out of time. *)
Definition slow_world : world :=
  {| the_host := the_server; now := 100; now' := 100; free_gb := 50;
     expired_runs := []; upload_writable := true;
     clamscan := fun _ => NotInstalled;
     zip_infolist := fun _ => Some shapefile_parts;
     listlayers := fun _ => None;
     read_file := fun _ => Some square;
     coverage_available := true; covers := fun _ _ => true;
     to_file_writable := true;
     pipeline := fun _ => PipelineTimedOut |}.

Definition install_dir : path := [py "srv"].

Definition before : state :=
  {| files := {[ [py "srv"; py "output"; py "old.png"] ]};
     lock_file := None; log := [] |}.

Definition small_upload : upload :=
  {| up_filename := py "area.zip"; up_size := 1000; up_lang := Some (py "en") |}.

Definition oversized_upload : upload :=
  {| up_filename := py "area.zip"; up_size := 10 ^ 9; up_lang := None |}.

(** A client behind no proxy. *)
Definition a_client : request :=
  {| x_forwarded_for := []; client_host := Some (py "10.0.0.1");
     url_path := py "/api/analyze" |}.

(** The path of a link that is a path already. *)
Definition path_only (link : str) : str := link.

(** The configuration of a service started with ZCA_LOCK_TTL_SECONDS=60. *)
Definition one_minute_lock : config := {|
  MAX_UPLOAD_BYTES := 200 * 1024 * 1024;
  MAX_ZIP_FILES := 2000;
  MAX_ZIP_UNCOMPRESSED_BYTES := 1600 * 1024 * 1024;
  MAX_FEATURES := 2000;
  MAX_VERTICES := 200000;
  MIN_FREE_DISK_GB := 2;
  RATE_LIMIT_PER_MIN := 120;
  REQUIRE_CLAMSCAN := false;
  LOCK_TTL_SECONDS := 60
|}.

(** A lock left by process 4242 at time 1000. *)
Definition held_by_4242 : state :=
  {| files := ∅;
     lock_file := Some (LockDict (<[py "pid" := JInt 4242]>
                                   (<[py "ts" := JFloat 1000]> ∅)));
     log := [] |}.

End Sample.

(** * Properties *)

(** ** Python strings *)

Module PyStrFacts.
Import PyStr.

Lemma startswith_app (p t : str) : startswith p (p ++ t) = true.
Proof. induction p as [|a p IH]; simpl; [done|]. by rewrite decide_True. Qed.

Lemma startswith_inv (p s : str) :
  startswith p s = true -> exists t, s = p ++ t.
Proof.
  revert s. induction p as [|a p IH]; intros s H; simpl in *.
  - by exists s.
  - destruct s as [|b s]; [done|]. destruct (decide (a = b)) as [->|]; [|done].
    destruct (IH _ H) as [t ->]. by exists t.
Qed.

(** A match that begins in [x] and is not inside [x] runs into [y]. *)
Lemma startswith_app_split (p x y : str) :
  startswith p (x ++ y) = true ->
  startswith p x = true \/ exists c, head y = Some c /\ c ∈ p.
Proof.
  revert x. induction p as [|a p IH]; intros x H; simpl in *; [by left|].
  destruct x as [|b x]; simpl in *.
  - destruct y as [|c y]; [done|]. destruct (decide (a = c)) as [->|]; [|done].
    right. exists c. split; [done|]. apply list_elem_of_here.
  - destruct (decide (a = b)) as [->|]; [|done].
    destruct (IH _ H) as [?|(c & ? & ?)]; [by left|].
    right. exists c. split; [done|]. by apply list_elem_of_further.
Qed.

Lemma endswith_app (b suf : str) : endswith suf (b ++ suf) = true.
Proof. unfold endswith. rewrite rev_app_distr. apply startswith_app. Qed.

Lemma endswith_inv (suf s : str) :
  endswith suf s = true -> exists b, s = b ++ suf.
Proof.
  unfold endswith. intros H. destruct (startswith_inv _ _ H) as [t Ht].
  exists (rev t). rewrite <- (rev_involutive s), Ht, rev_app_distr.
  by rewrite rev_involutive.
Qed.

Lemma drop_last_app (b suf : str) : drop_last (length suf) (b ++ suf) = b.
Proof.
  unfold drop_last. rewrite length_app.
  replace (length b + length suf - length suf)%nat with (length b) by lia.
  by rewrite take_app_length.
Qed.

Lemma take_last_app (b suf : str) : take_last (length suf) (b ++ suf) = suf.
Proof.
  unfold take_last. rewrite length_app.
  replace (length b + length suf - length suf)%nat with (length b) by lia.
  by rewrite drop_app_length.
Qed.

Lemma contains_cons_false (pat : str) (c : ascii) (s : str) :
  contains pat (c :: s) = false ->
  startswith pat (c :: s) = false /\ contains pat s = false.
Proof. simpl. intros H. by apply orb_false_iff in H. Qed.

Lemma contains_app_false (pat b y : str) (c : ascii) :
  contains pat b = false -> contains pat y = false ->
  head y = Some c -> c ∉ pat ->
  contains pat (b ++ y) = false.
Proof.
  intros Hb Hy Hh Hc. induction b as [|a b IH]; [done|].
  apply contains_cons_false in Hb as [H1 H2].
  change ((a :: b) ++ y) with (a :: (b ++ y)).
  cbn [contains]. rewrite (IH H2), orb_false_r.
  destruct (startswith pat (a :: b ++ y)) eqn:E; [|done].
  destruct (startswith_app_split pat (a :: b) y E) as [?|(c' & ? & ?)]; [congruence|].
  naive_solver.
Qed.

Lemma remove_go_absent (old s : str) :
  contains old s = false -> remove_go old 0 s = s.
Proof.
  induction s as [|c s IH]; intros H; [done|].
  apply contains_cons_false in H as [H1 H2].
  cbn [remove_go]. rewrite H1. by rewrite (IH H2).
Qed.

Lemma remove_go_skip (old pre s : str) :
  remove_go old (length pre) (pre ++ s) = remove_go old 0 s.
Proof. induction pre as [|c pre IH]; [done|]. simpl. apply IH. Qed.

(** [(old + s).replace(old, "")] when [s] holds no further occurrence *)
Lemma remove_prefix (old s : str) :
  old <> [] -> contains old s = false -> remove old (old ++ s) = s.
Proof.
  intros Hne Hs. destruct old as [|a old]; [done|].
  unfold remove. change ((a :: old) ++ s) with (a :: (old ++ s)).
  cbn [remove_go]. change (a :: old ++ s) with ((a :: old) ++ s).
  rewrite startswith_app.
  replace (length (a :: old) - 1)%nat with (length old) by (simpl; lia).
  rewrite remove_go_skip. by apply remove_go_absent.
Qed.

Lemma split_absent (sep : ascii) (s : str) :
  contains [sep] s = false -> split sep s = [s].
Proof.
  induction s as [|c s IH]; intros H; [done|].
  apply contains_cons_false in H as [H1 H2]. simpl in H1.
  destruct (decide (sep = c)) as [->|Hne]; [done|].
  simpl. rewrite decide_False by congruence. by rewrite (IH H2).
Qed.

(** Nothing is stripped from a string that ends in another character. *)
Lemma rstrip_snoc (c a : ascii) (s : str) : a <> c -> rstrip c (s ++ [a]) = s ++ [a].
Proof.
  intros H. unfold rstrip. rewrite rev_app_distr. simpl.
  rewrite decide_False by done. change (rev (a :: rev s) = s ++ [a]).
  simpl. by rewrite rev_involutive.
Qed.

End PyStrFacts.

(** ** Canonical names *)

Module NamingSpec.
Import PyStr PyStrFacts Analyzer.

Lemma contains_single (c : ascii) (s : str) : contains [c] s = false <-> c ∉ s.
Proof.
  induction s as [|a s IH]; simpl.
  - split; [intros _; apply not_elem_of_nil|done].
  - rewrite not_elem_of_cons, <- IH. destruct (decide (c = a)) as [->|Hne]; simpl.
    + split; [done|]. by intros [? _].
    + split; [by intros ?|by intros [_ ?]].
Qed.

Lemma name_of_bare (s : str) :
  contains (py "/") s = false -> s <> [] -> s <> py "." -> PyPath.name s = s.
Proof.
  intros H Hne Hdot. unfold PyPath.name, PyPath.parts.
  rewrite (split_absent "/" s H). cbn [filter list_filter].
  by rewrite decide_True.
Qed.

Lemma known_suffix_cases (suf : str) :
  suf ∈ KNOWN_SUFFIXES ->
  suf = py ".asc.gz" \/ suf = py ".zip" \/ suf = py ".asc" \/ suf = py ".tif".
Proof. unfold KNOWN_SUFFIXES. rewrite !elem_of_cons, elem_of_nil. tauto. Qed.

(** Exactly the suffix that is there is stripped, once. *)
Lemma strip_known_suffix (b suf : str) :
  suf ∈ KNOWN_SUFFIXES -> strip_first_suffix KNOWN_SUFFIXES (b ++ suf) = b.
Proof.
  intros H. apply known_suffix_cases in H as [-> | [-> | [-> | ->]]];
    unfold KNOWN_SUFFIXES; cbn [strip_first_suffix];
    repeat match goal with
    | |- context [endswith ?p (b ++ ?p)] => rewrite (endswith_app b p)
    | |- context [endswith ?p (b ++ ?q)] =>
        replace (endswith p (b ++ q)) with false
          by (unfold endswith; rewrite rev_app_distr; reflexivity)
    end; apply drop_last_app.
Qed.

(** The stages of [rename_dwd_file] on a name made of the prefix, a body
    and a known suffix. *)
Lemma rename_dwd_file_stages (b suf : str) :
  contains (py "/") b = false ->
  contains DWD_PREFIX b = false ->
  suf ∈ KNOWN_SUFFIXES ->
  rename_dwd_file (DWD_PREFIX ++ b ++ suf)
  = rstrip "_" (drop_period_code b) ++ py ".asc".
Proof.
  intros Hslash Hpre Hsuf. unfold rename_dwd_file.
  assert (Hs : contains (py "/") suf = false /\ contains DWD_PREFIX suf = false
               /\ head suf = Some "."%char).
  { apply known_suffix_cases in Hsuf as [-> | [-> | [-> | ->]]]; by vm_compute. }
  destruct Hs as (Hs1 & Hs2 & Hs3).
  rewrite name_of_bare.
  - rewrite remove_prefix; [|done|].
    + by rewrite strip_known_suffix.
    + apply (contains_app_false _ _ _ "."%char); [done..|].
      apply contains_single. reflexivity.
  - apply contains_single. rewrite !not_elem_of_app.
    split; [by apply contains_single|].
    split; by apply contains_single.
  - done.
  - done.
Qed.

Lemma endswith_trans (p q s : str) :
  endswith p q = true -> endswith q s = true -> endswith p s = true.
Proof.
  intros H1 H2. apply endswith_inv in H1 as [x ->]. apply endswith_inv in H2 as [y ->].
  rewrite app_assoc. apply endswith_app.
Qed.

(** C2 as the specification words it does not hold: a name whose tail is
    the two digits 17 is not expanded to 2017, the two digits are removed
    (together with the underscore they leave behind). *)
Lemma rename_dwd_file_17_not_expanded :
  rename_dwd_file (py "grids_germany_annual_air_temp_max_17.asc.gz")
    = py "air_temp_max.asc"
  /\ rename_dwd_file (py "grids_germany_annual_air_temp_max_17.asc.gz")
    <> py "air_temp_max_2017.asc".
Proof. split; [reflexivity|]. by vm_compute. Qed.

(** C2 (amended): on a DWD file name made of the prefix
    [grids_germany_annual_], a body [b] (no slash, no further occurrence of
    the prefix) and one of the suffixes [.asc.gz], [.zip], [.asc], [.tif],
    [rename_dwd_file] strips the prefix and the suffix and appends [.asc];
    in between, a body ending in the literal [_1917] or [_2017] is kept as it
    is, any other body ending in [17] loses these two characters (the
    period code after the year: nothing is ever expanded) and the
    underscores this leaves at the end, and a body not ending in [17] only
    loses trailing underscores. In particular
    [grids_germany_annual_air_temp_max_1971.asc.gz] becomes
    [air_temp_max_1971.asc]. *)
Theorem rename_dwd_file_canonical (b suf : str) :
  contains (py "/") b = false ->
  contains DWD_PREFIX b = false ->
  suf ∈ KNOWN_SUFFIXES ->
  (endswith (py "_1917") b || endswith (py "_2017") b = true ->
     rename_dwd_file (DWD_PREFIX ++ b ++ suf) = b ++ py ".asc")
  /\ (forall v, b = v ++ py "17" ->
       endswith (py "_1917") b || endswith (py "_2017") b = false ->
       rename_dwd_file (DWD_PREFIX ++ b ++ suf) = rstrip "_" v ++ py ".asc")
  /\ (endswith (py "17") b = false ->
       rename_dwd_file (DWD_PREFIX ++ b ++ suf) = rstrip "_" b ++ py ".asc")
  /\ rename_dwd_file (py "grids_germany_annual_air_temp_max_1971.asc.gz")
     = py "air_temp_max_1971.asc".
Proof.
  intros Hslash Hpre Hsuf.
  rewrite (rename_dwd_file_stages b suf Hslash Hpre Hsuf).
  unfold drop_period_code. repeat split.
  - intros H. rewrite H. f_equal.
    assert (E : endswith (py "7") b = true).
    { apply orb_true_iff in H as [H|H];
        (eapply endswith_trans; [|exact H]); reflexivity. }
    apply endswith_inv in E as [x ->]. by apply rstrip_snoc.
  - intros v -> H. rewrite H, endswith_app. f_equal. f_equal.
    apply (drop_last_app v (py "17")).
  - intros H. rewrite H.
    destruct (endswith (py "_1917") b || endswith (py "_2017") b) eqn:E; [|done].
    exfalso. apply orb_true_iff in E as [E|E];
      (assert (endswith (py "17") b = true) as E'
         by (eapply endswith_trans; [|exact E]; reflexivity));
      congruence.
Qed.

Lemma rename_dwd_file_canonical_witness :
  contains (py "/") (py "air_temp_max_188117") = false
  /\ contains DWD_PREFIX (py "air_temp_max_188117") = false
  /\ rename_dwd_file (py "grids_germany_annual_air_temp_max_188117.asc.gz")
     = py "air_temp_max_1881.asc".
Proof.
  split; [reflexivity|]. split; [reflexivity|].
  destruct (rename_dwd_file_canonical (py "air_temp_max_188117") (py ".asc.gz"))
    as (_ & H & _); [reflexivity|reflexivity|apply list_elem_of_here|].
  exact (H (py "air_temp_max_1881") eq_refl eq_refl).
Defined.

End NamingSpec.

(** ** The statistics table *)

Module TableSpec.
Import PyStr Analyzer.

Section Table.
Context {Stats : Type}.

Local Abbreviation dict := (list (str * Stats)).
Local Abbreviation table := (gmap str (gmap str Stats)).
Local Notation "j @ n , y" := (j !! n ≫= fun inner : gmap str Stats => inner !! y)
  (at level 20, n at next level, y at next level).
Local Abbreviation fill := (foldl (fun (d : dict) kv => dict_set Stats kv.1 kv.2 d)).

Lemma dict_set_fresh (k : str) (v : Stats) (d : dict) :
  k ∉ d.*1 -> dict_set Stats k v d = d ++ [(k, v)].
Proof.
  induction d as [|[k' v'] d IH]; intros H; [done|].
  cbn in H. apply not_elem_of_cons in H as [H1 H2].
  cbn [dict_set]. rewrite decide_False by done. by rewrite IH.
Qed.

Lemma fill_fresh (acc l : dict) :
  NoDup (acc.*1 ++ l.*1) ->
  foldl (fun d kv => dict_set Stats kv.1 kv.2 d) acc l = acc ++ l.
Proof.
  revert acc. induction l as [|[k v] l IH]; intros acc H; cbn [foldl].
  - by rewrite app_nil_r.
  - cbn in H. apply NoDup_app in H as (H1 & H2 & H3).
    apply NoDup_cons in H3 as [H3 H4].
    rewrite dict_set_fresh, IH.
    + by rewrite <- app_assoc.
    + rewrite fmap_app. cbn. rewrite <- app_assoc. cbn.
      apply NoDup_app. split; [done|]. split; [|by apply NoDup_cons].
      intros x Hx. apply H2 in Hx. done.
    + intros Hk. apply H2 in Hk. apply Hk. apply list_elem_of_here.
Qed.

Lemma zip_fst_sublist (filenames : list str) (stats : list Stats) :
  (zip filenames stats).*1 `sublist_of` filenames.
Proof.
  revert stats. induction filenames as [|k ks IH]; intros [|v vs]; cbn;
    try apply sublist_nil_l.
  apply sublist_skip. apply IH.
Qed.

(** With distinct file names the dictionary is the zipped list itself. *)
Lemma rasterstats_dict_zip (filenames : list str) (stats : list Stats) :
  NoDup filenames ->
  rasterstats_dict Stats filenames stats = zip filenames stats.
Proof.
  intros H. unfold rasterstats_dict. rewrite fill_fresh; [done|].
  cbn. apply (sublist_NoDup _ filenames); [exact H|]. apply zip_fst_sublist.
Qed.

Lemma add_entry_lookup (j : table) (k : str) (v : Stats) (n y : str) :
  add_entry Stats j (k, v) @ n, y
  = if decide (n = key_name k /\ y = key_year k) then Some v else j @ n, y.
Proof.
  unfold add_entry. cbn [fst snd].
  destruct (decide (n = key_name k)) as [->|Hn].
  - rewrite lookup_insert_eq. cbn.
    destruct (decide (y = key_year k)) as [->|Hy].
    + rewrite lookup_insert_eq. by rewrite decide_True.
    + rewrite lookup_insert_ne by done. rewrite decide_False by tauto.
      destruct (j !! key_name k) as [i0|] eqn:E; cbn.
      * by rewrite E.
      * by rewrite lookup_insert_eq.
  - rewrite lookup_insert_ne by done. rewrite decide_False by tauto.
    destruct (j !! key_name k) eqn:E; [done|]. by rewrite lookup_insert_ne.
Qed.

Lemma fold_entries_frame (l : dict) (j : table) (n y : str) :
  (forall k v, (k, v) ∈ l -> ~ (n = key_name k /\ y = key_year k)) ->
  foldl (add_entry Stats) j l @ n, y = j @ n, y.
Proof.
  revert j. induction l as [|[k v] l IH]; intros j H; [done|].
  cbn [foldl]. rewrite IH.
  - rewrite add_entry_lookup, decide_False; [done|].
    apply (H k v). apply list_elem_of_here.
  - intros k' v' Hin. apply (H k' v'). by apply list_elem_of_further.
Qed.

Lemma fold_entries_lookup (l : dict) (j : table) (k : str) (v : Stats) :
  NoDup ((fun kv => (key_name kv.1, key_year kv.1)) <$> l) ->
  (k, v) ∈ l ->
  foldl (add_entry Stats) j l @ key_name k, key_year k = Some v.
Proof.
  revert j. induction l as [|[k0 v0] l IH]; intros j Hnd Hin.
  - by apply elem_of_nil in Hin.
  - cbn in Hnd. apply NoDup_cons in Hnd as [Hfresh Hnd].
    apply elem_of_cons in Hin as [Heq|Hin]; cbn [foldl].
    + injection Heq as -> ->. rewrite fold_entries_frame.
      * rewrite add_entry_lookup. by rewrite decide_True.
      * intros k' v' Hin' [E1 E2]. apply Hfresh.
        apply list_elem_of_fmap. exists (k', v').
        unfold key_name, key_year, drop_last, take_last in *. cbn.
        split; [congruence|done].
    + by apply IH.
Qed.

Lemma fold_entries_origin (l : dict) (j : table) (n y : str) (v : Stats) :
  foldl (add_entry Stats) j l @ n, y = Some v ->
  j @ n, y = Some v \/ exists k, (k, v) ∈ l /\ n = key_name k /\ y = key_year k.
Proof.
  revert j. induction l as [|[k0 v0] l IH]; intros j H; [by left|].
  cbn [foldl] in H. apply IH in H as [H|(k & Hin & ? & ?)].
  - rewrite add_entry_lookup in H. case_decide as E.
    + right. exists k0. injection H as ->. split; [apply list_elem_of_here|done].
    + by left.
  - right. exists k. split; [by apply list_elem_of_further|done].
Qed.

(** An assignment: the key is there with the new value, the other items
    are the old ones, and no key comes twice. *)
Lemma dict_set_elem (k : str) (v : Stats) (d : dict) (kv : str * Stats) :
  kv ∈ dict_set Stats k v d -> kv = (k, v) \/ kv ∈ d.
Proof.
  induction d as [|[k' v'] d IH]; cbn [dict_set].
  - intros ->%list_elem_of_singleton. by left.
  - destruct (decide (k' = k)) as [->|Hne].
    + intros [->|H]%elem_of_cons; [by left|]. right. by apply list_elem_of_further.
    + intros [->|H]%elem_of_cons; [right; apply list_elem_of_here|].
      destruct (IH H) as [?|?]; [by left|]. right. by apply list_elem_of_further.
Qed.

Lemma dict_set_here (k : str) (v : Stats) (d : dict) : (k, v) ∈ dict_set Stats k v d.
Proof.
  induction d as [|[k' v'] d IH]; cbn [dict_set]; [apply list_elem_of_here|].
  destruct (decide (k' = k)); [apply list_elem_of_here|by apply list_elem_of_further].
Qed.

Lemma dict_set_other (k : str) (v : Stats) (d : dict) (k' : str) (v' : Stats) :
  (k', v') ∈ d -> k' <> k -> (k', v') ∈ dict_set Stats k v d.
Proof.
  intros H Hne. induction d as [|[k0 v0] d IH]; [by apply elem_of_nil in H|].
  cbn [dict_set]. apply elem_of_cons in H as [[= <- <-]|H].
  - rewrite decide_False by done. apply list_elem_of_here.
  - destruct (decide (k0 = k)); apply list_elem_of_further; [done|by apply IH].
Qed.

Lemma dict_set_keys (k : str) (v : Stats) (d : dict) :
  (dict_set Stats k v d).*1 = if decide (k ∈ d.*1) then d.*1 else d.*1 ++ [k].
Proof.
  induction d as [|[k' v'] d IH]; cbn [dict_set]; [done|].
  destruct (decide (k' = k)) as [->|Hne]; cbn.
  - rewrite decide_True; [done|apply list_elem_of_here].
  - rewrite IH. destruct (decide (k ∈ d.*1)) as [Hin|Hout].
    + rewrite decide_True; [done|by apply list_elem_of_further].
    + rewrite decide_False; [done|]. rewrite elem_of_cons. naive_solver.
Qed.

Lemma dict_set_NoDup (k : str) (v : Stats) (d : dict) :
  NoDup d.*1 -> NoDup (dict_set Stats k v d).*1.
Proof.
  intros H. rewrite dict_set_keys. case_decide; [done|].
  apply NoDup_app. split; [done|]. split; [|apply NoDup_singleton].
  by intros x Hx ->%list_elem_of_singleton.
Qed.

Lemma fill_elem (acc l : dict) (kv : str * Stats) :
  kv ∈ fill acc l -> kv ∈ acc \/ kv ∈ l.
Proof.
  revert acc. induction l as [|[k v] l IH]; intros acc H; [by left|].
  cbn [foldl] in H. destruct (IH _ H) as [H'|H'].
  - apply dict_set_elem in H' as [->|?]; [right; apply list_elem_of_here|by left].
  - right. by apply list_elem_of_further.
Qed.

Lemma fill_NoDup (acc l : dict) : NoDup acc.*1 -> NoDup (fill acc l).*1.
Proof.
  revert acc. induction l as [|[k v] l IH]; intros acc H; [done|].
  cbn [foldl]. by apply IH, dict_set_NoDup.
Qed.

Lemma fill_keeps (acc l : dict) (k : str) (v : Stats) :
  (k, v) ∈ acc -> k ∉ l.*1 -> (k, v) ∈ fill acc l.
Proof.
  revert acc. induction l as [|[k' v'] l IH]; intros acc Hin Hout; [done|].
  cbn in Hout. apply not_elem_of_cons in Hout as [Hne Hout].
  cbn [foldl]. apply IH; [|done]. by apply dict_set_other.
Qed.

(** The value of a key in the dictionary is that of its last occurrence. *)
Lemma fill_last (acc l1 l2 : dict) (k : str) (v : Stats) :
  k ∉ l2.*1 -> (k, v) ∈ fill acc (l1 ++ (k, v) :: l2).
Proof.
  intros H. rewrite foldl_app. cbn [foldl]. apply fill_keeps; [|done].
  apply dict_set_here.
Qed.

(** The entry of the last item with its pair of variable and year. *)
Lemma fold_entries_last (l1 l2 : dict) (j : table) (k : str) (v : Stats) :
  (forall k' v', (k', v') ∈ l2 ->
     ~ (key_name k = key_name k' /\ key_year k = key_year k')) ->
  foldl (add_entry Stats) j (l1 ++ (k, v) :: l2) @ key_name k, key_year k = Some v.
Proof.
  intros H. rewrite foldl_app. cbn [foldl]. rewrite fold_entries_frame by done.
  rewrite add_entry_lookup. by rewrite decide_True.
Qed.

(** C3 (amended): for every processed raster (file name [k] at position
    [i], statistics [v] at the same position) such that no other raster of
    the run gives the same pair of variable and year, the table maps the
    variable [k[:-5]] (all but the last five characters: the year and the
    separator in front of it go) to the year [k[-4:]] (the last four
    characters) to [v]; and every entry of the table, whatever the file
    names are, comes from a raster whose name splits into the variable and
    the year of the entry in this way. *)
Theorem rasterstats_json_keying (filenames : list str) (stats : list Stats) :
  (forall i k v, filenames !! i = Some k -> stats !! i = Some v ->
     (forall j k' v', filenames !! j = Some k' -> stats !! j = Some v' ->
        take (length k' - 5) k' = take (length k - 5) k ->
        drop (length k' - 4) k' = drop (length k - 4) k -> j = i) ->
     exists inner,
       rasterstats_json Stats filenames stats !! take (length k - 5) k = Some inner
       /\ inner !! drop (length k - 4) k = Some v)
  /\ (forall n y inner v,
       rasterstats_json Stats filenames stats !! n = Some inner ->
       inner !! y = Some v ->
       exists i k, filenames !! i = Some k /\ stats !! i = Some v
                   /\ n = take (length k - 5) k /\ y = drop (length k - 4) k).
Proof.
  unfold rasterstats_json, rasterstats_dict.
  set (z := zip filenames stats). set (d := fill [] z).
  assert (Hz : forall k v, (k, v) ∈ d ->
            exists i, filenames !! i = Some k /\ stats !! i = Some v).
  { intros k v [H|H]%fill_elem; [by apply elem_of_nil in H|].
    apply list_elem_of_lookup in H as [i Hi].
    apply lookup_zip_Some in Hi as [? ?]. by exists i. }
  split.
  - intros i k v Hk Hv Huniq.
    assert (Hi : z !! i = Some (k, v)) by (by apply lookup_zip_Some).
    assert (Hlast : k ∉ (drop (S i) z).*1).
    { intros [m Hm]%list_elem_of_lookup. rewrite list_lookup_fmap, lookup_drop in Hm.
      destruct (z !! (S i + m)%nat) as [[k' v']|] eqn:E; [|done].
      injection Hm as ->. apply lookup_zip_Some in E as [E1 E2].
      pose proof (Huniq _ _ _ E1 E2 eq_refl eq_refl). lia. }
    assert (Hin : (k, v) ∈ d).
    { unfold d. rewrite <- (take_drop_middle z i (k, v) Hi). by apply fill_last. }
    apply list_elem_of_split in Hin as (l1 & l2 & Hd).
    assert (Hnd : NoDup d.*1) by (apply fill_NoDup; constructor).
    assert (H : foldl (add_entry Stats) ∅ d @ key_name k, key_year k = Some v).
    { rewrite Hd. apply fold_entries_last. intros k' v' Hin' [E1 E2].
      assert (Hd' : (k', v') ∈ d).
      { rewrite Hd. apply elem_of_app. right. by apply list_elem_of_further. }
      destruct (Hz _ _ Hd') as (j & Hj1 & Hj2).
      assert (j = i) as -> by (by apply (Huniq j k' v')).
      assert (k' = k) as -> by congruence.
      rewrite Hd, fmap_app in Hnd. cbn in Hnd.
      apply NoDup_app in Hnd as (_ & _ & Hnd). apply NoDup_cons in Hnd as [Hnd _].
      apply Hnd. apply list_elem_of_fmap. by exists (k, v'). }
    change (key_name k) with (take (length k - 5) k) in H.
    change (key_year k) with (drop (length k - 4) k) in H.
    destruct (foldl (add_entry Stats) ∅ d !! take (length k - 5) k) as [inner|];
      [|done].
    by exists inner.
  - intros n y inner v Hn Hy.
    destruct (fold_entries_origin d ∅ n y v) as [H|(k & Hin & ? & ?)].
    + by rewrite Hn.
    + by rewrite lookup_empty in H.
    + destruct (Hz _ _ Hin) as (i & ? & ?). by exists i, k.
Qed.

End Table.

(** C3 as the specification words it does not hold: the variable is not
    the name without its last four characters, which would keep the
    separator. *)
Lemma rasterstats_json_not_last_four :
  rasterstats_json (list Z) [py "air_temp_max_1971"] [[5]]
    !! take (length (py "air_temp_max_1971") - 4) (py "air_temp_max_1971") = None
  /\ (rasterstats_json (list Z) [py "air_temp_max_1971"] [[5]]
        !! py "air_temp_max" ≫= fun inner => inner !! py "1971") = Some [5].
Proof. split; by vm_compute. Qed.

Lemma rasterstats_json_keying_witness :
  let filenames := [py "air_temp_max_1971"; py "frost_days_2001"; py "frost_days_2001"] in
  exists inner,
    rasterstats_json (list Z) filenames [[5]; [8]; [9]] !! py "air_temp_max" = Some inner
    /\ inner !! py "1971" = Some [5].
Proof.
  intros filenames.
  apply (proj1 (rasterstats_json_keying filenames [[5]; [8]; [9]])
               0%nat (py "air_temp_max_1971") [5] eq_refl eq_refl).
  intros [|[|[|j]]] k' v' Hk Hv; [done|..|done]; injection Hk as <-; by vm_compute.
Defined.

End TableSpec.

(** ** The raster folder and the cache check *)

Module FolderSpec.
Import PyStr PyStrFacts Analyzer.

Lemma elem_of_glob (suf n : str) (d : folder) :
  n ∈ glob suf d <-> is_Some (d !! n) /\ endswith suf n = true.
Proof.
  unfold glob. rewrite list_elem_of_filter, elem_of_elements, elem_of_dom. tauto.
Qed.

Lemma unlink_lookup (m n : str) (d : folder) :
  unlink m d !! n
  = if decide (n = m /\ d !! n = Some File) then None else d !! n.
Proof.
  unfold unlink. destruct (decide (n = m)) as [->|Hne].
  - destruct (d !! m) as [[|]|] eqn:E.
    + rewrite lookup_delete_eq. by rewrite decide_True.
    + rewrite E. rewrite decide_False; [done|]. by intros [_ ?].
    + rewrite E. rewrite decide_False; [done|]. by intros [_ ?].
  - rewrite decide_False by tauto.
    destruct (d !! m) as [[|]|]; [|done..]. by rewrite lookup_delete_ne.
Qed.

Lemma unlink_all_lookup (l : list str) (n : str) (d : folder) :
  foldl (fun d n => unlink n d) d l !! n
  = if decide (n ∈ l /\ d !! n = Some File) then None else d !! n.
Proof.
  revert d. induction l as [|m l IH]; intros d; cbn [foldl].
  - rewrite decide_False; [done|]. intros [H _]. by apply elem_of_nil in H.
  - rewrite IH, unlink_lookup.
    repeat case_decide; try done; rewrite ?elem_of_cons in *; naive_solver.
Qed.

(** One pattern: the regular files whose name ends in [suf] go, the rest
    stays. *)
Lemma delete_matching_lookup (suf n : str) (d : folder) :
  delete_matching d suf !! n
  = if decide (d !! n = Some File /\ endswith suf n = true) then None else d !! n.
Proof.
  unfold delete_matching. rewrite unlink_all_lookup.
  repeat case_decide; try done; rewrite ?elem_of_glob in *.
  - naive_solver.
  - exfalso. naive_solver.
Qed.

Lemma delete_raster_files_lookup (n : str) (d : folder) :
  delete_raster_files d !! n
  = if decide (d !! n = Some File /\
               (endswith (py ".asc") n = true \/ endswith (py ".asc.gz") n = true
                \/ endswith (py ".zip") n = true))
    then None else d !! n.
Proof.
  unfold delete_raster_files, DELETE_PATTERNS. cbn [foldl].
  rewrite !delete_matching_lookup.
  repeat case_decide; try done; naive_solver.
Qed.

(** What [asc_to_tif_add_crs] writes ends in [.tif]. *)
Lemma tif_output_endswith (asc_input : str) :
  endswith (py ".tif") (tif_output asc_input) = true.
Proof. apply endswith_app. Qed.

Lemma tif_not_deleted (n : str) :
  endswith (py ".tif") n = true ->
  endswith (py ".asc") n = false /\ endswith (py ".asc.gz") n = false
  /\ endswith (py ".zip") n = false.
Proof.
  intros H. apply endswith_inv in H as [b ->].
  unfold endswith. rewrite rev_app_distr. by repeat split.
Qed.

(** C7 as the specification words it does not hold: the georeferenced
    raster stays in the folder, and the compressed archive is what goes. *)
Lemma delete_raster_files_keeps_tif :
  let d : folder := {[ py "air_temp_max_1971.asc.gz" := File;
                       py "air_temp_max_1971.asc" := File;
                       py "air_temp_max_1971.tif" := File ]} in
  delete_raster_files d !! py "air_temp_max_1971.tif" = Some File
  /\ delete_raster_files d !! py "air_temp_max_1971.asc" = None
  /\ delete_raster_files d !! py "air_temp_max_1971.asc.gz" = None.
Proof. repeat split; by vm_compute. Qed.

End FolderSpec.

Module CacheSpec.
Import PyStr PyStrFacts Analyzer FolderSpec.

Section Cache.
Variable urlpath : str -> str.

Lemma elem_of_tif_stems (s : str) (d : folder) :
  s ∈ tif_stems d
  <-> exists f, is_Some (d !! f) /\ endswith (py ".tif") f = true /\ PyPath.stem f = s.
Proof.
  unfold tif_stems. rewrite elem_of_list_to_set, list_elem_of_fmap.
  split.
  - intros (f & -> & Hf). apply elem_of_glob in Hf as [? ?]. by exists f.
  - intros (f & ? & ? & <-). exists f. split; [done|]. by apply elem_of_glob.
Qed.

(** When the check says yes. *)
Lemma check_if_already_downloaded_true (links : list str) (dir : option folder) :
  check_if_already_downloaded urlpath links dir = true
  <-> exists d, dir = Some d
      /\ (exists f, is_Some (d !! f) /\ endswith (py ".tif") f = true)
      /\ forall link, link ∈ links ->
           exists f, is_Some (d !! f) /\ endswith (py ".tif") f = true
                     /\ PyPath.stem f
                        = PyPath.stem (rename_dwd_file (PyPath.name (urlpath link))).
Proof.
  unfold check_if_already_downloaded. destruct dir as [d|].
  2:{ split; [done|]. by intros (d & ? & _). }
  destruct (decide (d = ∅)) as [->|Hne].
  { split; [done|]. intros (d & [= <-] & (f & [x Hx] & _) & _).
    by rewrite lookup_empty in Hx. }
  destruct (decide (tif_stems d = ∅)) as [He|He].
  { split; [done|]. intros (d' & [= <-] & (f & Hf & Ht) & _).
    assert (PyPath.stem f ∈ tif_stems d) as Hin
      by (apply elem_of_tif_stems; by exists f).
    rewrite He in Hin. by apply not_elem_of_empty in Hin. }
  rewrite bool_decide_eq_true. split.
  - intros Hsub. exists d. split; [done|]. split.
    + apply set_choose_L in He as [s Hs].
      apply elem_of_tif_stems in Hs as (f & ? & ? & _). by exists f.
    + intros link Hl. apply elem_of_tif_stems. apply Hsub.
      apply elem_of_list_to_set, list_elem_of_fmap. by exists link.
  - intros (d' & [= <-] & _ & Hall) s Hs.
    apply elem_of_list_to_set, list_elem_of_fmap in Hs as (link & -> & Hl).
    apply elem_of_tif_stems. by apply Hall.
Qed.

(** C8: the check says yes only if every requested link has a local
    [.tif] file whose stem is the stem of the canonical name of the remote
    file; a directory that lacks the file of some requested link gives no,
    and so does a directory that is empty or does not exist. *)
Theorem check_if_already_downloaded_strict (links : list str) (dir : option folder) :
  (check_if_already_downloaded urlpath links dir = true ->
     forall link, link ∈ links ->
       exists d f, dir = Some d /\ is_Some (d !! f) /\ endswith (py ".tif") f = true
                   /\ PyPath.stem f
                      = PyPath.stem (rename_dwd_file (PyPath.name (urlpath link))))
  /\ (forall d link, dir = Some d -> link ∈ links ->
       (forall f, is_Some (d !! f) -> endswith (py ".tif") f = true ->
          PyPath.stem f
          <> PyPath.stem (rename_dwd_file (PyPath.name (urlpath link)))) ->
       check_if_already_downloaded urlpath links dir = false)
  /\ (dir = None \/ dir = Some ∅ ->
       check_if_already_downloaded urlpath links dir = false).
Proof.
  repeat split.
  - intros H link Hl. apply check_if_already_downloaded_true in H as (d & -> & _ & Hall).
    destruct (Hall link Hl) as (f & ? & ? & ?). by exists d, f.
  - intros d link -> Hl Hmiss. apply not_true_is_false. intros H.
    apply check_if_already_downloaded_true in H as (d' & [= <-] & _ & Hall).
    destruct (Hall link Hl) as (f & ? & ? & ?). by apply (Hmiss f).
  - intros [-> | ->]; [done|]. unfold check_if_already_downloaded.
    by rewrite decide_True.
Qed.

End Cache.

(** A folder that holds the raster of one of two requested links. *)
Example partial_folder_is_no_hit :
  let links := [py "/annual/frost_days/grids_germany_annual_frost_days_195117.asc.gz";
                py "/annual/frost_days/grids_germany_annual_frost_days_195217.asc.gz"] in
  check_if_already_downloaded Sample.path_only links
    (Some {[ py "frost_days_1951.tif" := File ]}) = false
  /\ check_if_already_downloaded Sample.path_only links
       (Some {[ py "frost_days_1951.tif" := File; py "frost_days_1952.tif" := File ]})
     = true.
Proof. split; by vm_compute. Qed.

End CacheSpec.

(** ** The vertex count *)

Module GeometrySpec.
Import Server.

Lemma sum_Z_app (l k : list Z) : sum_Z (l ++ k) = sum_Z l + sum_Z k.
Proof. unfold sum_Z. induction l as [|x l IH]; cbn; [done|]. rewrite IH. lia. Qed.

Lemma sum_rings (rs : list ring) :
  sum_Z (map (fun r : option ring => match r with
                                     | Some r => Z.of_nat (length r)
                                     | None => 0
                                     end) (map Some rs))
  = sum_Z (map (fun r => Z.of_nat (length r)) rs).
Proof. unfold sum_Z. induction rs as [|r rs IH]; cbn; [done|]. by rewrite IH. Qed.

Lemma count_vertices_other (g : option geom) :
  (g = None \/ exists x, g = Some x /\ geom_type x <> "Polygon"
                                   /\ geom_type x <> "MultiPolygon") ->
  _count_vertices g = 0.
Proof.
  intros [->|(x & -> & H1 & H2)]; [done|]. by destruct x.
Qed.

(** C10: [_count_vertices] is 0 for a missing geometry and for every
    geometry whose type is neither Polygon nor MultiPolygon (a collection
    that holds polygons included); hence a row with such a geometry adds
    nothing to the vertex count of a frame, and the vertex ceiling of
    [_validate_geo_limits] is compared with the ring coordinates of the
    polygonal rows only. *)
Theorem count_vertices_only_polygons :
  (forall g : option geom,
     (g = None \/ exists x, g = Some x /\ geom_type x <> "Polygon"
                                      /\ geom_type x <> "MultiPolygon") ->
     _count_vertices g = 0)
  /\ (forall p, _count_vertices (Some (Polygon p))
               = sum_Z (map (fun r => Z.of_nat (length r))
                            (from_option (fun r => [r]) [] (exterior p) ++ interiors p)))
  /\ (forall ps, _count_vertices (Some (MultiPolygon ps))
                = sum_Z (map (fun p => _count_vertices (Some (Polygon p))) ps))
  /\ (forall (before after : list (option geom)) g c,
       (g = None \/ exists x, g = Some x /\ geom_type x <> "Polygon"
                                        /\ geom_type x <> "MultiPolygon") ->
       vertex_count {| geometry := before ++ g :: after; crs := c |}
       = vertex_count {| geometry := before ++ after; crs := c |})
  /\ (forall cfg g,
       _validate_geo_limits cfg g = Raise (HTTPException 400 "Geometry is too complex.")
       <-> Z.of_nat (length (geometry g)) <= MAX_FEATURES cfg
           /\ MAX_VERTICES cfg < sum_Z (map _count_vertices (geometry g)))
  /\ _count_vertices
       (Some (GeometryCollection
                [Polygon {| exterior := Some [(0, 0); (1, 0); (1, 1); (0, 0)]%Q;
                            interiors := [] |}])) = 0.
Proof.
  split; [apply count_vertices_other|].
  split; [|split; [reflexivity|split; [|split; [|reflexivity]]]].
  - intros [[e|] i]; cbn [_count_vertices]; unfold count_rings;
      cbn [exterior interiors map from_option app];
      change (sum_Z (?x :: ?l)) with (x + sum_Z l); by rewrite sum_rings.
  - intros before after g c H. unfold vertex_count. cbn [geometry].
    rewrite !map_app, !sum_Z_app. cbn [map]. change (sum_Z (?x :: ?l)) with (x + sum_Z l).
    rewrite (count_vertices_other g H). lia.
  - intros cfg g. unfold _validate_geo_limits, vertex_count.
    destruct (Z.ltb_spec (MAX_FEATURES cfg) (Z.of_nat (length (geometry g))));
      [split; [done|lia]|].
    destruct (Z.ltb_spec (MAX_VERTICES cfg) (sum_Z (map _count_vertices (geometry g))));
      [done|]. split; [done|lia].
Qed.

End GeometrySpec.

(** ** The rate limiter *)

Module RateSpec.
Import Server.

Lemma serve_cons (cfg : config) (now : Z) (r : request) (rest : list (Z * request))
    (tbl : rate_table) :
  (serve cfg ((now, r) :: rest) tbl).1
  = (rate_limit_middleware cfg now r tbl).1
    :: (serve cfg rest (rate_limit_middleware cfg now r tbl).2).1.
Proof.
  unfold serve; fold serve.
  destruct (rate_limit_middleware cfg now r tbl) as [v tbl']. cbn [fst snd].
  by destruct (serve cfg rest tbl').
Qed.

Lemma middleware_enabled (cfg : config) (now : Z) (r : request) (tbl : rate_table) :
  0 < RATE_LIMIT_PER_MIN cfg ->
  rate_limit_middleware cfg now r tbl
  = (if RATE_LIMIT_PER_MIN cfg <? default 0 (tbl !! rate_key now r) + 1
     then Some too_many else None,
     <[rate_key now r := default 0 (tbl !! rate_key now r) + 1]> tbl).
Proof.
  intros H. unfold rate_limit_middleware.
  destruct (Z.leb_spec (RATE_LIMIT_PER_MIN cfg) 0); [lia|].
  cbv zeta. by destruct (RATE_LIMIT_PER_MIN cfg <? _).
Qed.

Lemma middleware_disabled (cfg : config) (now : Z) (r : request) (tbl : rate_table) :
  RATE_LIMIT_PER_MIN cfg <= 0 -> rate_limit_middleware cfg now r tbl = (None, tbl).
Proof.
  intros H. unfold rate_limit_middleware.
  by destruct (Z.leb_spec (RATE_LIMIT_PER_MIN cfg) 0); [|lia].
Qed.

(** The counter of a key is the number of requests seen with that key,
    whatever their verdict. *)
Lemma serve_verdict (cfg : config) (reqs : list (Z * request)) (tbl : rate_table)
    (i : nat) (now : Z) (r : request) :
  0 < RATE_LIMIT_PER_MIN cfg ->
  reqs !! i = Some (now, r) ->
  (serve cfg reqs tbl).1 !! i
  = Some (if RATE_LIMIT_PER_MIN cfg
             <? default 0 (tbl !! rate_key now r)
                + Z.of_nat (length (filter (fun p => rate_key p.1 p.2 = rate_key now r)
                                           (take (S i) reqs)))
          then Some too_many else None).
Proof.
  intros Hpos. revert tbl i.
  induction reqs as [|[t q] rest IH]; intros tbl i Hi; [done|].
  rewrite serve_cons, middleware_enabled by done. cbn [fst snd].
  destruct i as [|i].
  - injection Hi as -> ->. cbn [lookup list_lookup take].
    rewrite filter_cons_True by done. cbn [length filter list_filter].
    done.
  - cbn in Hi. cbn [lookup list_lookup]. rewrite (IH _ _ Hi).
    change (take (S (S i)) ((t, q) :: rest)) with ((t, q) :: take (S i) rest).
    f_equal.
    match goal with
    | |- (if _ <? ?x then _ else _) = (if _ <? ?y then _ else _) =>
        replace x with y; [done|]
    end.
    destruct (decide (rate_key t q = rate_key now r)) as [E|E].
    + rewrite filter_cons_True by done. rewrite E, lookup_insert_eq.
      cbn [default length]. unfold id. lia.
    + rewrite filter_cons_False by done. by rewrite lookup_insert_ne.
Qed.

Lemma serve_disabled (cfg : config) (reqs : list (Z * request)) (tbl : rate_table)
    (i : nat) :
  RATE_LIMIT_PER_MIN cfg <= 0 -> (i < length reqs)%nat ->
  (serve cfg reqs tbl).1 !! i = Some None.
Proof.
  intros Hoff. revert i.
  induction reqs as [|[t q] rest IH]; intros i Hi; cbn in Hi; [lia|].
  rewrite serve_cons, middleware_disabled by done. cbn [fst snd].
  destruct i as [|i]; [done|]. apply IH. lia.
Qed.

(** C9 as the specification words it does not hold: the window does not
    roll. With the default ceiling of 120, one address sends 120 requests
    in the last second of a minute and 120 more in the next second, and
    none of the 240 is refused. *)
Lemma rate_limit_not_rolling :
  let r := {| x_forwarded_for := []; client_host := Some (py "10.0.0.1");
              url_path := py "/api/analyze" |} in
  (serve default_config (replicate 120 (59, r) ++ replicate 120 (60, r)) ∅).1
  = replicate 240 None.
Proof. by vm_compute. Qed.

(** The address is the first entry of the header without the white space
    around it, a no-break space included. *)
Example client_ip_stripped :
  _client_ip {| x_forwarded_for := ascii_of_nat 160 :: py "1.1.1.1 , 10.0.0.7";
                client_host := None; url_path := py "/api/analyze" |}
  = py "1.1.1.1".
Proof. reflexivity. Qed.

(** Within one clock minute the request after the 120th is refused. *)
Example rate_limit_refuses_121st :
  last (serve default_config (replicate 121 (30, Sample.a_client)) ∅).1
  = Some (Some too_many).
Proof. by vm_compute. Qed.

(** C9 (amended): requests are counted per client address and per clock
    minute (the integer part of the time in seconds divided by 60), on
    every endpoint alike. With a positive ceiling, the middleware raises
    its [HTTPException] of status 429, instead of passing the request on,
    exactly when the requests seen so far from the same address in the same
    clock minute, itself and the refused ones included, number more than
    RATE_LIMIT_PER_MIN; requests of different clock minutes are never added
    up. With a ceiling of zero or less every request is passed on. What
    the framework answers when the middleware raises is not stated. *)
Theorem rate_limit_per_clock_minute (cfg : config) (reqs : list (Z * request)) :
  (0 < RATE_LIMIT_PER_MIN cfg ->
     forall i now r, reqs !! i = Some (now, r) ->
       (serve cfg reqs ∅).1 !! i
       = Some (if RATE_LIMIT_PER_MIN cfg
                  <? Z.of_nat (length (filter
                       (fun p => p.1 / 60 = now / 60 /\ _client_ip p.2 = _client_ip r)
                       (take (S i) reqs)))
               then Some (HTTPException 429 "Too many requests. Please slow down.")
               else None))
  /\ (RATE_LIMIT_PER_MIN cfg <= 0 ->
      forall i, (i < length reqs)%nat -> (serve cfg reqs ∅).1 !! i = Some None).
Proof.
  split.
  - intros Hpos i now r Hi. rewrite (serve_verdict cfg reqs ∅ i now r Hpos Hi).
    rewrite lookup_empty. cbn [default]. rewrite Z.add_0_l.
    f_equal.
    rewrite (list_filter_iff
               (fun p => rate_key p.1 p.2 = rate_key now r)
               (fun p => p.1 / 60 = now / 60 /\ _client_ip p.2 = _client_ip r));
      [done|].
    intros [t q]. unfold rate_key. cbn. split; [by intros [= -> ->]|by intros [-> ->]].
  - intros Hoff i Hi. by apply serve_disabled.
Qed.

End RateSpec.

(** ** The analysis lock *)

Module LockSpec.
Import Server.

Lemma fresh_lt (cfg : config) (now t : Q) (ts : option jval) :
  as_number ts = Some t ->
  (now - t < inject_Z (LOCK_TTL_SECONDS cfg))%Q ->
  fresh cfg now ts = true.
Proof.
  intros Hts Hlt. unfold fresh, Qltb. rewrite Hts.
  apply negb_true_iff, not_true_is_false. intros H.
  apply Qle_bool_iff in H. by apply Qlt_not_le in Hlt.
Qed.

Lemma fresh_ge (cfg : config) (now t : Q) (ts : option jval) :
  as_number ts = Some t ->
  (inject_Z (LOCK_TTL_SECONDS cfg) <= now - t)%Q ->
  fresh cfg now ts = false.
Proof.
  intros Hts Hle. unfold fresh, Qltb. rewrite Hts.
  apply negb_false_iff. by apply Qle_bool_iff.
Qed.

Lemma truthy_has_key (d : gmap str jval) (k : str) (v : jval) :
  d !! k = Some v -> truthy (Some d) = true.
Proof.
  intros H. unfold truthy. apply negb_true_iff, bool_decide_eq_false.
  intros ->. by rewrite lookup_empty in H.
Qed.

Ltac step_lock :=
  unfold enter_analysis_lock, _cleanup_lock, unlink_lock, bind, get, ret, raise,
    modify, _read_lock, lock_exists.

(** A lock of a live holder that has not expired is left alone by
    [_cleanup_lock]. *)
Lemma cleanup_keeps_live (cfg : config) (h : host) (now : Q) (st : state)
    (d : gmap str jval) (pid : Z) :
  lock_file st = Some (LockDict d) ->
  d !! py "pid" = Some (JInt pid) ->
  pid_alive h pid = true ->
  _cleanup_lock cfg h now st = (Ok tt, st).
Proof.
  intros Hl Hp Ha. step_lock. rewrite Hl. cbn [negb from_option id].
  rewrite (truthy_has_key d _ _ Hp), Hp. cbn. by rewrite Ha.
Qed.

(** Entering the lock while a live holder's fresh lock is there: the busy
    error, and nothing is changed. *)
Lemma busy_rejected (cfg : config) (h : host) (now now' t : Q) (st : state)
    (d : gmap str jval) (pid : Z) :
  lock_file st = Some (LockDict d) ->
  d !! py "pid" = Some (JInt pid) ->
  as_number (d !! py "ts") = Some t ->
  pid_alive h pid = true ->
  (now - t < inject_Z (LOCK_TTL_SECONDS cfg))%Q ->
  enter_analysis_lock cfg h now now' st
  = (Raise (HTTPException 429 "Analyzer is busy. Try again soon."), st).
Proof.
  intros Hl Hp Hts Ha Hlt.
  pose proof (cleanup_keeps_live cfg h now' st d pid Hl Hp Ha) as Hc.
  unfold enter_analysis_lock, bind, get, lock_exists. rewrite Hl, Hc, Hl.
  unfold _read_lock. rewrite Hl. rewrite (truthy_has_key d _ _ Hp). cbn [from_option id].
  by rewrite (fresh_lt cfg now t _ Hts Hlt).
Qed.

(** The lock written by a successful entry. *)
Lemma stale_acquired (cfg : config) (h : host) (now now' t : Q) (st : state)
    (d : gmap str jval) (pid : Z) :
  lock_file st = Some (LockDict d) ->
  d !! py "pid" = Some (JInt pid) ->
  as_number (d !! py "ts") = Some t ->
  pid_alive h pid = false ->
  (inject_Z (LOCK_TTL_SECONDS cfg) <= now - t)%Q ->
  lock_writable h = true ->
  exists st1,
    enter_analysis_lock cfg h now now' st = (Ok tt, st1)
    /\ lock_file st1
       = Some (LockDict (<[py "pid" := JInt (getpid h)]> (<[py "ts" := JFloat now]> ∅)))
    /\ files st1 = files st.
Proof.
  intros Hl Hp Hts Ha Hge Hw.
  pose proof (truthy_has_key d _ _ Hp) as Ht.
  pose proof (fresh_ge cfg now t _ Hts Hge) as Hf.
  step_lock.
  repeat (progress (rewrite ?Hl, ?Ht, ?Hp, ?Ha, ?Hf, ?Hw;
                    cbn [negb andb from_option id is_int _pid_is_alive])).
  destruct (fresh cfg now' (d !! py "ts")) eqn:Hf';
    destruct (lock_removable h) eqn:Hr;
    repeat (progress (rewrite ?Hl, ?Ht, ?Hp, ?Ha, ?Hf, ?Hw, ?Hr;
                      cbn [negb andb from_option id is_int _pid_is_alive
                           set_lock lock_file]));
    eexists; (split; [reflexivity|]); by cbn.
Qed.

(** [_cleanup_lock] removes the lock of a dead holder once it has expired. *)
Lemma cleanup_removes_stale (cfg : config) (h : host) (now : Q) (st : state)
    (d : gmap str jval) (pid : Z) (t : Q) :
  lock_file st = Some (LockDict d) ->
  d !! py "pid" = Some (JInt pid) ->
  as_number (d !! py "ts") = Some t ->
  pid_alive h pid = false ->
  (inject_Z (LOCK_TTL_SECONDS cfg) <= now - t)%Q ->
  lock_removable h = true ->
  lock_file (_cleanup_lock cfg h now st).2 = None.
Proof.
  intros Hl Hp Hts Ha Hge Hr.
  pose proof (truthy_has_key d _ _ Hp) as Ht.
  pose proof (fresh_ge cfg now t _ Hts Hge) as Hf.
  step_lock.
  repeat (progress (rewrite ?Hl, ?Ht, ?Hp, ?Ha, ?Hf, ?Hr;
                    cbn [negb andb from_option id is_int _pid_is_alive])).
  by cbn.
Qed.

(** While the process that took the lock at [now] lives, an entry at [later],
    before the time to live has passed, is refused. *)
Lemma second_entry_rejected (cfg : config) (h : host) (now later later' : Q)
    (st : state) (holder : Z) :
  lock_file st
  = Some (LockDict (<[py "pid" := JInt holder]> (<[py "ts" := JFloat now]> ∅))) ->
  pid_alive h holder = true ->
  (later - now < inject_Z (LOCK_TTL_SECONDS cfg))%Q ->
  enter_analysis_lock cfg h later later' st
  = (Raise (HTTPException 429 "Analyzer is busy. Try again soon."), st).
Proof.
  intros Hl Ha Hlt. eapply (busy_rejected cfg h later later' now); [exact Hl| |..|exact Hlt].
  - apply lookup_insert_eq.
  - rewrite lookup_insert_ne by done. by rewrite lookup_insert_eq.
  - done.
Qed.

(** The pipeline is not started while the lock is held. *)
Lemma run_analyzer_busy (cfg : config) (w : world) (BASE_DIR shp_path run_dir : path)
    (st : state) (d : gmap str jval) (pid : Z) (t : Q) :
  lock_file st = Some (LockDict d) ->
  d !! py "pid" = Some (JInt pid) ->
  as_number (d !! py "ts") = Some t ->
  pid_alive (the_host w) pid = true ->
  (now w - t < inject_Z (LOCK_TTL_SECONDS cfg))%Q ->
  (_run_analyzer cfg w BASE_DIR shp_path run_dir st).1
  = Raise (HTTPException 429 "Analyzer is busy. Try again soon.")
  /\ log (_run_analyzer cfg w BASE_DIR shp_path run_dir st).2 = log st
  /\ lock_file (_run_analyzer cfg w BASE_DIR shp_path run_dir st).2 = lock_file st.
Proof.
  intros Hl Hp Hts Ha Hlt.
  assert (E : exists fs,
             _run_analyzer cfg w BASE_DIR shp_path run_dir st
             = (Raise (HTTPException 429 "Analyzer is busy. Try again soon."),
                set_files (fun _ => fs) st)).
  { eexists. unfold _run_analyzer, bind at 1, _purge_outputs_for_stem, modify at 1.
    unfold bind at 1, _analysis_lock, bind at 1.
    rewrite (busy_rejected cfg (the_host w) (now w) (now' w) t _ d pid); try done. }
  destruct E as [fs ->]. by cbn.
Qed.

(** A lock left by a dead process more than four hours ago is taken over. *)
Example stale_lock_taken_over :
  let h := {| pid_alive := fun _ => false; getpid := 77;
              lock_removable := true; lock_writable := true |} in
  enter_analysis_lock default_config h 20000 20000 Sample.held_by_4242
  = (Ok tt,
     {| files := ∅;
        lock_file := Some (LockDict (<[py "pid" := JInt 77]>
                                      (<[py "ts" := JFloat 20000]> ∅)));
        log := [LockRemoved; LockWritten] |}).
Proof. by vm_compute. Qed.

End LockSpec.

(** ** The archive defences *)

Module ZipSpec.
Import PyStr Server.

Lemma check_member_cases (dest : str) (m : zip_member) :
  check_member dest m = Ok tt
  \/ exists detail, check_member dest m = Raise (HTTPException 400 detail).
Proof.
  unfold check_member.
  destruct (negb (startswith _ _)); [right; by eexists|].
  destruct (is_dir m); [by left|].
  destruct (_ && _); [right; by eexists|by left].
Qed.

(** The loop stops at the first member that fails a check. *)
Lemma check_members_offender (dest : str) (members : list zip_member) :
  (exists m, m ∈ members /\ check_member dest m <> Ok tt) ->
  exists detail, check_members dest members = Raise (HTTPException 400 detail).
Proof.
  induction members as [|m0 rest IH]; intros (m & Hin & Hbad).
  - by apply elem_of_nil in Hin.
  - cbn [check_members].
    destruct (check_member_cases dest m0) as [Hok|[detail Hr]].
    + rewrite Hok. apply IH. apply elem_of_cons in Hin as [->|Hin]; [done|].
      by exists m.
    + rewrite Hr. by exists detail.
Qed.








(** The comparison of the two paths is one of strings: a target in a
    sibling directory whose name begins with the name of the destination
    passes it. *)
Lemma check_member_sibling_prefix :
  let m := {| filename := py "../upload_evil/x.shp"; file_size := 1 |} in
  resolve (pjoin (py "/srv/runs/r1/upload") (filename m))
  = [py "srv"; py "runs"; py "r1"; py "upload_evil"; py "x.shp"]
  /\ check_member (py "/srv/runs/r1/upload") m = Ok tt.
Proof. split; reflexivity. Qed.

(** An entry that climbs out of the destination is refused, and nothing is
    written. *)
Example traversal_entry_refused :
  _safe_extract_zip default_config
    [ {| filename := py "area.shp"; file_size := 10 |};
      {| filename := py "../../evil.shp"; file_size := 10 |} ]
    (py "/srv/runs/r1/upload") Sample.before
  = (Raise (HTTPException 400 "Invalid zip contents."), Sample.before).
Proof. reflexivity. Qed.


End ZipSpec.

(** ** The run directory of a failed request *)

Module CleanupSpec.
Import PyStr Server.

Lemma rmtree_clean (d : path) (fs : gset path) (p : path) :
  p ∈ rmtree d fs -> ~ d `prefix_of` p.
Proof. unfold rmtree. rewrite elem_of_filter. tauto. Qed.

Lemma path_exists_false (d : path) (fs : gset path) (p : path) :
  path_exists d fs = false -> p ∈ fs -> ~ d `prefix_of` p.
Proof.
  unfold path_exists. intros H Hp Hpre. apply bool_decide_eq_false in H.
  apply H. by exists p.
Qed.

Lemma cleanup_run_dir_clean (run_dir : path) (st : state) :
  (_cleanup_run_dir run_dir st).1 = Ok tt
  /\ forall p, p ∈ files (_cleanup_run_dir run_dir st).2 -> ~ run_dir `prefix_of` p.
Proof.
  unfold _cleanup_run_dir, bind, get, modify, ret.
  destruct (path_exists run_dir (files st)) eqn:E; cbn.
  - split; [done|]. intros p. apply rmtree_clean.
  - split; [done|]. intros p. by apply path_exists_false.
Qed.

(** Both [except] clauses clean up and raise. *)
Lemma cleanup_handler_clean {A} (run_dir : path) (e : exn) (st : state) :
  (exists e', (cleanup_handler (A:=A) run_dir e st).1 = Raise e')
  /\ forall p, p ∈ files (cleanup_handler (A:=A) run_dir e st).2 ->
       ~ run_dir `prefix_of` p.
Proof.
  destruct (cleanup_run_dir_clean run_dir st) as [H1 H2].
  unfold cleanup_handler, bind, raise.
  destruct e; destruct (_cleanup_run_dir run_dir st) as [[[]|e'] st'];
    cbn in *; try done; split; eauto.
Qed.

(** Whatever the guarded block does, an error leaves nothing under the run
    directory. *)
Lemma guarded_failure_clean {A} (run_dir : path) (body : M A) (st : state) (e : exn) :
  (try_except body (cleanup_handler run_dir) st).1 = Raise e ->
  forall p, p ∈ files (try_except body (cleanup_handler run_dir) st).2 ->
    ~ run_dir `prefix_of` p.
Proof.
  unfold try_except. destruct (body st) as [[a|e0] st0]; [done|].
  intros _. apply cleanup_handler_clean.
Qed.

(** C6: a request, file upload or drawn geometry, that fails after its
    run directory has been made (the disk-space check passed and, for an
    upload, the file type is one of the allowed ones) ends with nothing
    left at or below that directory: whichever stage raised, an HTTP error
    or another exception, the directory is removed before the error goes to
    the client. *)
Theorem failed_request_leaves_nothing (cfg : config) (w : world) (BASE_DIR : path)
    (run_id : str) (st : state) :
  (forall u e,
     (free_gb w <? MIN_FREE_DISK_GB cfg) = false ->
     lower (PyPath.suffix (up_filename u)) ∈ ALLOWED_EXT ->
     (analyze cfg w BASE_DIR u run_id st).1 = Raise e ->
     forall p, p ∈ files (analyze cfg w BASE_DIR u run_id st).2 ->
       ~ (RUNS_DIR BASE_DIR ++ [run_id]) `prefix_of` p)
  /\ (forall lang e,
       (free_gb w <? MIN_FREE_DISK_GB cfg) = false ->
       (analyze_geojson cfg w BASE_DIR lang run_id st).1 = Raise e ->
       forall p, p ∈ files (analyze_geojson cfg w BASE_DIR lang run_id st).2 ->
         ~ (RUNS_DIR BASE_DIR ++ [run_id]) `prefix_of` p).
Proof.
  split.
  - intros u e Hdisk Hext. unfold analyze, bind at 1 2 3, _ensure_disk_space.
    rewrite Hdisk. unfold ret at 1, _cleanup_old_runs, modify at 1.
    rewrite (bool_decide_eq_true_2 _ Hext). cbn [negb].
    unfold bind at 1, mkdir_upload, modify at 1. apply guarded_failure_clean.
  - intros lang e Hdisk. unfold analyze_geojson, bind at 1 2 3, _ensure_disk_space.
    rewrite Hdisk. unfold ret at 1, _cleanup_old_runs, modify at 1.
    unfold mkdir_upload, modify at 1. apply guarded_failure_clean.
Qed.

(** The sample upload goes through: the pipeline runs once, under the lock. *)
Example small_upload_succeeds :
  (exists r, (analyze default_config Sample.the_world Sample.install_dir
                      Sample.small_upload (py "r1") Sample.before).1 = Ok r
             /\ outputs r = [py "area_frost_eistage.png"; py "area_map.html"])
  /\ log (analyze default_config Sample.the_world Sample.install_dir
                  Sample.small_upload (py "r1") Sample.before).2
     = [LockWritten; PipelineRun; LockRemoved].
Proof. split; [eexists; split|]; by vm_compute. Qed.

Lemma failed_request_leaves_nothing_witness :
  (analyze default_config Sample.the_world Sample.install_dir
           Sample.oversized_upload (py "r1") Sample.before).1
  = Raise (HTTPException 413 "Upload too large.")
  /\ forall p,
       p ∈ files (analyze default_config Sample.the_world Sample.install_dir
                          Sample.oversized_upload (py "r1") Sample.before).2 ->
       ~ (RUNS_DIR Sample.install_dir ++ [py "r1"]) `prefix_of` p.
Proof.
  assert (H : (analyze default_config Sample.the_world Sample.install_dir
                       Sample.oversized_upload (py "r1") Sample.before).1
              = Raise (HTTPException 413 "Upload too large.")) by (by vm_compute).
  split; [exact H|].
  refine (proj1 (failed_request_leaves_nothing default_config Sample.the_world
                   Sample.install_dir (py "r1") Sample.before)
                Sample.oversized_upload _ eq_refl _ H).
  apply (bool_decide_unpack _). by vm_compute.
Defined.

End CleanupSpec.

(** ** More on strings and paths *)

Module PathFacts.
Import PyStr PyStrFacts NamingSpec.

Lemma split_nonempty (sep : ascii) (s : str) : split sep s <> [].
Proof.
  destruct s as [|c s]; cbn; [done|].
  destruct (decide (c = sep)); [done|]. by destruct (split sep s).
Qed.

Lemma split_app (sep : ascii) (a b : str) :
  split sep (a ++ sep :: b) = split sep a ++ split sep b.
Proof.
  induction a as [|c a IH].
  - cbn. by rewrite decide_True.
  - change ((c :: a) ++ sep :: b) with (c :: (a ++ sep :: b)).
    cbn [split]. rewrite IH.
    destruct (decide (c = sep)); [done|].
    pose proof (split_nonempty sep a). by destruct (split sep a).
Qed.

(** No component holds the separator. *)
Lemma split_sep_free (sep : ascii) (s c : str) : c ∈ split sep s -> sep ∉ c.
Proof.
  revert c. induction s as [|a s IH]; intros c; cbn.
  - intros ->%list_elem_of_singleton. apply not_elem_of_nil.
  - destruct (decide (a = sep)) as [->|Hne].
    + intros [->|H]%elem_of_cons; [apply not_elem_of_nil|by apply IH].
    + destruct (split sep s) as [|p ps] eqn:E.
      * by destruct (split_nonempty sep s).
      * intros [->|H]%elem_of_cons.
        -- apply not_elem_of_cons. split; [congruence|].
           apply IH. apply list_elem_of_here.
        -- apply IH. by apply list_elem_of_further.
Qed.

Lemma name_sep_free (p : str) : "/"%char ∉ PyPath.name p.
Proof.
  unfold PyPath.name, PyPath.parts.
  destruct (last _) as [c|] eqn:E; cbn; [|apply not_elem_of_nil].
  apply last_Some_elem_of, list_elem_of_filter in E as [_ E].
  by apply split_sep_free in E.
Qed.

(** [Path(d + "/" + n).name] is [n]. *)
Lemma name_of_joined (d n : str) :
  contains (py "/") n = false -> n <> [] -> n <> py "." ->
  PyPath.name (d ++ py "/" ++ n) = n.
Proof.
  intros H Hne Hdot. unfold PyPath.name, PyPath.parts.
  change (py "/" ++ n) with ("/"%char :: n).
  rewrite split_app, (split_absent "/" n H), filter_app.
  cbn [filter list_filter]. rewrite decide_True by done.
  by rewrite last_snoc.
Qed.

Lemma remove_go_subset (old : str) (k : nat) (s : str) (x : ascii) :
  x ∈ remove_go old k s -> x ∈ s.
Proof.
  revert k. induction s as [|c s IH]; intros k; cbn; [done|].
  destruct k as [|k].
  - destruct (startswith old (c :: s)).
    + intros H. apply list_elem_of_further. by apply IH in H.
    + intros [->|H]%elem_of_cons; [apply list_elem_of_here|].
      apply list_elem_of_further. by apply IH in H.
  - intros H. apply list_elem_of_further. by apply IH in H.
Qed.

Lemma remove_subset (old s : str) (x : ascii) : x ∈ remove old s -> x ∈ s.
Proof. destruct old; [done|]. apply remove_go_subset. Qed.

Lemma lstrip_suffix (c : ascii) (s : str) : lstrip c s `suffix_of` s.
Proof.
  induction s as [|a s IH]; cbn; [done|].
  destruct (decide (a = c)); [|done]. by apply suffix_cons_r.
Qed.

Lemma rstrip_prefix (c : ascii) (s : str) : rstrip c s `prefix_of` s.
Proof.
  unfold rstrip. destruct (lstrip_suffix c (rev s)) as [k Hk].
  exists (rev k). rewrite <- (rev_involutive s) at 1. rewrite Hk at 1.
  by rewrite rev_app_distr.
Qed.

Lemma lstrip_head_ne (c : ascii) (s : str) : head (lstrip c s) <> Some c.
Proof.
  induction s as [|a s IH]; cbn; [done|].
  destruct (decide (a = c)); [done|]. cbn. congruence.
Qed.

(** What [rstrip] returns does not end in the stripped character. *)
Lemma rstrip_clean (c : ascii) (s : str) : endswith [c] (rstrip c s) = false.
Proof.
  unfold endswith, rstrip. rewrite rev_involutive. cbn.
  pose proof (lstrip_head_ne c (rev s)) as H.
  destruct (lstrip c (rev s)) as [|a t]; [done|].
  cbn in H. destruct (decide (c = a)) as [->|]; [done|done].
Qed.

End PathFacts.

(** ** More on canonical names *)

Module NamingMore.
Import PyStr PyStrFacts NamingSpec PathFacts Analyzer.

Lemma strip_first_suffix_prefix (sufs : list str) (n : str) :
  strip_first_suffix sufs n `prefix_of` n.
Proof.
  induction sufs as [|suf rest IH]; cbn; [done|].
  destruct (endswith suf n); [|done]. apply prefix_take.
Qed.

Lemma drop_period_code_prefix (n : str) : drop_period_code n `prefix_of` n.
Proof.
  unfold drop_period_code. destruct (_ || _); [done|].
  destruct (endswith _ n); [apply prefix_take|done].
Qed.

(** The stem [rename_dwd_file] puts in front of [.asc]. *)
Lemma rename_dwd_file_stem (file : str) :
  exists x,
    rename_dwd_file file = x ++ py ".asc"
    /\ x `prefix_of` remove DWD_PREFIX (PyPath.name file)
    /\ endswith (py "_") x = false.
Proof.
  unfold rename_dwd_file. eexists. split; [reflexivity|]. split.
  - etrans; [apply rstrip_prefix|]. etrans; [apply drop_period_code_prefix|].
    apply strip_first_suffix_prefix.
  - apply rstrip_clean.
Qed.

(** X1. Whatever the input, the result ends in [.asc], and what stands
    before it holds no slash and does not end in an underscore. *)
Theorem rename_dwd_file_shape (file : str) :
  exists x,
    rename_dwd_file file = x ++ py ".asc"
    /\ ("/"%char ∉ x)
    /\ endswith (py "_") x = false.
Proof.
  destruct (rename_dwd_file_stem file) as (x & E & [k Hk] & Hu).
  exists x. split; [done|]. split; [|done].
  intros Hx. apply (name_sep_free file). apply (remove_subset DWD_PREFIX).
  rewrite Hk. apply elem_of_app. by left.
Qed.

(** X2. Only the last component of a path matters. *)
Theorem rename_dwd_file_ignores_directory (d n : str) :
  contains (py "/") n = false -> n <> [] -> n <> py "." ->
  rename_dwd_file (d ++ py "/" ++ n) = rename_dwd_file n.
Proof.
  intros H Hne Hdot. unfold rename_dwd_file.
  by rewrite name_of_joined, name_of_bare.
Qed.

Lemma rename_dwd_file_ignores_directory_witness :
  rename_dwd_file (py "/data/dwd" ++ py "/" ++ py "grids_germany_annual_frost_days_195117.asc.gz")
  = rename_dwd_file (py "grids_germany_annual_frost_days_195117.asc.gz").
Proof.
  by apply (rename_dwd_file_ignores_directory (py "/data/dwd")
              (py "grids_germany_annual_frost_days_195117.asc.gz")).
Defined.

Lemma startswith_app_l (q u w : str) :
  (length q <= length u)%nat -> startswith q (u ++ w) = startswith q u.
Proof.
  revert u. induction q as [|a q IH]; intros u H; [done|].
  destruct u as [|b u]; cbn in H; [lia|]. cbn.
  destruct (decide (a = b)); [|done]. apply IH. lia.
Qed.

(** Whether a string ends in [p] is decided by its last [length p]
    characters. *)
Lemma endswith_app_r (p a y : str) :
  (length p <= length y)%nat -> endswith p (a ++ y) = endswith p y.
Proof.
  intros H. unfold endswith. rewrite rev_app_distr.
  apply startswith_app_l. by rewrite !length_rev.
Qed.

Lemma startswith_weaken (p x b : str) :
  startswith p x = true -> startswith p (x ++ b) = true.
Proof.
  intros [t ->]%startswith_inv. rewrite <- app_assoc. apply startswith_app.
Qed.

Lemma contains_app_l (p a b : str) :
  contains p (a ++ b) = false -> contains p a = false.
Proof.
  intros H. apply not_true_is_false. intros Ha. apply not_true_iff_false in H.
  apply H. clear H. induction a as [|c a IH].
  - cbn in Ha. rewrite orb_false_r in Ha. destruct p; [|done].
    by destruct b.
  - cbn [contains] in Ha. apply orb_true_iff in Ha as [Ha|Ha].
    + change ((c :: a) ++ b) with (c :: (a ++ b)). cbn [contains].
      apply orb_true_iff. left. by apply (startswith_weaken p (c :: a) b).
    + change ((c :: a) ++ b) with (c :: (a ++ b)). cbn [contains].
      apply orb_true_iff. right. by apply IH.
Qed.

Lemma contains_single_app (c : ascii) (a b : str) :
  contains [c] a = false -> contains [c] b = false -> contains [c] (a ++ b) = false.
Proof.
  rewrite !contains_single, not_elem_of_app. tauto.
Qed.

(** X3. The two spellings of the catalogue, the year followed by the
    period code 17 or the year alone, give the same canonical name
    [variable_year.asc], for every four-character year that does not end in
    17 and for the years 1917 and 2017. *)
Theorem rename_dwd_file_both_spellings (v y suf suf' : str) :
  contains (py "/") v = false ->
  contains (py "/") y = false ->
  contains (py "_") y = false ->
  length y = 4%nat ->
  contains DWD_PREFIX (v ++ py "_" ++ y ++ py "17") = false ->
  suf ∈ KNOWN_SUFFIXES -> suf' ∈ KNOWN_SUFFIXES ->
  endswith (py "17") y = false \/ y = py "1917" \/ y = py "2017" ->
  rename_dwd_file (DWD_PREFIX ++ (v ++ py "_" ++ y ++ py "17") ++ suf)
  = v ++ py "_" ++ y ++ py ".asc"
  /\ rename_dwd_file (DWD_PREFIX ++ (v ++ py "_" ++ y) ++ suf')
     = v ++ py "_" ++ y ++ py ".asc".
Proof.
  intros Hv Hy Hu Hlen Hpre Hsuf Hsuf' Hyear.
  destruct y as [|a [|b [|c [|d [|? ?]]]]]; try done. clear Hlen.
  assert (Hb : b <> "_"%char /\ d <> "_"%char).
  { apply contains_single in Hu. rewrite !not_elem_of_cons in Hu. naive_solver. }
  destruct Hb as [Hb Hd].
  assert (Hlast : rstrip "_" (v ++ py "_" ++ [a; b; c; d]) = v ++ py "_" ++ [a; b; c; d]).
  { replace (v ++ py "_" ++ [a; b; c; d]) with ((v ++ py "_" ++ [a; b; c]) ++ [d])
      by (by rewrite <- !app_assoc).
    by apply rstrip_snoc. }
  split.
  - rewrite rename_dwd_file_stages; [| |done|done].
    + unfold drop_period_code.
      replace (endswith (py "_1917") (v ++ py "_" ++ [a; b; c; d] ++ py "17")) with false.
      2:{ rewrite (app_assoc v), (endswith_app_r _ _ ([a; b; c; d] ++ py "17")) by (vm_compute; lia).
          unfold endswith, py. cbn. repeat case_decide; congruence. }
      replace (endswith (py "_2017") (v ++ py "_" ++ [a; b; c; d] ++ py "17")) with false.
      2:{ rewrite (app_assoc v), (endswith_app_r _ _ ([a; b; c; d] ++ py "17")) by (vm_compute; lia).
          unfold endswith, py. cbn. repeat case_decide; congruence. }
      cbn [orb].
      replace (v ++ py "_" ++ [a; b; c; d] ++ py "17")
        with ((v ++ py "_" ++ [a; b; c; d]) ++ py "17") by (by rewrite <- !app_assoc).
      rewrite endswith_app, (drop_last_app _ (py "17")), Hlast.
      by rewrite <- !app_assoc.
    + repeat apply contains_single_app; done.
  - replace (v ++ py "_" ++ [a; b; c; d] ++ py "17")
      with ((v ++ py "_" ++ [a; b; c; d]) ++ py "17") in Hpre by (by rewrite <- !app_assoc).
    apply contains_app_l in Hpre.
    rewrite rename_dwd_file_stages; [| |done|done].
    + assert (E : drop_period_code (v ++ py "_" ++ [a; b; c; d]) = v ++ py "_" ++ [a; b; c; d]).
      { unfold drop_period_code.
        rewrite !(endswith_app_r _ v (py "_" ++ [a; b; c; d])) by (vm_compute; lia).
        destruct Hyear as [H17|[E|E]].
        - rewrite (endswith_app_r (py "17") (py "_") [a; b; c; d]) by (vm_compute; lia).
          rewrite H17. by destruct (_ || _).
        - unfold py in E. cbn in E. injection E as -> -> -> ->. reflexivity.
        - unfold py in E. cbn in E. injection E as -> -> -> ->. reflexivity. }
      rewrite E, Hlast. by rewrite <- !app_assoc.
    + repeat apply contains_single_app; done.
Qed.

Lemma rename_dwd_file_both_spellings_witness :
  rename_dwd_file (py "grids_germany_annual_air_temp_max_191717.asc.gz")
  = py "air_temp_max_1917.asc"
  /\ rename_dwd_file (py "grids_germany_annual_air_temp_max_1917.zip")
     = py "air_temp_max_1917.asc".
Proof.
  apply (rename_dwd_file_both_spellings (py "air_temp_max") (py "1917")
           (py ".asc.gz") (py ".zip")); try reflexivity.
  - apply list_elem_of_here.
  - apply list_elem_of_further, list_elem_of_here.
  - right. by left.
Defined.

End NamingMore.

(** ** Decompression, georeferencing and the cache check together *)

Module PipelineSpec.
Import PyStr PyStrFacts NamingSpec PathFacts NamingMore Analyzer FolderSpec CacheSpec.

Lemma rfind_absent (c : ascii) (s : str) : c ∉ s -> rfind c s = None.
Proof.
  induction s as [|a s IH]; intros H; [done|].
  apply not_elem_of_cons in H as [H1 H2]. cbn. rewrite (IH H2).
  by rewrite decide_False.
Qed.

Lemma rfind_last_dot (x ext : str) :
  "."%char ∉ ext -> rfind "." (x ++ "."%char :: ext) = Some (length x).
Proof.
  intros H. induction x as [|a x IH]; cbn.
  - by rewrite (rfind_absent _ _ H).
  - by rewrite IH.
Qed.

(** The suffix and the stem of a bare file name [x.ext]. *)
Lemma suffix_stem_of_bare (x ext : str) :
  x <> [] -> ext <> [] -> "."%char ∉ ext ->
  contains (py "/") (x ++ "."%char :: ext) = false ->
  PyPath.suffix (x ++ "."%char :: ext) = "."%char :: ext
  /\ PyPath.stem (x ++ "."%char :: ext) = x.
Proof.
  intros Hx He Hdot Hs. unfold PyPath.suffix, PyPath.stem.
  rewrite name_of_bare; [|done|by destruct x|].
  2:{ destruct x as [|a [|b x]]; [done| |done]. by destruct ext. }
  unfold PyPath.suffix_index. rewrite (rfind_last_dot x ext Hdot).
  assert ((0 <? length x)%nat = true) as ->
    by (apply Nat.ltb_lt; destruct x; [done|cbn; lia]).
  assert ((length x <? length (x ++ "."%char :: ext) - 1)%nat = true) as ->.
  { apply Nat.ltb_lt. rewrite length_app. cbn. destruct ext; [done|cbn; lia]. }
  cbn [andb]. by rewrite drop_app_length, take_app_length.
Qed.

Lemma canonical_is_raster (x : str) :
  x <> [] -> "/"%char ∉ x ->
  lower (PyPath.suffix (x ++ py ".asc")) = py ".asc"
  /\ PyPath.stem (x ++ py ".asc") = x.
Proof.
  intros Hx Hs.
  destruct (suffix_stem_of_bare x (py "asc")) as [E1 E2]; try done.
  - apply (bool_decide_unpack _). by vm_compute.
  - apply contains_single_app; [by apply contains_single|reflexivity].
  - change (x ++ py ".asc") with (x ++ "."%char :: py "asc"). by rewrite E1, E2.
Qed.

(** The canonical name is a bare file name. *)
Lemma canonical_no_slash (file : str) :
  exists x, rename_dwd_file file = x ++ py ".asc" /\ ("/"%char ∉ x).
Proof.
  destruct (rename_dwd_file_stem file) as (x & E & [k Hk] & _).
  exists x. split; [done|].
  intros Hx. apply (name_sep_free file). apply (remove_subset DWD_PREFIX).
  rewrite Hk. apply elem_of_app. by left.
Qed.

Lemma parts_of_bare (s : str) :
  contains (py "/") s = false -> s <> [] -> s <> py "." -> PyPath.parts s = [s].
Proof.
  intros H Hne Hdot. unfold PyPath.parts.
  rewrite (split_absent "/" s H). cbn [filter list_filter].
  by rewrite decide_True.
Qed.

Lemma root_cases (p : str) :
  PyPath.root p = [] \/ PyPath.root p = py "/" \/ PyPath.root p = py "//".
Proof. unfold PyPath.root. repeat case_match; tauto. Qed.

Lemma join_snoc (cs : list str) (n : str) :
  cs <> [] -> PyPath.join (cs ++ [n]) = PyPath.join cs ++ py "/" ++ n.
Proof.
  induction cs as [|c cs IH]; [done|]. intros _.
  destruct cs as [|c' cs]; [done|].
  change ((c :: c' :: cs) ++ [n]) with (c :: ((c' :: cs) ++ [n])).
  cbn [PyPath.join]. change ((c' :: cs) ++ [n]) with (c' :: (cs ++ [n])) at 1.
  cbn iota. rewrite IH by done. by rewrite <- app_assoc.
Qed.

Lemma render_cons (r c : str) (cs : list str) :
  PyPath.render r (c :: cs) = r ++ PyPath.join (c :: cs).
Proof. by destruct r. Qed.

Lemma render_snoc (r : str) (cs : list str) (n : str) :
  PyPath.render r (cs ++ [n]) = r ++ PyPath.join (cs ++ [n]).
Proof. destruct cs; apply render_cons. Qed.

(** The last component of a rendered path is its name. *)
Lemma name_of_render (r : str) (cs : list str) (n : str) :
  r = [] \/ r = py "/" \/ r = py "//" ->
  contains (py "/") n = false -> n <> [] -> n <> py "." ->
  PyPath.name (PyPath.render r (cs ++ [n])) = n.
Proof.
  intros Hr Hs Hne Hdot. rewrite render_snoc.
  destruct cs as [|c cs].
  - destruct Hr as [-> | [-> | ->]].
    + by apply name_of_bare.
    + by apply (name_of_joined []).
    + by apply (name_of_joined (py "/")).
  - rewrite join_snoc by done. rewrite app_assoc. by apply name_of_joined.
Qed.

Lemma parts_component (p : str) : Forall PyPath.component (PyPath.parts p).
Proof.
  apply Forall_forall. intros c [[H1 H2] H3]%list_elem_of_filter.
  repeat split; [done..|]. by apply (split_sep_free _ p).
Qed.

Lemma split_cons_sep (s : str) : split "/" ("/"%char :: s) = [] :: split "/" s.
Proof. cbn. by rewrite decide_True. Qed.

Lemma parts_cons_sep (s : str) : PyPath.parts ("/"%char :: s) = PyPath.parts s.
Proof.
  unfold PyPath.parts. rewrite split_cons_sep. cbn [filter list_filter].
  by rewrite decide_False by (by intros [? _]).
Qed.

Lemma parts_join (cs : list str) : Forall PyPath.component cs -> PyPath.parts (PyPath.join cs) = cs.
Proof.
  induction 1 as [|c cs (Hne & Hdot & Hs) Hcs IH]; [done|].
  destruct cs as [|c' cs].
  - cbn. apply parts_of_bare; [by apply contains_single|done..].
  - change (PyPath.join (c :: c' :: cs))
      with (c ++ "/"%char :: PyPath.join (c' :: cs)).
    unfold PyPath.parts in *. rewrite split_app, filter_app, IH.
    rewrite (split_absent "/" c) by (by apply contains_single).
    cbn [filter list_filter]. by rewrite decide_True.
Qed.

Lemma root_of_join (r : str) (c : str) (cs : list str) :
  r = [] \/ r = py "/" \/ r = py "//" -> PyPath.component c ->
  PyPath.root (r ++ PyPath.join (c :: cs)) = r.
Proof.
  intros Hr (Hne & _ & Hs).
  assert (exists a t, PyPath.join (c :: cs) = a :: t /\ a <> "/"%char) as (a & t & -> & Ha).
  { destruct c as [|a c]; [done|]. apply not_elem_of_cons in Hs as [Hs _].
    destruct cs; cbn; eauto. }
  unfold PyPath.root.
  destruct Hr as [-> | [-> | ->]]; unfold py; cbn [app list_ascii_of_string lstrip];
    rewrite ?decide_True by done; rewrite ?decide_False by done; cbn [lstrip];
    rewrite ?decide_False by done; cbn [length].
  - by rewrite Nat.sub_diag.
  - by replace (S (S (length t)) - S (length t))%nat with 1%nat by lia.
  - by replace (S (S (S (length t))) - S (length t))%nat with 2%nat by lia.
Qed.

(** A rendered path is its own text. *)
Lemma norm_render (r : str) (cs : list str) :
  r = [] \/ r = py "/" \/ r = py "//" -> Forall PyPath.component cs ->
  PyPath.norm (PyPath.render r cs) = PyPath.render r cs.
Proof.
  intros Hr Hcs. destruct cs as [|c cs].
  - by destruct Hr as [-> | [-> | ->]].
  - rewrite render_cons. unfold PyPath.norm.
    rewrite root_of_join by (done || by inversion Hcs).
    assert (PyPath.parts (r ++ PyPath.join (c :: cs)) = c :: cs) as ->; [|apply render_cons].
    destruct Hr as [-> | [-> | ->]]; unfold py; cbn [app list_ascii_of_string];
      rewrite ?parts_cons_sep; by apply parts_join.
Qed.

Lemma root_of_rootless (s : str) : "/"%char ∉ s -> PyPath.root s = [].
Proof.
  intros H. unfold PyPath.root. destruct s as [|a t]; [done|].
  apply not_elem_of_cons in H as [H _]. cbn [lstrip].
  rewrite decide_False by done. by rewrite Nat.sub_diag.
Qed.

(** The canonical name is a single name, as [with_name] asks. *)
Lemma canonical_single_name (file : str) :
  let n := rename_dwd_file file in
  ("/"%char ∉ n) /\ n <> [] /\ n <> py "." /\ last n = Some "c"%char.
Proof.
  cbv zeta. destruct (canonical_no_slash file) as (x & -> & Hx).
  split; [|split; [|split]].
  - rewrite elem_of_app. intros [?|H]; [done|]. revert H.
    apply (bool_decide_unpack _). by vm_compute.
  - by destruct x.
  - intros H%(f_equal length). rewrite length_app in H. unfold py in H.
    cbn in H. lia.
  - change (py ".asc") with (py ".as" ++ ["c"%char]). by rewrite app_assoc, last_snoc.
Qed.

Lemma with_name_canonical (p : str) :
  PyPath.name p <> [] ->
  PyPath.with_name p (rename_dwd_file (PyPath.name p))
  = Some (PyPath.render (PyPath.root p)
            (removelast (PyPath.parts p) ++ [rename_dwd_file (PyPath.name p)])).
Proof.
  intros Hp. unfold PyPath.with_name.
  destruct (canonical_single_name (PyPath.name p)) as (Hs & Hne & Hdot & Hl).
  rewrite bool_decide_eq_false_2; [done|].
  rewrite Hl, (root_of_rootless _ Hs).
  rewrite parts_of_bare by (by apply contains_single || done).
  cbn. naive_solver.
Qed.

(** The sibling written by [decompress_file]: it carries the canonical
    name and is its own text as a path. *)
Lemma sibling_path (p sibling : str) :
  PyPath.with_name p (rename_dwd_file (PyPath.name p)) = Some sibling ->
  PyPath.name sibling = rename_dwd_file (PyPath.name p)
  /\ PyPath.norm sibling = sibling.
Proof.
  unfold PyPath.with_name. case_bool_decide; [done|]. intros [= <-].
  destruct (canonical_single_name (PyPath.name p)) as (Hs & Hne & Hdot & Hl).
  split.
  - apply name_of_render; [apply root_cases|by apply contains_single|done..].
  - apply norm_render; [apply root_cases|]. apply Forall_app. split.
    + pose proof (parts_component p) as Hc.
      destruct (PyPath.parts p) as [|c cs _] using rev_ind; [done|].
      rewrite removelast_last. by apply Forall_app in Hc as [Hc _].
    + by repeat constructor.
Qed.

(** X4. What [decompress_file] has written is taken for a finished
    raster: decompressing the path it returned again returns that path
    unchanged and writes nothing (for a file whose canonical name is more
    than the bare suffix [.asc]). *)
Theorem decompress_file_idempotent (f g : source_file) (member out : str) :
  decompress_file f = inr (FromZip member out)
    \/ decompress_file f = inr (FromGzip out) ->
  PyPath.name out <> py ".asc" ->
  sf_path g = out ->
  decompress_file g = inr (Unchanged out).
Proof.
  intros Hf Hne Hg.
  assert (E : PyPath.with_name (sf_path f) (rename_dwd_file (PyPath.name (sf_path f)))
              = Some out).
  { unfold decompress_file in Hf. destruct (already_raster f); [naive_solver|].
    destruct (PyPath.with_name _ _) as [s|]; [|naive_solver].
    destruct (takes_zip_branch f).
    - destruct (sf_zip f) as [| |ms]; [naive_solver..|].
      destruct (asc_members ms); [naive_solver|].
      destruct (copy_member f _); naive_solver.
    - destruct (copy_gzip f); naive_solver. }
  destruct (sibling_path _ _ E) as [En Enorm].
  destruct (canonical_no_slash (PyPath.name (sf_path f))) as (x & Ex & Hs).
  rewrite Ex in En.
  assert (x <> []) by (intros ->; by apply Hne).
  destruct (canonical_is_raster x) as [E1 _]; [done..|].
  unfold decompress_file, already_raster. rewrite Hg, Enorm.
  unfold PyPath.suffix in *. rewrite En. rewrite name_of_bare in E1.
  - rewrite E1. by rewrite bool_decide_eq_true_2 by (by left).
  - apply contains_single_app; [by apply contains_single|reflexivity].
  - by destruct x.
  - intros H'%(f_equal length). rewrite length_app in H'. unfold py in H'.
    cbn in H'. lia.
Qed.

Lemma decompress_file_idempotent_witness :
  decompress_file
    {| sf_path := py "/data/dwd/air_temp_max_1971.asc"; sf_guess := None;
       sf_zip := NotZip; sf_member_opens := fun _ => false;
       sf_member_reads := fun _ => false; sf_sibling_opens := false;
       sf_sibling_writes := false; sf_is_gzip := false; sf_gzip_copies := false |}
  = inr (Unchanged (py "/data/dwd/air_temp_max_1971.asc")).
Proof.
  apply (decompress_file_idempotent
           {| sf_path := py "/data/dwd/grids_germany_annual_air_temp_max_1971.asc.gz";
              sf_guess := Some (py "zip");
              sf_zip := Zip [py "a.asc"];
              sf_member_opens := fun _ => true;
              sf_member_reads := fun _ => true;
              sf_sibling_opens := true;
              sf_sibling_writes := true;
              sf_is_gzip := false; sf_gzip_copies := false |}
           _ (py "a.asc")); [by left|by vm_compute|done].
Defined.

Lemma startswith_asc_straddle (b : str) :
  startswith (py ".asc") b = false -> b <> [] ->
  startswith (py ".asc") (b ++ py ".asc") = false.
Proof.
  intros H Hne. destruct b as [|c1 [|c2 [|c3 [|c4 b]]]]; [done|..].
  - unfold py. cbn. repeat case_decide; congruence.
  - unfold py. cbn. repeat case_decide; congruence.
  - unfold py. cbn. repeat case_decide; congruence.
  - rewrite startswith_app_l; [done|]. vm_compute. lia.
Qed.

Lemma remove_go_final_asc (b : str) :
  contains (py ".asc") b = false ->
  remove_go (py ".asc") 0 (b ++ py ".asc") = b.
Proof.
  induction b as [|c b IH]; intros H; [reflexivity|].
  apply contains_cons_false in H as [H1 H2].
  change ((c :: b) ++ py ".asc") with (c :: (b ++ py ".asc")).
  cbn [remove_go]. change (c :: b ++ py ".asc") with ((c :: b) ++ py ".asc").
  rewrite (startswith_asc_straddle (c :: b)) by done.
  by rewrite (IH H2).
Qed.

(** [asc_to_tif_add_crs] writes next to its input when [.asc] occurs in the
    path as the final suffix only. *)
Lemma tif_output_sibling (b : str) :
  contains (py ".asc") b = false -> tif_output (b ++ py ".asc") = b ++ py ".tif".
Proof.
  intros H. unfold tif_output. f_equal. by apply remove_go_final_asc.
Qed.

Section RoundTrip.
Variable urlpath : str -> str.

(** X5. The raster the pipeline makes of a remote file is the one the
    cache check looks for: when the folder holds, for every requested link,
    the georeferenced file written for the canonical name of the link, the
    check says that everything is downloaded. *)
Theorem pipeline_output_satisfies_cache (dir : str) (links : list str) (d : folder) :
  links <> [] ->
  (forall link, link ∈ links ->
     let canonical := rename_dwd_file (PyPath.name (urlpath link)) in
     canonical <> py ".asc"
     /\ contains (py ".asc") (dir ++ py "/" ++ PyPath.stem canonical) = false
     /\ is_Some (d !! PyPath.name (tif_output (dir ++ py "/" ++ canonical)))) ->
  check_if_already_downloaded urlpath links (Some d) = true.
Proof.
  intros Hne Hall.
  assert (Hfile : forall link, link ∈ links ->
            exists f, is_Some (d !! f) /\ endswith (py ".tif") f = true
                      /\ PyPath.stem f
                         = PyPath.stem (rename_dwd_file (PyPath.name (urlpath link)))).
  { intros link Hl. destruct (Hall link Hl) as (Hc & Hasc & Hin). cbv zeta in *.
    destruct (canonical_no_slash (PyPath.name (urlpath link))) as (x & Ex & Hs).
    rewrite Ex in *.
    assert (x <> []) by (intros ->; by apply Hc).
    destruct (canonical_is_raster x) as [_ Est]; [done..|]. rewrite Est in *.
    rewrite !app_assoc, tif_output_sibling in Hin by (by rewrite <- app_assoc).
    rewrite <- !app_assoc in Hin.
    assert (Hbare : contains (py "/") (x ++ py ".tif") = false).
    { apply contains_single_app; [by apply contains_single|reflexivity]. }
    rewrite name_of_joined in Hin; [|done|by destruct x|].
    2:{ destruct x as [|a [|b x]]; done. }
    exists (x ++ py ".tif"). split; [done|]. split; [apply endswith_app|].
    destruct (suffix_stem_of_bare x (py "tif")) as [_ E2]; try done.
    apply (bool_decide_unpack _). by vm_compute. }
  apply check_if_already_downloaded_true. exists d. split; [done|]. split; [|done].
  destruct links as [|link links]; [done|].
  destruct (Hfile link) as (f & ? & ? & _); [apply list_elem_of_here|]. by exists f.
Qed.

End RoundTrip.

Lemma pipeline_output_satisfies_cache_witness :
  check_if_already_downloaded Sample.path_only
    [py "/annual/frost_days/grids_germany_annual_frost_days_195117.asc.gz"]
    (Some {[ py "frost_days_1951.tif" := File ]}) = true.
Proof.
  apply (pipeline_output_satisfies_cache Sample.path_only (py "/data")); [done|].
  intros link ->%list_elem_of_singleton. cbv zeta.
  split; [by vm_compute|]. split; [reflexivity|]. vm_compute. by eexists.
Defined.

End PipelineSpec.

(** ** Archives *)

Module ArchiveSpec.
Import PyStr PyStrFacts NamingSpec PathFacts NamingMore Analyzer PipelineSpec.

Lemma decompress_file_steps (f : source_file) (members : list str) (sibling : str) :
  already_raster f = false ->
  sf_zip f = Zip members ->
  PyPath.with_name (sf_path f) (rename_dwd_file (PyPath.name (sf_path f))) = Some sibling ->
  decompress_file f
  = match asc_members members with
    | [] => inl NoAscInArchive
    | first :: _ =>
        match copy_member f first with
        | Some e => inl e
        | None => inr (FromZip first sibling)
        end
    end.
Proof.
  intros Hr Hz Hw. unfold decompress_file, takes_zip_branch, is_zipfile.
  by rewrite Hr, Hw, Hz.
Qed.

Lemma copy_member_cases (f : source_file) (m : str) :
  (copy_member f m = None
   <-> sf_member_opens f m = true /\ sf_sibling_opens f = true
       /\ sf_member_reads f m = true /\ sf_sibling_writes f = true)
  /\ forall e, copy_member f m = Some e ->
       e ∈ [MemberOpenError; SiblingOpenError; MemberReadError; SiblingWriteError].
Proof.
  unfold copy_member.
  destruct (sf_member_opens f m), (sf_sibling_opens f), (sf_member_reads f m),
    (sf_sibling_writes f); cbn; (split; [split; [done|naive_solver]|]);
    intros e [= <-]; set_solver.
Qed.

(** C4 as the specification words it does not hold: an archive with two
    grid members is not refused, its first grid member is unpacked. *)
Lemma decompress_file_two_members :
  length (asc_members [py "a.asc"; py "b.asc"]) = 2%nat
  /\ decompress_file
       {| sf_path := py "/data/dwd/grids_germany_annual_air_temp_max_1971.asc.gz";
          sf_guess := Some (py "zip");
          sf_zip := Zip [py "a.asc"; py "b.asc"];
          sf_member_opens := fun _ => true;
          sf_member_reads := fun _ => true;
          sf_sibling_opens := true;
          sf_sibling_writes := true;
          sf_is_gzip := false;
          sf_gzip_copies := false |}
     = inr (FromZip (py "a.asc") (py "/data/dwd/air_temp_max_1971.asc")).
Proof. split; reflexivity. Qed.

(** C4 (amended): for every input file with a file name that [zipfile]
    reads as an archive (and that is not taken for a finished raster by its
    suffix or its content), [decompress_file] requires at least one [.asc]
    member, in any case of letters: with none it raises the explicit error;
    with one or more it unpacks the first of them, in the order of the
    archive, to the sibling of the input that carries the canonical name,
    and succeeds exactly when that member is opened and read and the
    sibling is opened and written. Whatever it returns is that member at
    that sibling, and whatever it raises is the failure of one of these
    four steps: the number of further [.asc] members is never a reason. *)
Theorem decompress_file_zip (f : source_file) (members : list str) :
  already_raster f = false ->
  PyPath.name (sf_path f) <> [] ->
  sf_zip f = Zip members ->
  exists sibling,
    PyPath.with_name (sf_path f) (rename_dwd_file (PyPath.name (sf_path f)))
    = Some sibling
    /\ PyPath.name sibling = rename_dwd_file (PyPath.name (sf_path f))
    /\ (length (asc_members members) = 0%nat ->
        decompress_file f = inl NoAscInArchive)
    /\ (forall n, length (asc_members members) = S n ->
        exists first,
          head (asc_members members) = Some first
          /\ (decompress_file f = inr (FromZip first sibling)
              <-> sf_member_opens f first = true /\ sf_sibling_opens f = true
                  /\ sf_member_reads f first = true /\ sf_sibling_writes f = true)
          /\ (forall r, decompress_file f = inr r -> r = FromZip first sibling)
          /\ (forall e, decompress_file f = inl e ->
                e ∈ [MemberOpenError; SiblingOpenError; MemberReadError;
                     SiblingWriteError])).
Proof.
  intros Hr Hn Hz. eexists. split; [by apply with_name_canonical|].
  pose proof (with_name_canonical _ Hn) as Hw.
  split; [by apply (sibling_path _ _ Hw)|].
  rewrite (decompress_file_steps f members _ Hr Hz Hw).
  destruct (asc_members members) as [|first rest]; (split; [done|]); [done|].
  intros n _. exists first. split; [done|].
  destruct (copy_member_cases f first) as [Hok Herr].
  destruct (copy_member f first) as [e|].
  - split; [split; [done|]|split; [done|]].
    + intros H. by apply Hok in H.
    + intros e' [= <-]. by apply Herr.
  - split; [split; [intros _; by apply Hok|done]|]. split; [by intros r [= <-]|done].
Qed.

Lemma decompress_file_zip_witness :
  let f := {| sf_path := py "/data/dwd/grids_germany_annual_frost_days_2001.asc.gz";
              sf_guess := Some (py "zip");
              sf_zip := Zip [py "readme.txt"; py "FROST.ASC"; py "b.asc"];
              sf_member_opens := fun _ => true;
              sf_member_reads := fun _ => true;
              sf_sibling_opens := true;
              sf_sibling_writes := false;
              sf_is_gzip := false;
              sf_gzip_copies := false |} in
  exists sibling,
    PyPath.with_name (sf_path f) (rename_dwd_file (PyPath.name (sf_path f)))
    = Some sibling
    /\ PyPath.name sibling = rename_dwd_file (PyPath.name (sf_path f))
    /\ (length (asc_members [py "readme.txt"; py "FROST.ASC"; py "b.asc"]) = 0%nat ->
        decompress_file f = inl NoAscInArchive)
    /\ (forall n, length (asc_members [py "readme.txt"; py "FROST.ASC"; py "b.asc"]) = S n ->
        exists first,
          head (asc_members [py "readme.txt"; py "FROST.ASC"; py "b.asc"]) = Some first
          /\ (decompress_file f = inr (FromZip first sibling)
              <-> sf_member_opens f first = true /\ sf_sibling_opens f = true
                  /\ sf_member_reads f first = true /\ sf_sibling_writes f = true)
          /\ (forall r, decompress_file f = inr r -> r = FromZip first sibling)
          /\ (forall e, decompress_file f = inl e ->
                e ∈ [MemberOpenError; SiblingOpenError; MemberReadError;
                     SiblingWriteError])).
Proof.
  intros f.
  apply (decompress_file_zip f [py "readme.txt"; py "FROST.ASC"; py "b.asc"]).
  - reflexivity.
  - by vm_compute.
  - reflexivity.
Defined.

End ArchiveSpec.

(** ** The raster folder after the clean-up *)

Module RasterFolderSpec.
Import PyStr PyStrFacts NamingSpec PathFacts Analyzer FolderSpec CacheSpec.

(** What is appended without separator goes to the last component. *)
Lemma split_app_last (sep : ascii) (a b : str) :
  sep ∉ b ->
  exists init c, split sep a = init ++ [c] /\ split sep (a ++ b) = init ++ [c ++ b].
Proof.
  intros Hb. induction a as [|x a (init & c & E1 & E2)].
  - exists [], []. split; [done|]. cbn [app]. apply split_absent.
    by apply contains_single.
  - change ((x :: a) ++ b) with (x :: (a ++ b)). cbn [split]. rewrite E1, E2.
    destruct (decide (x = sep)).
    + by exists ([] :: init), c.
    + destruct init as [|i init]; cbn.
      * by exists [], (x :: c).
      * by exists ((x :: i) :: init), c.
Qed.

(** The name of a path that ends in [.tif] ends in [.tif]. *)
Lemma name_endswith_tif (p : str) :
  endswith (py ".tif") p = true -> endswith (py ".tif") (PyPath.name p) = true.
Proof.
  intros [a ->]%endswith_inv.
  destruct (split_app_last "/" a (py ".tif")) as (init & c & _ & E).
  { apply (bool_decide_unpack _). by vm_compute. }
  unfold PyPath.name, PyPath.parts. rewrite E, filter_app.
  cbn [filter list_filter]. rewrite decide_True.
  - rewrite last_snoc. apply endswith_app.
  - split.
    + by destruct c.
    + intros H%(f_equal length). rewrite length_app in H. unfold py in H.
      cbn in H. lia.
Qed.

Lemma delete_keeps_tif (d : folder) (n : str) :
  endswith (py ".tif") n = true -> delete_raster_files d !! n = d !! n.
Proof.
  intros H. rewrite delete_raster_files_lookup.
  destruct (tif_not_deleted _ H) as (H1 & H2 & H3).
  rewrite decide_False; [done|]. rewrite H1, H2, H3. naive_solver.
Qed.

(** The cache check reads the [.tif] entries only: the clean-up does not
    change its answer. *)
Lemma check_after_delete (urlpath : str -> str) (links : list str) (d : folder) :
  check_if_already_downloaded urlpath links (Some (delete_raster_files d))
  = check_if_already_downloaded urlpath links (Some d).
Proof.
  apply eq_true_iff_eq. rewrite !check_if_already_downloaded_true. split.
  - intros (d' & [= <-] & (f & Hf & Ht) & Hall). exists d. split; [done|]. split.
    + exists f. by rewrite delete_keeps_tif in Hf.
    + intros link Hl. destruct (Hall link Hl) as (g & Hg & Hgt & Hs).
      exists g. by rewrite delete_keeps_tif in Hg.
  - intros (d' & [= <-] & (f & Hf & Ht) & Hall). eexists. split; [done|]. split.
    + exists f. by rewrite delete_keeps_tif.
    + intros link Hl. destruct (Hall link Hl) as (g & Hg & Hgt & Hs).
      exists g. by rewrite delete_keeps_tif.
Qed.

(** C7 (amended): the clean-up that follows the aggregation removes from
    the raster folder every regular file whose name ends in [.asc],
    [.asc.gz] or [.zip] (the decompressed grids and the compressed source
    archives) and leaves every other entry as it was, directories of such
    a name included; in particular every entry named [*.tif] stays, the
    georeferenced rasters written by [asc_to_tif_add_crs] among them, and
    the cache check answers after the clean-up what it answered before
    it. *)
Theorem delete_raster_files_effect (d : folder) :
  (forall n, d !! n = Some File ->
     endswith (py ".asc") n = true \/ endswith (py ".asc.gz") n = true
       \/ endswith (py ".zip") n = true ->
     delete_raster_files d !! n = None)
  /\ (forall n, endswith (py ".asc") n = false -> endswith (py ".asc.gz") n = false ->
       endswith (py ".zip") n = false ->
       delete_raster_files d !! n = d !! n)
  /\ (forall n, d !! n = Some Dir -> delete_raster_files d !! n = Some Dir)
  /\ (forall n, endswith (py ".tif") n = true -> delete_raster_files d !! n = d !! n)
  /\ (forall asc_input,
       endswith (py ".tif") (PyPath.name (tif_output asc_input)) = true
       /\ delete_raster_files d !! PyPath.name (tif_output asc_input)
          = d !! PyPath.name (tif_output asc_input))
  /\ (forall urlpath links,
       check_if_already_downloaded urlpath links (Some (delete_raster_files d))
       = check_if_already_downloaded urlpath links (Some d)).
Proof.
  repeat split.
  - intros n Hf He. rewrite delete_raster_files_lookup. by rewrite decide_True.
  - intros n H1 H2 H3. rewrite delete_raster_files_lookup.
    rewrite decide_False; [done|]. rewrite H1, H2, H3. naive_solver.
  - intros n Hd. rewrite delete_raster_files_lookup.
    rewrite decide_False; [done|]. rewrite Hd. naive_solver.
  - intros n Hn. by apply delete_keeps_tif.
  - apply name_endswith_tif, tif_output_endswith.
  - apply delete_keeps_tif, name_endswith_tif, tif_output_endswith.
  - intros urlpath links. apply check_after_delete.
Qed.

End RasterFolderSpec.

(** ** The listing of the raster folder *)

Module ListingSpec.
Import PyStr PyStrFacts NamingSpec PathFacts NamingMore Analyzer FolderSpec Server Listing.

Lemma str_leb_total (a b : str) : str_leb a b = true \/ str_leb b a = true.
Proof.
  revert b. induction a as [|x a IH]; intros [|y b]; cbn [str_leb]; auto.
  destruct (decide (x = y)) as [->|Hne].
  - rewrite decide_True by done. apply IH.
  - rewrite (decide_False (P:=y = x)) by congruence.
    assert (nat_of_ascii x <> nat_of_ascii y)
      by (intros E; apply Hne; by rewrite <- (ascii_nat_embedding x), E, ascii_nat_embedding).
    rewrite !Nat.ltb_lt. lia.
Qed.

Global Instance str_le_total : Total str_le.
Proof. intros a b. apply str_leb_total. Qed.

(** Splitting and joining again gives the string back. *)
Lemma split_join (sep : ascii) (s : str) :
  exists h t, split sep s = h :: t /\ s = h ++ concat (map (cons sep) t).
Proof.
  induction s as [|c s (h & t & E & Hs)]; cbn.
  - by exists [], [].
  - destruct (decide (c = sep)) as [->|Hne].
    + exists [], (h :: t). rewrite E. split; [done|]. cbn. by rewrite <- Hs.
    + rewrite E. exists (c :: h), t. split; [done|]. cbn. by rewrite <- Hs.
Qed.

Lemma suffixes_joined (n : str) :
  endswith (py ".") n = false ->
  exists h, ("."%char ∉ h) /\ lstrip "." n = h ++ concat (suffixes n).
Proof.
  intros H. unfold suffixes. rewrite H.
  destruct (split_join "." (lstrip "." n)) as (h & t & E & Hs).
  exists h. split.
  - apply (split_sep_free "." (lstrip "." n)). rewrite E. apply list_elem_of_here.
  - rewrite E. cbn [tail]. exact Hs.
Qed.

Lemma suffix_endswith (p j n : str) :
  endswith p j = true -> j `suffix_of` n -> endswith p n = true.
Proof.
  intros [b ->]%endswith_inv [k ->]. rewrite app_assoc. apply endswith_app.
Qed.

Lemma lower_app (a b : str) : lower (a ++ b) = lower a ++ lower b.
Proof. apply map_app. Qed.

Lemma suffixes_suffix (n : str) : concat (suffixes n) `suffix_of` n.
Proof.
  destruct (endswith (py ".") n) eqn:E.
  - unfold suffixes. rewrite E. apply suffix_nil.
  - destruct (suffixes_joined n E) as (h & _ & Hm).
    etrans; [|apply lstrip_suffix]. rewrite Hm. by exists h.
Qed.

(** What is listed ends in the file type, whatever the case of the
    letters. *)
Lemma has_file_type_endswith (ft n : str) :
  has_file_type ft n = true -> endswith (lower ft) (lower n) = true.
Proof.
  unfold has_file_type. intros H. eapply suffix_endswith; [exact H|].
  destruct (suffixes_suffix n) as [k Hk]. exists (lower k).
  rewrite Hk at 1. apply lower_app.
Qed.

Lemma elem_of_list_of_files (dir : str) (d : folder) (ft p : str) :
  p ∈ list_of_files dir (Some d) ft
  <-> exists n, p = dir ++ py "/" ++ n /\ d !! n = Some File
                /\ has_file_type ft n = true.
Proof.
  unfold list_of_files. rewrite merge_sort_Permutation, list_elem_of_fmap.
  split.
  - intros (n & -> & Hn). apply list_elem_of_filter in Hn as [[? ?] _]. by exists n.
  - intros (n & -> & Hf & Ht). exists n. split; [done|].
    apply list_elem_of_filter. split; [done|].
    apply elem_of_elements, elem_of_dom. by rewrite Hf.
Qed.

Lemma lower_char_dot (c : ascii) : lower_char c = "."%char -> c = "."%char.
Proof. destruct c as [[] [] [] [] [] [] [] []]; vm_compute; congruence. Qed.

Lemma lower_dot_free (h : str) : "."%char ∉ h -> "."%char ∉ lower h.
Proof.
  intros H Hin. apply H. unfold lower in Hin.
  apply list_elem_of_fmap in Hin as (c & Hc & Hin). symmetry in Hc.
  apply lower_char_dot in Hc. by subst.
Qed.

(** A character that is not in [a] is found in [a ++ j] inside [j]. *)
Lemma app_split_at (a j b r : str) (c : ascii) :
  a ++ j = b ++ c :: r -> c ∉ a -> exists k, j = k ++ c :: r.
Proof.
  revert b. induction a as [|x a IH]; intros b E Hc.
  - by exists b.
  - apply not_elem_of_cons in Hc as [Hx Ha]. destruct b as [|y b].
    + cbn in E. congruence.
    + cbn in E. injection E as -> E. by apply (IH b).
Qed.

Lemma endswith_last (p s : str) (c z : ascii) :
  endswith (p ++ [c]) (s ++ [z]) = true -> c = z.
Proof.
  unfold endswith. rewrite !rev_app_distr. cbn.
  by destruct (decide (c = z)).
Qed.

Lemma lstrip_nonempty_last (c : ascii) (n k : str) (z : ascii) :
  n = k ++ [z] -> lstrip c n <> [] -> exists m0, lstrip c n = m0 ++ [z].
Proof.
  intros Hn Hne. destruct (lstrip_suffix c n) as [d Hd].
  destruct (exists_last Hne) as (m0 & z' & Hm). exists m0. rewrite Hm. f_equal.
  rewrite Hm, Hn, app_assoc in Hd. apply app_inj_tail in Hd as [_ ->]. done.
Qed.

(** For a file type that begins with a dot and does not end in one, the
    joined suffixes end in the type exactly when the name, without its
    leading dots, does. *)
Lemma has_file_type_iff (ft n : str) :
  head ft = Some "."%char -> endswith (py ".") ft = false ->
  has_file_type ft n = true
  <-> endswith (lower ft) (lower (lstrip "." n)) = true.
Proof.
  intros Hhead Hlast. destruct ft as [|f0 ft']; [done|]. injection Hhead as ->.
  unfold has_file_type. split.
  - intros H. eapply suffix_endswith; [exact H|].
    destruct (endswith (py ".") n) eqn:E.
    + unfold suffixes. rewrite E. apply suffix_nil.
    + destruct (suffixes_joined n E) as (h & _ & Hm). exists (lower h).
      rewrite Hm at 1. apply lower_app.
  - intros H.
    assert (E : endswith (py ".") n = false).
    { apply not_true_is_false. intros E. apply endswith_inv in E as [k Hn].
      destruct (decide (lstrip "." n = [])) as [E0|Hne].
      - rewrite E0 in H. apply endswith_inv in H as [b Hb]. destruct b; cbn in Hb; discriminate.
      - destruct (lstrip_nonempty_last "." n k "." Hn Hne) as [m0 Hm].
        rewrite Hm, lower_app in H. change (lower [("."%char)]) with [("."%char)] in H.
        destruct (exists_last (l:="."%char :: ft')) as (p0 & c0 & Hp); [done|].
        rewrite Hp, lower_app in H. cbn [lower map] in H.
        apply endswith_last, lower_char_dot in H. subst c0.
        rewrite Hp in Hlast. by rewrite endswith_app in Hlast. }
    destruct (suffixes_joined n E) as (h & Hh & Hm).
    rewrite Hm, lower_app in H. apply endswith_inv in H as [b Hb].
    change (lower ("."%char :: ft')) with ("."%char :: lower ft') in *.
    destruct (app_split_at _ _ _ _ _ Hb (lower_dot_free h Hh)) as [k Hk].
    rewrite Hk. apply endswith_app.
Qed.

(** X6. [list_of_files] returns, in ascending order, the paths of the
    regular files of the folder whose name, leading dots apart, ends in the
    file type whatever the case of its letters; directories and names that
    are nothing but the type (such as [.tif]) are left out, and a folder
    that does not exist gives the empty list. *)
Theorem list_of_files_spec (dir : str) (folder : option (gmap str entry)) (ft : str) :
  head ft = Some "."%char -> endswith (py ".") ft = false ->
  Sorted str_le (list_of_files dir folder ft)
  /\ (folder = None -> list_of_files dir folder ft = [])
  /\ (forall p, p ∈ list_of_files dir folder ft
       <-> exists d n, folder = Some d /\ p = dir ++ py "/" ++ n
                       /\ d !! n = Some File
                       /\ endswith (lower ft) (lower (lstrip "." n)) = true).
Proof.
  intros Hhead Hlast. split; [|split].
  - destruct folder; [apply Sorted_merge_sort, _|constructor].
  - by intros ->.
  - intros p. destruct folder as [d|].
    + rewrite elem_of_list_of_files. split.
      * intros (n & -> & ? & Ht). exists d, n. by rewrite <- has_file_type_iff.
      * intros (d' & n & [= <-] & -> & ? & Ht). exists n. by rewrite has_file_type_iff.
    + split; [by intros ?%elem_of_nil|by intros (? & ? & ? & _)].
Qed.

Lemma list_of_files_spec_witness :
  Sorted str_le
    (list_of_files (py "/data")
       (Some {[ py "b.tif" := File; py "a.TIF" := File; py ".tif" := File;
                py "c.tif" := Dir ]}) (py ".tif"))
  /\ list_of_files (py "/data")
       (Some {[ py "b.tif" := File; py "a.TIF" := File; py ".tif" := File;
                py "c.tif" := Dir ]}) (py ".tif")
     = [py "/data/a.TIF"; py "/data/b.tif"].
Proof.
  split; [|by vm_compute].
  apply (list_of_files_spec (py "/data") _ (py ".tif")); reflexivity.
Defined.

Lemma tif_not_pattern (n : str) :
  endswith (py ".tif") (lower n) = true ->
  endswith (py ".asc") n = false /\ endswith (py ".asc.gz") n = false
  /\ endswith (py ".zip") n = false.
Proof.
  intros H. repeat split; apply not_true_is_false; intros [b ->]%endswith_inv;
    rewrite lower_app in H; unfold endswith in H; rewrite rev_app_distr in H;
    by vm_compute in H.
Qed.

(** X7. The clean-up after the aggregation changes nothing in what
    [list_of_files] returns for [.tif]: the next run finds the same
    georeferenced rasters. *)
Theorem cleanup_keeps_listed_tif (dir : str) (d : gmap str entry) (p : str) :
  p ∈ list_of_files dir (Some (delete_raster_files d)) (py ".tif")
  <-> p ∈ list_of_files dir (Some d) (py ".tif").
Proof.
  rewrite !elem_of_list_of_files.
  split; intros (n & -> & Hf & Ht); exists n; (split; [done|]); (split; [|done]);
    destruct (tif_not_pattern n (has_file_type_endswith _ _ Ht)) as (H1 & H2 & H3);
    rewrite delete_raster_files_lookup, decide_False in *;
    try done; rewrite H1, H2, H3; naive_solver.
Qed.

End ListingSpec.

(** ** The series that are plotted *)

Module VisualizeSpec.
Import PyStr Visualize.

Lemma insert_by_key_perm (x : Z * str) (l : list (Z * str)) :
  insert_by_key x l ≡ₚ x :: l.
Proof.
  induction l as [|y l IH]; [done|]. cbn [insert_by_key].
  destruct (x.1 <=? y.1); [done|]. rewrite IH. apply Permutation_swap.
Qed.

Lemma sort_by_key_perm (l : list (Z * str)) : sort_by_key l ≡ₚ l.
Proof.
  induction l as [|x l IH]; [done|]. unfold sort_by_key. cbn [foldr].
  rewrite insert_by_key_perm. by constructor.
Qed.

Lemma insert_by_key_hd (a x : Z * str) (l : list (Z * str)) :
  key_le a x -> HdRel key_le a l -> HdRel key_le a (insert_by_key x l).
Proof.
  intros Hax Hal. destruct l as [|y l]; cbn [insert_by_key]; [by constructor|].
  destruct (x.1 <=? y.1); constructor; [done|]. by inversion Hal.
Qed.

Lemma insert_by_key_sorted (x : Z * str) (l : list (Z * str)) :
  Sorted key_le l -> Sorted key_le (insert_by_key x l).
Proof.
  induction 1 as [|y l Hs IH Hd]; cbn [insert_by_key]; [by repeat constructor|].
  destruct (Z.leb_spec x.1 y.1).
  - repeat constructor; done.
  - constructor; [done|]. apply insert_by_key_hd; [unfold key_le; lia|done].
Qed.

Lemma sort_by_key_sorted (l : list (Z * str)) : Sorted key_le (sort_by_key l).
Proof.
  induction l as [|x l IH]; [constructor|]. by apply insert_by_key_sorted.
Qed.

(** A list in order is left as it is: the sort is stable. *)
Lemma insert_by_key_head (x : Z * str) (l : list (Z * str)) :
  HdRel key_le x l -> insert_by_key x l = x :: l.
Proof.
  destruct 1 as [|y l H]; [done|]. cbn [insert_by_key].
  unfold key_le in H. by destruct (Z.leb_spec x.1 y.1); [|lia].
Qed.

Lemma sort_by_key_id (l : list (Z * str)) : Sorted key_le l -> sort_by_key l = l.
Proof.
  induction 1 as [|x l Hs IH Hd]; [done|]. unfold sort_by_key in *. cbn [foldr].
  rewrite IH. by apply insert_by_key_head.
Qed.

Lemma sorted_fst (l : list (Z * str)) : Sorted key_le l -> Sorted Z.le l.*1.
Proof.
  induction 1 as [|x l Hs IH Hd]; [constructor|]. cbn. constructor; [done|].
  destruct Hd; by constructor.
Qed.

Lemma sorted_fst_inv (l : list (Z * str)) : Sorted Z.le l.*1 -> Sorted key_le l.
Proof.
  induction l as [|x l IH]; [constructor|]. cbn. inversion 1 as [|? ? Hs Hd]; subst.
  constructor; [by apply IH|]. destruct l; [constructor|]. cbn in Hd.
  constructor. by inversion Hd.
Qed.

(** The keys computed for the sort: one per year, in the order of the table. *)
Lemma keyed_years (max_str_digits : Z) (ys : list str) (keys : list (Z * str)) :
  mapM (fun y => (fun n => (n, y)) <$> py_int max_str_digits y) ys = Some keys ->
  keys.*2 = ys /\ mapM (py_int max_str_digits) ys = Some keys.*1
  /\ Forall (fun k => py_int max_str_digits k.2 = Some k.1) keys.
Proof.
  rewrite mapM_Some. induction 1 as [|y k ys keys Hy _ IH]; [done|].
  destruct IH as (IH1 & IH2 & IH3).
  destruct (py_int max_str_digits y) as [n|] eqn:E; [|done]. injection Hy as <-. cbn.
  rewrite IH1. split; [done|]. split.
  - rewrite E. cbn. by rewrite IH2.
  - by constructor.
Qed.

Lemma keyed_years_of_ints (max_str_digits : Z) (ys : list str) (ns : list Z) :
  mapM (py_int max_str_digits) ys = Some ns ->
  mapM (fun y => (fun n => (n, y)) <$> py_int max_str_digits y) ys = Some (zip ns ys).
Proof.
  rewrite !mapM_Some. induction 1 as [|y n ys ns Hy _ IH]; [constructor|].
  cbn. constructor; [by rewrite Hy|done].
Qed.

Lemma ints_of_keys (max_str_digits : Z) (keys : list (Z * str)) :
  Forall (fun k => py_int max_str_digits k.2 = Some k.1) keys ->
  mapM (py_int max_str_digits) keys.*2 = Some keys.*1.
Proof.
  intros H. apply mapM_Some. induction H; cbn; by constructor.
Qed.

Lemma item_of_key (y : str) (d : series) :
  y ∈ d.*1 -> exists recs, item y d = Some recs /\ (y, recs) ∈ d.
Proof.
  induction d as [|[k v] d IH]; cbn; [by intros ?%elem_of_nil|].
  intros H. destruct (decide (k = y)) as [->|Hne].
  - exists v. split; [done|]. apply elem_of_cons. by left.
  - apply elem_of_cons in H as [?|H]; [congruence|].
    destruct (IH H) as (recs & ? & ?). exists recs. split; [done|].
    apply elem_of_cons. by right.
Qed.

Lemma sorted_years_spec (max_str_digits : Z) (d : series) (years : list str) :
  sorted_years max_str_digits d = Some years ->
  years ≡ₚ d.*1
  /\ exists ns, mapM (py_int max_str_digits) years = Some ns /\ Sorted Z.le ns.
Proof.
  unfold sorted_years. intros H.
  destruct (mapM _ d.*1) as [keys|] eqn:E; [|done]. cbn in H. injection H as <-.
  destruct (keyed_years _ _ _ E) as (H1 & _ & H3). split.
  - rewrite <- H1. apply fmap_Permutation, sort_by_key_perm.
  - exists (sort_by_key keys).*1. split.
    + apply ints_of_keys. by rewrite (sort_by_key_perm keys).
    + apply sorted_fst, sort_by_key_sorted.
Qed.

(** X8. What [years_values] returns on success: the title is the name of
    the variable, and the years are the year keys of that variable, each
    once as in the table, arranged so that their values as integers never
    decrease. *)
Theorem years_values_years (max_str_digits : Z) (rs_data : rs_table) (parameter_name title : str)
    (years : list str) (v_max v_mean v_min : list (option Q)) :
  years_values max_str_digits rs_data parameter_name
  = inr (title, years, v_max, v_mean, v_min) ->
  title = parameter_name
  /\ exists d ns,
       rs_data !! parameter_name = Some d
       /\ years ≡ₚ d.*1
       /\ mapM (py_int max_str_digits) years = Some ns
       /\ Sorted Z.le ns.
Proof.
  unfold years_values. intros H.
  destruct (rs_data !! parameter_name) as [d|]; [|done].
  destruct (sorted_years max_str_digits d) as [ys|] eqn:E; [|done].
  injection H as <- <- _ _ _. split; [done|].
  destruct (sorted_years_spec _ d ys E) as (Hp & ns & Hn & Hs).
  by exists d, ns.
Qed.

Lemma years_values_years_witness :
  let r := {| s_min := Some 1%Q; s_max := Some 3%Q; s_mean := Some 2%Q; s_count := 4 |} in
  let rs : rs_table := {[ py "frost_days" := [(py "2001", [r]); (py "1999", [r])] ]} in
  exists d ns,
    rs !! py "frost_days" = Some d
    /\ [py "1999"; py "2001"] ≡ₚ d.*1
    /\ mapM (py_int 4300) [py "1999"; py "2001"] = Some ns
    /\ Sorted Z.le ns.
Proof.
  intros r rs.
  refine (proj2 (years_values_years 4300 rs (py "frost_days") (py "frost_days")
                   [py "1999"; py "2001"] [Some 3%Q; Some 3%Q] [Some 2%Q; Some 2%Q]
                   [Some 1%Q; Some 1%Q] _)).
  reflexivity.
Defined.

(** X9. A table whose years are already in order comes back in that
    order: years with the same integer value (such as [2001] and [02001])
    keep the order of the table. *)
Theorem years_values_keeps_sorted (max_str_digits : Z) (rs_data : rs_table) (parameter_name : str)
    (d : series) (ns : list Z) :
  rs_data !! parameter_name = Some d ->
  mapM (py_int max_str_digits) d.*1 = Some ns ->
  Sorted Z.le ns ->
  exists v_max v_mean v_min,
    years_values max_str_digits rs_data parameter_name
    = inr (parameter_name, d.*1, v_max, v_mean, v_min).
Proof.
  intros Hd Hn Hs. unfold years_values, sorted_years. rewrite Hd.
  rewrite (keyed_years_of_ints _ _ _ Hn). cbn.
  assert (Hl : length ns = length d.*1).
  { apply mapM_Some, Forall2_length in Hn. done. }
  rewrite sort_by_key_id.
  - rewrite snd_zip by lia. by eexists _, _, _.
  - apply sorted_fst_inv. rewrite fst_zip by lia. done.
Qed.

Lemma years_values_keeps_sorted_witness :
  let r := {| s_min := Some 1%Q; s_max := Some 3%Q; s_mean := Some 2%Q; s_count := 4 |} in
  let d : series := [(py "2001", [r]); (py "02001", [r]); (py "2002", [r])] in
  exists v_max v_mean v_min,
    years_values 4300 {[ py "hot_days" := d ]} (py "hot_days")
    = inr (py "hot_days", [py "2001"; py "02001"; py "2002"], v_max, v_mean, v_min).
Proof.
  intros r d.
  apply (years_values_keeps_sorted 4300 {[ py "hot_days" := d ]} (py "hot_days") d
           [2001; 2001; 2002]); [reflexivity|reflexivity|].
  repeat constructor; lia.
Defined.

Lemma values_of_single (field : stat -> option Q) (d : series) (years : list str) :
  (forall y, y ∈ years -> exists r, item y d = Some [r]) ->
  forall i y, years !! i = Some y ->
    exists r, item y d = Some [r] /\ values_of field d years !! i = Some (field r).
Proof.
  unfold values_of. induction years as [|y0 ys IH]; intros H i y Hi; [done|].
  destruct (H y0) as [r0 E0]; [by left|]. cbn [map concat]. rewrite E0. cbn [default map app].
  destruct i as [|i].
  - injection Hi as <-. by exists r0.
  - apply IH; [|done]. intros y' Hy'. apply H. by right.
Qed.

Lemma values_of_single_length (field : stat -> option Q) (d : series) (years : list str) :
  (forall y, y ∈ years -> exists r, item y d = Some [r]) ->
  length (values_of field d years) = length years.
Proof.
  unfold values_of. induction years as [|y0 ys IH]; intros H; [done|].
  destruct (H y0) as [r0 E0]; [by left|]. cbn [map concat]. rewrite E0. cbn.
  f_equal. apply IH. intros y' Hy'. apply H. by right.
Qed.

(** X10. When every year of the variable holds one record (the statistics
    of the one dissolved feature), the three lists of values line up with
    the years: each is as long as the list of years, and at every position
    holds the maximum, the mean and the minimum of the record of the year
    at that position. *)
Theorem years_values_aligned (max_str_digits : Z) (rs_data : rs_table) (parameter_name title : str)
    (d : series) (years : list str) (v_max v_mean v_min : list (option Q)) :
  rs_data !! parameter_name = Some d ->
  (forall y recs, (y, recs) ∈ d -> length recs = 1%nat) ->
  years_values max_str_digits rs_data parameter_name
  = inr (title, years, v_max, v_mean, v_min) ->
  length v_max = length years /\ length v_mean = length years
  /\ length v_min = length years
  /\ forall i y, years !! i = Some y ->
       exists r, (y, [r]) ∈ d
                 /\ v_max !! i = Some (s_max r)
                 /\ v_mean !! i = Some (s_mean r)
                 /\ v_min !! i = Some (s_min r).
Proof.
  intros Hd Hone. unfold years_values. rewrite Hd.
  destruct (sorted_years max_str_digits d) as [ys|] eqn:E; [|done].
  intros [= <- <- <- <- <-].
  destruct (sorted_years_spec _ d ys E) as (Hp & _).
  assert (H1 : forall y, y ∈ ys -> exists r, item y d = Some [r]).
  { intros y Hy. rewrite Hp in Hy. destruct (item_of_key y d Hy) as (recs & Hi & Hin).
    pose proof (Hone _ _ Hin) as Hlen. destruct recs as [|r [|]]; try done. by exists r. }
  repeat split; try by apply values_of_single_length.
  intros i y Hi.
  destruct (values_of_single s_max d ys H1 i y Hi) as (r & Hr & Hmax).
  destruct (values_of_single s_mean d ys H1 i y Hi) as (r1 & Hr1 & Hmean).
  destruct (values_of_single s_min d ys H1 i y Hi) as (r2 & Hr2 & Hmin).
  assert (r1 = r) as -> by congruence. assert (r2 = r) as -> by congruence.
  exists r. split; [|done].
  assert (Hy : y ∈ d.*1). { rewrite <- Hp. by eapply list_elem_of_lookup_2. }
  destruct (item_of_key y d Hy) as (recs & Hi' & Hin). congruence.
Qed.

Lemma years_values_aligned_witness :
  let r1 := {| s_min := Some 1%Q; s_max := Some 3%Q; s_mean := Some 2%Q; s_count := 4 |} in
  let r2 := {| s_min := Some 5%Q; s_max := Some 7%Q; s_mean := Some 6%Q; s_count := 4 |} in
  let d : series := [(py "2001", [r1]); (py "1999", [r2])] in
  years_values 4300 {[ py "ice_days" := d ]} (py "ice_days")
  = inr (py "ice_days", [py "1999"; py "2001"], [Some 7%Q; Some 3%Q],
         [Some 6%Q; Some 2%Q], [Some 5%Q; Some 1%Q])
  /\ forall i y, [py "1999"; py "2001"] !! i = Some y ->
       exists r, (y, [r]) ∈ d
                 /\ [Some 7%Q; Some 3%Q] !! i = Some (s_max r)
                 /\ [Some 6%Q; Some 2%Q] !! i = Some (s_mean r)
                 /\ [Some 5%Q; Some 1%Q] !! i = Some (s_min r).
Proof.
  intros r1 r2 d. split; [reflexivity|].
  refine (proj2 (proj2 (proj2
    (years_values_aligned 4300 {[ py "ice_days" := d ]} (py "ice_days") (py "ice_days") d
       [py "1999"; py "2001"] [Some 7%Q; Some 3%Q] [Some 6%Q; Some 2%Q]
       [Some 5%Q; Some 1%Q] _ _ _)))).
  - reflexivity.
  - intros y recs Hin. apply elem_of_cons in Hin as [[= -> ->]|Hin]; [done|].
    apply elem_of_cons in Hin as [[= -> ->]|Hin]; [done|]. by apply elem_of_nil in Hin.
  - reflexivity.
Defined.

(** What [int] takes and what it refuses: white space of its own kind at
    both ends, a sign, single underscores between digits. *)
Example py_int_samples :
  py_int 4300 (ascii_of_nat 160 :: py "2001") = Some 2001
  /\ py_int 4300 (ascii_of_nat 28 :: py "2001") = None
  /\ py_int 4300 (py " -2_001 ") = Some (-2001)
  /\ py_int 4300 (py "2001_") = None
  /\ py_int 4300 (py "+ 2001") = None.
Proof. repeat split; reflexivity. Qed.

(** X11. The two ways [years_values] fails: with [KeyError] exactly when
    the table has no such variable, and with [ValueError] exactly when the
    variable is there and [int] refuses one of its year keys (the key is
    no decimal literal, or has more digits than the interpreter allows). *)
Theorem years_values_errors (max_str_digits : Z) (rs_data : rs_table) (parameter_name : str) :
  (years_values max_str_digits rs_data parameter_name = inl KeyError
   <-> rs_data !! parameter_name = None)
  /\ (years_values max_str_digits rs_data parameter_name = inl ValueError
      <-> exists d y, rs_data !! parameter_name = Some d
                      /\ y ∈ d.*1 /\ py_int max_str_digits y = None).
Proof.
  unfold years_values, sorted_years.
  destruct (rs_data !! parameter_name) as [d|]; [|split; [done|]].
  2: { split; [done|]. by intros (? & ? & ? & _). }
  destruct (mapM _ d.*1) as [keys|] eqn:E; cbn.
  - split; [done|]. split; [done|]. intros (d' & y & [= <-] & Hy & Hn).
    apply mapM_Some in E. apply list_elem_of_lookup in Hy as [i Hi].
    destruct (Forall2_lookup_l _ _ _ _ _ E Hi) as (k & _ & Hk). by rewrite Hn in Hk.
  - split; [done|]. split; [intros _|done].
    apply mapM_None in E. apply Exists_exists in E as (y & Hy & Hn).
    exists d, y. split; [done|]. split.
    + done.
    + by destruct (py_int max_str_digits y).
Qed.

End VisualizeSpec.

(** ** The table of the rate limiter *)

Module RateTable.
Import Server Gateway RateSpec.

Lemma serve_table_cons (cfg : config) (now : Z) (r : request) (rest : list (Z * request))
    (tbl : rate_table) :
  (serve cfg ((now, r) :: rest) tbl).2
  = (serve cfg rest (rate_limit_middleware cfg now r tbl).2).2.
Proof.
  unfold serve; fold serve.
  destruct (rate_limit_middleware cfg now r tbl) as [v tbl']. cbn [fst snd].
  by destruct (serve cfg rest tbl').
Qed.

(** X12. The table after a sequence of requests, with a positive ceiling:
    the counter of a key is what it was plus the number of requests that
    came under that key, refused ones included, and a key under which no
    request came is as it was. No entry is ever removed or reset, so the
    table holds every clock minute and address seen since the start; with
    a ceiling of zero or less the table is not touched. *)
Theorem rate_table_accounting (cfg : config) (reqs : list (Z * request))
    (tbl : rate_table) :
  (RATE_LIMIT_PER_MIN cfg <= 0 -> (serve cfg reqs tbl).2 = tbl)
  /\ (0 < RATE_LIMIT_PER_MIN cfg ->
      forall k,
        (serve cfg reqs tbl).2 !! k
        = if decide (seen k reqs = 0%nat) then tbl !! k
          else Some (default 0 (tbl !! k) + Z.of_nat (seen k reqs))).
Proof.
  split.
  - intros Hoff. revert tbl. induction reqs as [|[t q] rest IH]; intros tbl; [done|].
    rewrite serve_table_cons, middleware_disabled by done. apply IH.
  - intros Hpos k. revert tbl. unfold seen.
    induction reqs as [|[t q] rest IH]; intros tbl; [done|].
    rewrite serve_table_cons, middleware_enabled by done. cbn [fst snd].
    rewrite IH. destruct (decide (rate_key t q = k)) as [E|E].
    + rewrite filter_cons_True by done. cbn [length].
      rewrite E, lookup_insert_eq. cbn [default].
      destruct (decide (S _ = 0%nat)) as [?|_]; [lia|].
      destruct (decide (length _ = 0%nat)) as [->|_]; unfold id; f_equal; lia.
    + rewrite filter_cons_False by done. rewrite lookup_insert_ne by done. done.
Qed.

Lemma rate_table_accounting_witness :
  0 < RATE_LIMIT_PER_MIN default_config
  /\ forall k,
       (serve default_config (replicate 3 (30, Sample.a_client)) ∅).2 !! k
       = if decide (seen k (replicate 3 (30, Sample.a_client)) = 0%nat)
         then (∅ : rate_table) !! k
         else Some (default 0 ((∅ : rate_table) !! k)
                    + Z.of_nat (seen k (replicate 3 (30, Sample.a_client)))).
Proof.
  split; [reflexivity|].
  apply (proj2 (rate_table_accounting default_config
                  (replicate 3 (30, Sample.a_client)) ∅)).
  reflexivity.
Defined.

Lemma seen_once (reqs : list (Z * request)) (i : nat) (now : Z) (r : request) :
  NoDup (map (fun p => rate_key p.1 p.2) reqs) ->
  reqs !! i = Some (now, r) ->
  length (filter (fun p => rate_key p.1 p.2 = rate_key now r) (take (S i) reqs)) = 1%nat.
Proof.
  revert i. induction reqs as [|[t q] rest IH]; intros i Hnd Hi; [done|].
  cbn in Hnd. apply NoDup_cons in Hnd as [Hnot Hnd].
  change (take (S i) ((t, q) :: rest)) with ((t, q) :: take i rest).
  destruct i as [|i].
  - injection Hi as -> ->. by rewrite filter_cons_True.
  - cbn in Hi. rewrite filter_cons_False; [by apply IH|].
    cbn. intros E. apply Hnot. rewrite E.
    apply (list_elem_of_fmap_2 (fun p => rate_key p.1 p.2) rest (now, r)).
    by eapply list_elem_of_lookup_2.
Qed.

(** X13. With a ceiling of one or more, requests that all come under
    different keys (another clock minute or another address; the address is
    the first entry of [x-forwarded-for] when the client sends that header)
    are never refused, however many they are. *)
Theorem distinct_keys_never_refused (cfg : config) (reqs : list (Z * request)) :
  1 <= RATE_LIMIT_PER_MIN cfg ->
  NoDup (map (fun p => rate_key p.1 p.2) reqs) ->
  (serve cfg reqs ∅).1 = replicate (length reqs) None.
Proof.
  intros Hpos Hnd. apply list_eq. intros i.
  destruct (reqs !! i) as [[now r]|] eqn:Hi.
  - rewrite (serve_verdict cfg reqs ∅ i now r) by (done || lia).
    rewrite (seen_once reqs i now r Hnd Hi), lookup_empty. cbn [default].
    apply lookup_lt_Some in Hi. rewrite lookup_replicate_2 by done.
    by destruct (Z.ltb_spec (RATE_LIMIT_PER_MIN cfg) (0 + Z.of_nat 1)); [lia|].
  - apply lookup_ge_None in Hi.
    rewrite (proj2 (lookup_ge_None _ _)), (proj2 (lookup_ge_None _ _)); [done|..].
    + by rewrite length_replicate.
    + clear Hnd. revert Hi. generalize (∅ : rate_table). revert i.
      induction reqs as [|[t q] rest IH]; intros i tbl Hi; [cbn; lia|].
      rewrite serve_cons. cbn [length] in *. destruct i; [lia|].
      specialize (IH i (rate_limit_middleware cfg t q tbl).2). lia.
Qed.

Lemma distinct_keys_never_refused_witness :
  let r (ip : string) := {| x_forwarded_for := py ip; client_host := Some (py "10.0.0.1");
                            url_path := py "/api/analyze" |} in
  let cfg := {| MAX_UPLOAD_BYTES := 1; MAX_ZIP_FILES := 1; MAX_ZIP_UNCOMPRESSED_BYTES := 1;
                MAX_FEATURES := 1; MAX_VERTICES := 1; MIN_FREE_DISK_GB := 1;
                RATE_LIMIT_PER_MIN := 1; REQUIRE_CLAMSCAN := false;
                LOCK_TTL_SECONDS := 1 |} in
  (serve cfg [(30, r "1.1.1.1"); (30, r "1.1.1.2, x"); (30, r "1.1.1.3")] ∅).1
  = [None; None; None].
Proof.
  intros r cfg.
  apply (distinct_keys_never_refused cfg
           [(30, r "1.1.1.1"); (30, r "1.1.1.2, x"); (30, r "1.1.1.3")]).
  - cbn. lia.
  - apply (bool_decide_unpack _). by vm_compute.
Defined.

End RateTable.

(** ** More on the analysis lock *)

Module LockMore.
Import Server Gateway LockSpec.

Ltac lock_cases :=
  repeat match goal with
         | _ => progress cbn [negb andb orb from_option id default files lock_file log
                              set_lock fst snd truthy]
         | |- context [fresh ?c ?n None] => change (fresh c n None) with false
         | H : ?x = _ |- context [?x] => rewrite H
         | |- context [if ?b then _ else _] =>
             lazymatch b with
             | context [if _ then _ else _] => fail
             | _ => destruct b eqn:?
             end
         end.

Lemma unlink_lock_cases (h : host) (st : state) :
  (unlink_lock h st = (Ok tt, st) /\ (lock_removable h = true -> lock_file st = None))
  \/ (unlink_lock h st = (Ok tt, set_lock None LockRemoved st) /\ lock_removable h = true).
Proof.
  unfold unlink_lock, lock_exists.
  destruct (lock_file st) eqn:Hl; destruct (lock_removable h) eqn:Hr; cbn;
    first [ left; split; [reflexivity|intros; congruence]
          | right; split; reflexivity ].
Qed.

Lemma cleanup_lock_cases (cfg : config) (h : host) (now : Q) (st : state) :
  _cleanup_lock cfg h now st = (Ok tt, st)
  \/ _cleanup_lock cfg h now st = (Ok tt, set_lock None LockRemoved st).
Proof.
  unfold _cleanup_lock, bind, get, ret.
  destruct (negb (lock_exists st)); [by left|].
  destruct (negb (truthy _));
    [destruct (unlink_lock_cases h st) as [[-> _]|[-> _]]; by (left + right)|].
  destruct (_ && _); [by left|]. destruct (fresh _ _ _); [by left|].
  destruct (unlink_lock_cases h st) as [[-> _]|[-> _]]; by (left + right).
Qed.

(** After the clean-up: the busy error, or the lock file is out of the way
    as far as it can be removed. *)
Lemma second_look_cases (cfg : config) (h : host) (now : Q) (st : state) :
  let look : M unit :=
    if lock_exists st then
      let data := _read_lock st in
      let ts := if truthy data then default ∅ data !! py "ts" else None in
      if fresh cfg now ts then raise busy else unlink_lock h
    else ret tt in
  look st = (Raise busy, st)
  \/ (look st = (Ok tt, st) /\ (lock_removable h = true -> lock_file st = None))
  \/ (look st = (Ok tt, set_lock None LockRemoved st) /\ lock_removable h = true).
Proof.
  cbv zeta. unfold lock_exists.
  destruct (lock_file st) eqn:Hl; [|right; left; by split].
  destruct (fresh _ _ _); [by left|].
  destruct (unlink_lock_cases h st) as [[-> H]|[-> H]];
    [right; left; split; [done|by rewrite <- Hl]|right; right; by split].
Qed.

Lemma enter_result (cfg : config) (h : host) (now now' : Q) (st : state) :
  exists r st1 pre,
    enter_analysis_lock cfg h now now' st = (r, st1)
    /\ ((r = Raise busy /\ st1 = st)
        \/ (r = Ok tt
            /\ (pre = [] \/ pre = [LockRemoved])
            /\ files st1 = files st
            /\ lock_file st1 = Some (own_lock h now)
            /\ log st1 = log st ++ pre ++ [LockWritten])
        \/ (r = Raise no_lock
            /\ (pre = [] \/ pre = [LockRemoved])
            /\ files st1 = files st
            /\ (lock_removable h = true -> lock_file st1 = None)
            /\ log st1 = log st ++ pre)).
Proof.
  unfold enter_analysis_lock, bind at 1, get at 1, bind at 1.
  assert (H1 : (if lock_exists st then _cleanup_lock cfg h now' else ret tt) st = (Ok tt, st)
               \/ (if lock_exists st then _cleanup_lock cfg h now' else ret tt) st
                  = (Ok tt, set_lock None LockRemoved st)).
  { destruct (lock_exists st); [apply cleanup_lock_cases|by left]. }
  destruct H1 as [-> | ->]; unfold bind at 1, get at 1, bind at 1.
  - destruct (second_look_cases cfg h now st) as [E|[[E Hn]|[E Hr]]];
      cbv zeta in E; fold busy; rewrite E.
    + eexists _, _, []. split; [reflexivity|]. by left.
    + destruct (lock_writable h); unfold modify, raise; fold no_lock.
      * eexists _, _, []. split; [reflexivity|]. right; left. repeat split; auto.
      * eexists _, _, []. split; [reflexivity|]. right; right.
        rewrite app_nil_r. repeat split; auto.
    + destruct (lock_writable h); unfold modify, raise; fold no_lock.
      * eexists _, _, [LockRemoved]. split; [reflexivity|]. right; left.
        cbn. rewrite <- app_assoc. repeat split; auto.
      * eexists _, _, [LockRemoved]. split; [reflexivity|]. right; right.
        repeat split; auto.
  - change (lock_exists (set_lock None LockRemoved st)) with false. cbv iota.
    unfold ret at 1.
    destruct (lock_writable h); unfold modify, raise; fold no_lock.
    + eexists _, _, [LockRemoved]. split; [reflexivity|]. right; left.
      cbn. rewrite <- app_assoc. repeat split; auto.
    + eexists _, _, [LockRemoved]. split; [reflexivity|]. right; right.
      repeat split; auto.
Qed.

(** The three ways an entry ends. *)
Lemma enter_outcomes (cfg : config) (h : host) (now now' : Q) (st : state) :
  enter_analysis_lock cfg h now now' st = (Raise busy, st)
  \/ (exists st1 pre,
        enter_analysis_lock cfg h now now' st = (Ok tt, st1)
        /\ (pre = [] \/ pre = [LockRemoved])
        /\ files st1 = files st
        /\ lock_file st1 = Some (own_lock h now)
        /\ log st1 = log st ++ pre ++ [LockWritten])
  \/ (exists st1 pre,
        enter_analysis_lock cfg h now now' st = (Raise no_lock, st1)
        /\ (pre = [] \/ pre = [LockRemoved])
        /\ files st1 = files st
        /\ (lock_removable h = true -> lock_file st1 = None)
        /\ log st1 = log st ++ pre).
Proof.
  destruct (enter_result cfg h now now' st)
    as (r & st1 & pre & -> & [[-> ->]|[(-> & H)|(-> & H)]]).
  - by left.
  - right; left. by exists st1, pre.
  - right; right. by exists st1, pre.
Qed.

(** An entry that finds no fresh time stamp goes through. *)
Lemma enter_expired (cfg : config) (h : host) (now now' : Q) (st : state) :
  lock_writable h = true ->
  (forall d, lock_file st = Some (LockDict d) -> fresh cfg now (d !! py "ts") = false) ->
  exists st1,
    enter_analysis_lock cfg h now now' st = (Ok tt, st1)
    /\ lock_file st1 = Some (own_lock h now)
    /\ files st1 = files st.
Proof.
  intros Hw Hexp. step_lock. unfold own_lock.
  destruct (lock_file st) as [[|d]|] eqn:Hl.
  - lock_cases; first [done|by eexists].
  - pose proof (Hexp d eq_refl) as Hf. clear Hexp. lock_cases; first [done|by eexists].
  - lock_cases; first [done|by eexists].
Qed.

(** The lock a successful entry leaves. *)
Lemma entered_lock (cfg : config) (h : host) (now now' : Q) (st st1 : state) :
  enter_analysis_lock cfg h now now' st = (Ok tt, st1) ->
  lock_file st1 = Some (own_lock h now).
Proof.
  intros E.
  destruct (enter_outcomes cfg h now now' st)
    as [E'|[(st2 & pre & E' & _ & _ & Hl & _)|(st2 & pre & E' & _)]];
    rewrite E in E'; [done| |done].
  by injection E' as <-.
Qed.

(** C1 as the specification words it does not hold: with a time to live
    of one minute, a request that comes to a second worker of the service a
    minute after a run has taken the lock and started the pipeline, while
    that run still holds the lock and its process lives, takes the lock
    over and starts the pipeline again. *)
Lemma live_lock_taken_over :
  let worker (pid : Z) : host :=
    {| pid_alive := fun p => (p =? 77) || (p =? 78); getpid := pid;
       lock_removable := true; lock_writable := true |} in
  let first : M unit :=
    bind (enter_analysis_lock Sample.one_minute_lock (worker 77) 1000 1000)
         (fun _ => modify (add_event PipelineRun)) in
  let running := (first Sample.before).2 in
  let second :=
    _analysis_lock Sample.one_minute_lock (worker 78) 1060 1060
      (run_pipeline Sample.the_world Sample.install_dir [py "srv"; py "up"; py "area.shp"])
      running in
  (first Sample.before).1 = Ok tt
  /\ lock_file running = Some (own_lock (worker 77) 1000)
  /\ log running = [LockWritten; PipelineRun]
  /\ pid_alive (worker 78) 77 = true
  /\ second.1 = Ok 0
  /\ log second.2
     = [LockWritten; PipelineRun; LockRemoved; LockWritten; PipelineRun; LockRemoved].
Proof. repeat split; by vm_compute. Qed.

(** C1 (amended): the lock excludes by its time stamp, for
    LOCK_TTL_SECONDS. For a lock file with a time stamp: when it names a
    holder whose process is alive and the time stamp is less than
    LOCK_TTL_SECONDS old, entering the lock raises the busy error (status
    429) and leaves the state as it was, so that no lock is written and the
    body, the pipeline run, is not started; when the time stamp is
    LOCK_TTL_SECONDS old or more, the entry succeeds where the lock file can
    be written, whether the holder is alive or not, writes the lock of the
    new holder and runs the body under it; when the holder is dead and the
    time stamp that old, [_cleanup_lock] removes the file; and while the
    lock written by a successful entry is in place and the process that
    wrote it lives, every entry made less than LOCK_TTL_SECONDS after it is
    refused in the same way. *)
Theorem analysis_lock_exclusion (cfg : config) (h : host) (now now' : Q)
    (st : state) :
  (forall d t pid,
     lock_file st = Some (LockDict d) ->
     as_number (d !! py "ts") = Some t ->
     d !! py "pid" = Some (JInt pid) ->
     pid_alive h pid = true ->
     (now - t < inject_Z (LOCK_TTL_SECONDS cfg))%Q ->
     forall (A : Type) (body : M A),
       _analysis_lock cfg h now now' body st = (Raise busy, st))
  /\ (forall d t,
      lock_file st = Some (LockDict d) ->
      as_number (d !! py "ts") = Some t ->
      (inject_Z (LOCK_TTL_SECONDS cfg) <= now - t)%Q ->
      lock_writable h = true ->
      forall (A : Type) (body : M A),
      exists st1,
        enter_analysis_lock cfg h now now' st = (Ok tt, st1)
        /\ lock_file st1 = Some (own_lock h now)
        /\ files st1 = files st
        /\ _analysis_lock cfg h now now' body st
           = try_finally body (unlink_lock h) st1)
  /\ (forall d t pid,
      lock_file st = Some (LockDict d) ->
      as_number (d !! py "ts") = Some t ->
      d !! py "pid" = Some (JInt pid) ->
      pid_alive h pid = false ->
      (inject_Z (LOCK_TTL_SECONDS cfg) <= now' - t)%Q ->
      lock_removable h = true ->
      lock_file (_cleanup_lock cfg h now' st).2 = None)
  /\ (forall (st1 st2 : state) (h2 : host) (later later' : Q),
      enter_analysis_lock cfg h now now' st = (Ok tt, st1) ->
      lock_file st2 = lock_file st1 ->
      pid_alive h2 (getpid h) = true ->
      (later - now < inject_Z (LOCK_TTL_SECONDS cfg))%Q ->
      forall (A : Type) (body : M A),
        _analysis_lock cfg h2 later later' body st2 = (Raise busy, st2)).
Proof.
  split; [|split; [|split]].
  - intros d t pid Hl Hts Hp Ha Hlt A body. unfold _analysis_lock, bind.
    by rewrite (busy_rejected cfg h now now' t st d pid).
  - intros d t Hl Hts Hge Hw A body.
    destruct (enter_expired cfg h now now' st Hw) as (st1 & He & Hl1 & Hf1).
    { intros d' Hd'. rewrite Hl in Hd'. injection Hd' as <-.
      by apply (fresh_ge cfg now t). }
    exists st1. split; [done|]. split; [done|]. split; [done|].
    unfold _analysis_lock, bind. by rewrite He.
  - intros d t pid Hl Hts Hp Ha Hge Hr.
    by apply (cleanup_removes_stale cfg h now' st d pid t).
  - intros st1 st2 h2 later later' He Hl2 Ha Hlt A body.
    rewrite (entered_lock _ _ _ _ _ _ He) in Hl2.
    unfold _analysis_lock, bind.
    by rewrite (second_entry_rejected cfg h2 now later later' st2 (getpid h)).
Qed.

Lemma analysis_lock_exclusion_witness :
  let h := {| pid_alive := fun p => p =? 4242; getpid := 77;
              lock_removable := true; lock_writable := true |} in
  let d : gmap str jval := <[py "pid" := JInt 4242]> (<[py "ts" := JFloat 1000]> ∅) in
  pid_alive h 4242 = true
  /\ (forall (A : Type) (body : M A),
        _analysis_lock Sample.one_minute_lock h 1059 1059 body Sample.held_by_4242
        = (Raise busy, Sample.held_by_4242))
  /\ (forall (A : Type) (body : M A),
      exists st1,
        enter_analysis_lock Sample.one_minute_lock h 1060 1060 Sample.held_by_4242
        = (Ok tt, st1)
        /\ lock_file st1 = Some (own_lock h 1060)
        /\ files st1 = files Sample.held_by_4242
        /\ _analysis_lock Sample.one_minute_lock h 1060 1060 body Sample.held_by_4242
           = try_finally body (unlink_lock h) st1).
Proof.
  intros h d. split; [reflexivity|]. split.
  - exact (proj1 (analysis_lock_exclusion Sample.one_minute_lock h 1059 1059
                    Sample.held_by_4242)
                 d 1000%Q 4242 eq_refl eq_refl eq_refl eq_refl eq_refl).
  - exact (proj1 (proj2 (analysis_lock_exclusion Sample.one_minute_lock h 1060 1060
                           Sample.held_by_4242))
                 d 1000%Q eq_refl eq_refl ltac:(by vm_compute) eq_refl).
Defined.

(** X14. An entry is refused on a fresh time stamp only. Where the lock
    file can be written, the entry succeeds and writes the lock of the new
    holder whenever there is no lock file, or the file is not a JSON
    object, or its time stamp is missing, is no number, or is
    LOCK_TTL_SECONDS old or more: the process named in the file is not asked
    for, so the lock of a run that is still alive is taken over once it has
    expired. *)
Theorem expired_lock_is_taken (cfg : config) (h : host) (now now' : Q) (st : state) :
  lock_writable h = true ->
  (forall d, lock_file st = Some (LockDict d) -> fresh cfg now (d !! py "ts") = false) ->
  exists st1,
    enter_analysis_lock cfg h now now' st = (Ok tt, st1)
    /\ lock_file st1 = Some (own_lock h now)
    /\ files st1 = files st.
Proof.
  intros Hw Hexp. step_lock. unfold own_lock.
  destruct (lock_file st) as [[|d]|] eqn:Hl.
  - lock_cases; first [done|by eexists].
  - pose proof (Hexp d eq_refl) as Hf. clear Hexp. lock_cases; first [done|by eexists].
  - lock_cases; first [done|by eexists].
Qed.

Lemma expired_lock_is_taken_witness :
  let h := {| pid_alive := fun p => p =? 4242; getpid := 77;
              lock_removable := true; lock_writable := true |} in
  exists st1,
    enter_analysis_lock default_config h 20000 20000 Sample.held_by_4242 = (Ok tt, st1)
    /\ lock_file st1 = Some (own_lock h 20000)
    /\ files st1 = files Sample.held_by_4242.
Proof.
  intros h.
  apply (expired_lock_is_taken default_config h 20000 20000 Sample.held_by_4242).
  - reflexivity.
  - intros d [= <-]. reflexivity.
Defined.

(** X15. A fresh time stamp blocks whoever wrote it: while the time stamp
    of the lock file is less than LOCK_TTL_SECONDS old, at the reading of
    the entry and at the reading of the clean-up, the entry is refused with
    status 429 and nothing is changed, also when the process named in the
    file is dead or no process is named at all. *)
Theorem fresh_lock_blocks (cfg : config) (h : host) (now now' t : Q) (st : state)
    (d : gmap str jval) :
  lock_file st = Some (LockDict d) ->
  as_number (d !! py "ts") = Some t ->
  (now - t < inject_Z (LOCK_TTL_SECONDS cfg))%Q ->
  (now' - t < inject_Z (LOCK_TTL_SECONDS cfg))%Q ->
  forall (A : Type) (body : M A),
    _analysis_lock cfg h now now' body st = (Raise busy, st).
Proof.
  intros Hl Hts Hlt Hlt' A body.
  pose proof (fresh_lt cfg now t _ Hts Hlt) as Hf.
  pose proof (fresh_lt cfg now' t _ Hts Hlt') as Hf'.
  assert (Ht : truthy (Some d) = true).
  { destruct (d !! py "ts") as [v|] eqn:E; [by eapply truthy_has_key|done]. }
  unfold _analysis_lock, bind at 1.
  assert (E : enter_analysis_lock cfg h now now' st = (Raise busy, st)).
  { step_lock. unfold busy.
    repeat (progress (rewrite ?Hl, ?Ht, ?Hf, ?Hf';
                      cbn [negb andb from_option id default]));
      destruct (is_int _ && _pid_is_alive h _);
      repeat (progress (rewrite ?Hl, ?Ht, ?Hf, ?Hf';
                        cbn [negb andb from_option id default])); done. }
  by rewrite E.
Qed.

Lemma fresh_lock_blocks_witness :
  let h := {| pid_alive := fun _ => false; getpid := 77;
              lock_removable := true; lock_writable := true |} in
  pid_alive h 4242 = false
  /\ forall (A : Type) (body : M A),
       _analysis_lock default_config h 1100 1101 body Sample.held_by_4242
       = (Raise busy, Sample.held_by_4242).
Proof.
  intros h. split; [reflexivity|].
  apply (fresh_lock_blocks default_config h 1100 1101 1000 Sample.held_by_4242
           (<[py "pid" := JInt 4242]> (<[py "ts" := JFloat 1000]> ∅)));
    reflexivity.
Defined.





End LockMore.

(** ** The handlers as a whole *)

Module HandlerSpec.
Import PyStr Server Gateway LockSpec LockMore CleanupSpec.
Local Open Scope M_scope.

Lemma bind_Ok {A B} (m : M A) (k : A -> M B) (st st' : state) (b : B) :
  bind m k st = (Ok b, st') ->
  exists a st1, m st = (Ok a, st1) /\ k a st1 = (Ok b, st').
Proof. unfold bind. destruct (m st) as [[a|e] st1]; [by exists a, st1|done]. Qed.

Lemma bind_Raise {A B} (m : M A) (k : A -> M B) (st st' : state) (e : exn) :
  bind m k st = (Raise e, st') ->
  m st = (Raise e, st') \/ exists a st1, m st = (Ok a, st1) /\ k a st1 = (Raise e, st').
Proof.
  unfold bind. destruct (m st) as [[a|e0] st1]; intros H; [right; by exists a, st1|]. injection H as -> ->. by left.
Qed.

(** *** What each stage may raise *)

Lemma ro_bind {A B} (P : exn -> Prop) (m : M A) (k : A -> M B) :
  raises_only P m -> (forall a, raises_only P (k a)) -> raises_only P (bind m k).
Proof.
  intros Hm Hk st e st' [H|(a & st1 & _ & H)]%bind_Raise; [by eapply Hm|by eapply Hk].
Qed.

Lemma ro_ret {A} (P : exn -> Prop) (a : A) : raises_only P (ret a).
Proof. by intros st e st'. Qed.

Lemma ro_raise {A} (P : exn -> Prop) (e : exn) : P e -> raises_only P (raise (A:=A) e).
Proof. intros H st e' st' [= <- _]. done. Qed.

Lemma ro_modify (P : exn -> Prop) (f : state -> state) : raises_only P (modify f).
Proof. by intros st e st'. Qed.

Lemma ro_get (P : exn -> Prop) : raises_only P get.
Proof. by intros st e st'. Qed.

Lemma ro_lift {A} (P : exn -> Prop) (r : result A) :
  (forall e, r = Raise e -> P e) -> raises_only P (lift r).
Proof. intros H st e st' [= -> _]. by apply H. Qed.

Lemma ro_unlink_lock (P : exn -> Prop) (h : host) : raises_only P (unlink_lock h).
Proof. intros st e st'. unfold unlink_lock. by destruct (_ && _). Qed.

Lemma ro_try_finally {A} (P : exn -> Prop) (body : M A) (final : M unit) :
  raises_only P body -> raises_only P final -> raises_only P (try_finally body final).
Proof.
  intros Hb Hf st e st'. unfold try_finally.
  destruct (body st) as [[a|e0] st0] eqn:Eb; destruct (final st0) as [[[]|e1] st1] eqn:Ef;
    intros [= <- <-]; first [by eapply Hf | by eapply Hb].
Qed.

Lemma expected_http (code : Z) (detail : string) :
  bool_decide (code ∈ ERROR_STATUSES) = true -> expected (HTTPException code detail).
Proof. apply bool_decide_eq_true_1. Qed.

Ltac ro :=
  repeat first
    [ apply ro_ret | apply ro_modify | apply ro_get | apply ro_unlink_lock
    | apply ro_try_finally | progress cbv zeta
    | apply ro_raise; first [exact I | by apply expected_http]
    | apply ro_bind; [|intros ?]
    | match goal with
      | |- raises_only _ (if ?b then _ else _) => destruct b
      | |- raises_only _ (match ?x with _ => _ end) => destruct x
      end ].

Section Stages.
Variable cfg : config.
Variable w : world.
Variable BASE_DIR : path.

Lemma ro_write_upload (size : Z) (p : path) :
  raises_only expected (_write_upload cfg w size p).
Proof. unfold _write_upload. ro. Qed.

Lemma ro_run_clamscan (p : path) : raises_only expected (_run_clamscan cfg w p).
Proof. unfold _run_clamscan. ro. Qed.

Lemma ro_safe_extract_zip (members : list zip_member) (dest : str) :
  raises_only expected (_safe_extract_zip cfg members dest).
Proof.
  unfold _safe_extract_zip, extractall. ro.
  apply ro_lift. intros e He.
  destruct (ZipSpec.check_members_offender dest members) as [detail Hd].
  - induction members as [|m rest IH]; [done|]. cbn [check_members] in He.
    destruct (check_member dest m) as [[]|e0] eqn:E.
    + destruct (IH He) as (m' & ? & ?). exists m'. split; [by right|done].
    + exists m. split; [by left|]. by rewrite E.
  - rewrite Hd in He. injection He as <-. by apply expected_http.
Qed.

Lemma ro_first_usable_layer (layers : list (option gdf)) :
  raises_only expected (first_usable_layer layers).
Proof. induction layers as [|[g|] rest IH]; cbn [first_usable_layer]; ro. done. Qed.

Lemma ro_load_geopackage (p : path) : raises_only expected (_load_geopackage w p).
Proof.
  unfold _load_geopackage. destruct (listlayers w p) as [[|l ls]|]; ro.
  apply ro_first_usable_layer.
Qed.

Lemma ro_load_geodataframe (p : path) : raises_only expected (_load_geodataframe w p).
Proof. unfold _load_geodataframe. ro. Qed.

Lemma ro_validate_geo_limits (g : gdf) :
  raises_only expected (lift (_validate_geo_limits cfg g)).
Proof.
  apply ro_lift. unfold _validate_geo_limits. intros e.
  repeat case_match; intros [= <-]; by apply expected_http.
Qed.

Lemma ro_ensure_within_coverage (g : gdf) :
  raises_only expected (_ensure_within_coverage w g).
Proof. unfold _ensure_within_coverage. ro. Qed.

Lemma ro_to_file (p : path) : raises_only expected (to_file w p).
Proof. unfold to_file. ro. Qed.

Lemma ro_find_shapefile (d : path) : raises_only expected (_find_shapefile d).
Proof. unfold _find_shapefile. ro. Qed.

Lemma ro_validate_shapefile (p : path) : raises_only expected (_validate_shapefile p).
Proof. unfold _validate_shapefile. ro. Qed.

Lemma ro_run_analyzer (shp_path run_dir : path) :
  raises_only expected (_run_analyzer cfg w BASE_DIR shp_path run_dir).
Proof.
  unfold _run_analyzer, _purge_outputs_for_stem, _collect_outputs, _analysis_lock,
    enter_analysis_lock, _cleanup_lock, run_pipeline.
  ro.
Qed.

Lemma ro_analyze_body (u : upload) (run_id ext : str) (run_dir upload_dir upload_path : path) :
  raises_only expected
    (analyze_body cfg w BASE_DIR u run_id ext run_dir upload_dir upload_path).
Proof.
  unfold analyze_body.
  repeat first
    [ apply ro_write_upload | apply ro_run_clamscan | apply ro_safe_extract_zip
    | apply ro_load_geopackage | apply ro_load_geodataframe
    | apply ro_validate_geo_limits | apply ro_ensure_within_coverage
    | apply ro_to_file | apply ro_find_shapefile | apply ro_validate_shapefile
    | apply ro_run_analyzer | progress ro ].
Qed.

Lemma ro_analyze_geojson_body (lang : option str) (run_id : str)
    (run_dir upload_dir geojson_path : path) :
  raises_only expected
    (analyze_geojson_body cfg w BASE_DIR lang run_id run_dir upload_dir geojson_path).
Proof.
  unfold analyze_geojson_body.
  repeat first
    [ apply ro_run_clamscan | apply ro_validate_geo_limits
    | apply ro_ensure_within_coverage | apply ro_to_file | apply ro_run_analyzer
    | progress ro ].
Qed.

(** The two [except] clauses turn what the block raises into a status of
    the list. *)
Lemma guarded_statuses {A} (run_dir : path) (body : M A) (st st' : state) (e : exn) :
  raises_only expected body ->
  try_except body (cleanup_handler run_dir) st = (Raise e, st') ->
  exists code detail, e = HTTPException code detail /\ code ∈ ERROR_STATUSES.
Proof.
  intros Hb. unfold try_except. destruct (body st) as [[a|e0] st0] eqn:E; [done|].
  pose proof (Hb _ _ _ E) as He0.
  destruct (cleanup_run_dir_clean run_dir st0) as [Hc _].
  unfold cleanup_handler, bind, raise.
  destruct e0 as [code detail|what];
    (destruct (_cleanup_run_dir run_dir st0) as [[[]|?] st1]; [|done]);
    intros [= <- _].
  - by exists code, detail.
  - eexists _, _. split; [done|]. by apply (bool_decide_unpack _).
Qed.

Lemma listed_http (code : Z) (detail : string) :
  bool_decide (code ∈ ERROR_STATUSES) = true -> listed (HTTPException code detail).
Proof. intros H%bool_decide_eq_true. by exists code, detail. Qed.

Lemma ro_guarded {A} (run_dir : path) (body : M A) :
  raises_only expected body ->
  raises_only listed (try_except body (cleanup_handler run_dir)).
Proof. intros Hb st e st' H. by eapply guarded_statuses. Qed.

Lemma ro_analyze (u : upload) (run_id : str) :
  raises_only listed (analyze cfg w BASE_DIR u run_id).
Proof.
  unfold analyze, _ensure_disk_space, _cleanup_old_runs, mkdir_upload.
  repeat first
    [ apply ro_guarded, ro_analyze_body
    | apply ro_raise; by apply listed_http
    | progress ro ].
Qed.

Lemma ro_analyze_geojson (lang : option str) (run_id : str) :
  raises_only listed (analyze_geojson cfg w BASE_DIR lang run_id).
Proof.
  unfold analyze_geojson, _ensure_disk_space, _cleanup_old_runs, mkdir_upload.
  repeat first
    [ apply ro_guarded, ro_analyze_geojson_body
    | apply ro_raise; by apply listed_http
    | progress ro ].
Qed.

End Stages.

(** What the two [except] clauses raise for what the block raised. *)
Lemma guarded_raises {A} (run_dir : path) (body : M A) (st : state) (e0 : exn) :
  (body st).1 = Raise e0 ->
  (try_except body (cleanup_handler run_dir) st).1
  = Raise (match e0 with
           | HTTPException code detail => HTTPException code detail
           | OtherException _ => HTTPException 500 "Unexpected server error."
           end).
Proof.
  unfold try_except. destruct (body st) as [[a|e] st0]; [done|]. intros [= ->].
  destruct (cleanup_run_dir_clean run_dir st0) as [Hc _].
  unfold cleanup_handler, bind, raise.
  destruct e0; by destruct (_cleanup_run_dir run_dir st0) as [[[]|?] st1].
Qed.

(** X17. Whatever goes wrong in a request, file upload or drawn geometry,
    the handler raises an HTTP error whose status is one of 400, 413, 429,
    500 and 507, and no other. When the guarded block of a request that has
    passed the disk-space check (and, for an upload, the check of the file
    type) raises an HTTP error, the handler raises that very error; when the
    block raises an exception of another kind (a time-out of the scanner or
    of the pipeline, a write that fails), the handler raises status 500
    with the detail [Unexpected server error.]. *)
Theorem failure_statuses (cfg : config) (w : world) (BASE_DIR : path) (run_id : str)
    (st : state) :
  (forall u e,
     (analyze cfg w BASE_DIR u run_id st).1 = Raise e ->
     exists code detail, e = HTTPException code detail /\ code ∈ [400; 413; 429; 500; 507])
  /\ (forall lang e,
       (analyze_geojson cfg w BASE_DIR lang run_id st).1 = Raise e ->
       exists code detail,
         e = HTTPException code detail /\ code ∈ [400; 413; 429; 500; 507])
  /\ (forall u e0,
       (free_gb w <? MIN_FREE_DISK_GB cfg) = false ->
       lower (PyPath.suffix (up_filename u)) ∈ ALLOWED_EXT ->
       let run_dir := RUNS_DIR BASE_DIR ++ [run_id] in
       let upload_dir := run_dir ++ [py "upload"] in
       let upload_path := resolve (pjoin (path_str upload_dir) (up_filename u)) in
       let entered := (mkdir_upload run_dir upload_dir (_cleanup_old_runs w st).2).2 in
       (analyze_body cfg w BASE_DIR u run_id (lower (PyPath.suffix (up_filename u)))
          run_dir upload_dir upload_path entered).1 = Raise e0 ->
       (analyze cfg w BASE_DIR u run_id st).1
       = Raise (match e0 with
                | HTTPException code detail => HTTPException code detail
                | OtherException _ => HTTPException 500 "Unexpected server error."
                end))
  /\ (forall lang e0,
       (free_gb w <? MIN_FREE_DISK_GB cfg) = false ->
       let run_dir := RUNS_DIR BASE_DIR ++ [run_id] in
       let upload_dir := run_dir ++ [py "upload"] in
       let geojson_path := upload_dir ++ [py "drawn.geojson"] in
       let entered := (mkdir_upload run_dir upload_dir (_cleanup_old_runs w st).2).2 in
       (analyze_geojson_body cfg w BASE_DIR lang run_id run_dir upload_dir geojson_path
          entered).1 = Raise e0 ->
       (analyze_geojson cfg w BASE_DIR lang run_id st).1
       = Raise (match e0 with
                | HTTPException code detail => HTTPException code detail
                | OtherException _ => HTTPException 500 "Unexpected server error."
                end)).
Proof.
  split; [|split; [|split]].
  - intros u e H. apply (ro_analyze cfg w BASE_DIR u run_id st e
                           (analyze cfg w BASE_DIR u run_id st).2).
    by destruct (analyze cfg w BASE_DIR u run_id st); cbn in H; subst.
  - intros lang e H. apply (ro_analyze_geojson cfg w BASE_DIR lang run_id st e
                              (analyze_geojson cfg w BASE_DIR lang run_id st).2).
    by destruct (analyze_geojson cfg w BASE_DIR lang run_id st); cbn in H; subst.
  - intros u e0 Hdisk Hext run_dir upload_dir upload_path entered H.
    unfold analyze, _ensure_disk_space, _cleanup_old_runs, mkdir_upload, bind, ret,
      modify.
    rewrite Hdisk, (bool_decide_eq_true_2 _ Hext). cbn [negb].
    apply guarded_raises. exact H.
  - intros lang e0 Hdisk run_dir upload_dir geojson_path entered H.
    unfold analyze_geojson, _ensure_disk_space, _cleanup_old_runs, mkdir_upload, bind,
      ret, modify.
    rewrite Hdisk. apply guarded_raises. exact H.
Qed.

Lemma failure_statuses_witness :
  (analyze default_config Sample.the_world Sample.install_dir
           Sample.oversized_upload (py "r1") Sample.before).1
  = Raise (HTTPException 413 "Upload too large.")
  /\ (exists code detail,
       HTTPException 413 "Upload too large." = HTTPException code detail
       /\ code ∈ [400; 413; 429; 500; 507])
  /\ (analyze default_config Sample.slow_world Sample.install_dir
              Sample.small_upload (py "r1") Sample.before).1
     = Raise (HTTPException 500 "Unexpected server error.").
Proof.
  assert (H : (analyze default_config Sample.the_world Sample.install_dir
                       Sample.oversized_upload (py "r1") Sample.before).1
              = Raise (HTTPException 413 "Upload too large.")) by (by vm_compute).
  split; [exact H|]. split.
  - exact (proj1 (failure_statuses default_config Sample.the_world Sample.install_dir
                    (py "r1") Sample.before) Sample.oversized_upload _ H).
  - refine (proj1 (proj2 (proj2 (failure_statuses default_config Sample.slow_world
                                   Sample.install_dir (py "r1") Sample.before)))
                  Sample.small_upload (OtherException "TimeoutExpired") eq_refl _ _).
    + apply (bool_decide_unpack _). by vm_compute.
    + by vm_compute.
Defined.

(** *** The outputs of a run *)

Section Outputs.
Variable cfg : config.
Variable w : world.
Variable BASE_DIR : path.

Lemma unlink_lock_files (h : host) (st : state) : files (unlink_lock h st).2 = files st.
Proof. unfold unlink_lock. by destruct (_ && _). Qed.

(** A successful call: the pipeline ended with code 0, and the outputs are
    read from the folder as the purge and the pipeline left it. *)
Lemma run_analyzer_ok (shp_path run_dir : path) (st st' : state) (outs : list str) :
  _run_analyzer cfg w BASE_DIR shp_path run_dir st = (Ok outs, st') ->
  let stem := PyPath.stem (default [] (last shp_path)) in
  exists written,
    pipeline w shp_path = Finished 0 written
    /\ outs = merge_sort str_le
         (map (fun q => default [] (last q))
            (filter (fun q => is_output BASE_DIR stem q = true)
               (elements (filter (fun q => output_of_stem BASE_DIR stem q = false) (files st)
                          ∪ list_to_set (map (fun n => OUTPUT_DIR BASE_DIR ++ [n]) written)
                          ∪ {[run_dir ++ [py "results"]]}))))
    /\ (run_dir ++ [py "results"]) ∈ files st'.
Proof.
  intros H stem. unfold _run_analyzer in H. fold stem in H.
  apply bind_Ok in H as ([] & st0 & H0 & H).
  unfold _purge_outputs_for_stem, modify in H0. injection H0 as <-.
  apply bind_Ok in H as (rc & st3 & Hlock & H).
  unfold _analysis_lock in Hlock. apply bind_Ok in Hlock as ([] & st1 & He & Hbody).
  destruct (enter_outcomes cfg (the_host w) (now w) (now' w)
              (set_files (filter (fun q => output_of_stem BASE_DIR stem q = false)) st))
    as [E|[(st1' & pre & E & _ & Hf1 & _)|(? & ? & E & _)]];
    rewrite E in He; [done| |done].
  injection He as <-. unfold try_finally in Hbody.
  destruct (run_pipeline w BASE_DIR shp_path st1') as [[rc'|e] st2] eqn:Erun.
  2: { by destruct (unlink_lock (the_host w) st2) as [[[]|?] ?]. }
  pose proof (unlink_lock_files (the_host w) st2) as Hf3.
  destruct (unlink_lock (the_host w) st2) as [[[]|?] st3'] eqn:Eu; [|done].
  injection Hbody as -> ->. cbn [snd] in Hf3.
  unfold run_pipeline, bind, modify, raise, ret in Erun.
  destruct (pipeline w shp_path) as [rc' written|] eqn:Ep; [|done].
  injection Erun as -> <-. cbn [set_files add_event files] in Hf3.
  destruct (decide (rc <> 0)) as [|Hrc]; [done|].
  assert (rc = 0) as -> by lia. exists written. split; [done|].
  unfold _collect_outputs, bind, modify, get, raise, ret in H. cbn [set_files files] in H.
  rewrite Hf3, Hf1 in H. cbn [set_files files] in H.
  destruct (filter _ (elements _)) as [|q found] eqn:Ef; [done|].
  injection H as <- <-. split; [done|]. cbn [files]. set_solver.
Qed.

Lemma startswith_results (stem : str) :
  startswith (stem ++ py "_") (py "results") = false.
Proof.
  apply not_true_is_false. intros [k E]%PyStrFacts.startswith_inv.
  assert (Hin : "_"%char ∈ py "results").
  { rewrite E. apply elem_of_app. left. apply elem_of_app. right. by left. }
  revert Hin. apply (bool_decide_unpack _). by vm_compute.
Qed.

Lemma last_snoc_path (p : path) (n : str) : default [] (last (p ++ [n])) = n.
Proof. by rewrite last_snoc. Qed.

Lemma is_output_results (stem : str) (run_dir : path) :
  is_output BASE_DIR stem (run_dir ++ [py "results"]) = false.
Proof.
  unfold is_output, output_of_stem. rewrite last_snoc_path, startswith_results.
  by rewrite andb_false_r.
Qed.

(** X18. The outputs a successful [_run_analyzer] returns are those of
    this run and no others: a name is returned exactly when the pipeline of
    this call wrote a file of that name, the name begins with the stem of
    the shapefile and an underscore, and its extension is, in lower case,
    [.png] or [.html]. What an earlier run left under the same stem is
    purged before the pipeline starts and is never returned. The names
    come in ascending order. *)
Theorem outputs_are_of_this_run (shp_path run_dir : path) (st : state)
    (outs : list str) :
  (_run_analyzer cfg w BASE_DIR shp_path run_dir st).1 = Ok outs ->
  Sorted str_le outs
  /\ exists written,
       pipeline w shp_path = Finished 0 written
       /\ forall n, n ∈ outs
            <-> n ∈ written
                /\ startswith (PyPath.stem (default [] (last shp_path)) ++ py "_") n = true
                /\ (lower (PyPath.suffix n) = py ".png"
                    \/ lower (PyPath.suffix n) = py ".html").
Proof.
  intros H.
  destruct (_run_analyzer cfg w BASE_DIR shp_path run_dir st) as [r st'] eqn:E.
  cbn [fst] in H. subst r.
  destruct (run_analyzer_ok _ _ _ _ _ E) as (written & Hp & -> & _).
  split; [apply Sorted_merge_sort, _|]. exists written. split; [done|]. intros n.
  rewrite merge_sort_Permutation, list_elem_of_fmap.
  setoid_rewrite list_elem_of_filter. setoid_rewrite elem_of_elements.
  split.
  - intros (q & -> & Hout & Hin).
    apply elem_of_union in Hin as [Hin | ->%elem_of_singleton];
      [|by rewrite is_output_results in Hout].
    unfold is_output in Hout. apply andb_true_iff in Hout as [Hstem Hsfx].
    apply elem_of_union in Hin as [Hin|Hin].
    + apply elem_of_filter in Hin as [Hin _]. congruence.
    + apply elem_of_list_to_set, list_elem_of_fmap in Hin as (n & -> & Hn).
      rewrite last_snoc_path in *. split; [done|].
      unfold output_of_stem in Hstem. apply andb_true_iff in Hstem as [_ Hstem].
      rewrite last_snoc_path in Hstem. split; [done|].
      by apply bool_decide_eq_true in Hsfx.
  - intros (Hn & Hstem & Hsfx). exists (OUTPUT_DIR BASE_DIR ++ [n]).
    rewrite last_snoc_path. split; [done|]. split.
    + unfold is_output, output_of_stem. rewrite last_snoc_path, Hstem.
      rewrite removelast_last, !bool_decide_eq_true_2; [done|done|].
      split; [by destruct (OUTPUT_DIR BASE_DIR)|done].
    + apply elem_of_union. left. apply elem_of_union. right.
      apply elem_of_list_to_set, list_elem_of_fmap. by exists n.
Qed.

End Outputs.

Lemma outputs_are_of_this_run_witness :
  (_run_analyzer default_config Sample.the_world Sample.install_dir
     [py "srv"; py "up"; py "area.shp"] [py "srv"; py "run"] Sample.before).1
  = Ok [py "area_frost_eistage.png"; py "area_map.html"]
  /\ exists written,
       pipeline Sample.the_world [py "srv"; py "up"; py "area.shp"] = Finished 0 written
       /\ forall n, n ∈ [py "area_frost_eistage.png"; py "area_map.html"]
            <-> n ∈ written
                /\ startswith (PyPath.stem (py "area.shp") ++ py "_") n = true
                /\ (lower (PyPath.suffix n) = py ".png"
                    \/ lower (PyPath.suffix n) = py ".html").
Proof.
  assert (H : (_run_analyzer default_config Sample.the_world Sample.install_dir
                 [py "srv"; py "up"; py "area.shp"] [py "srv"; py "run"] Sample.before).1
              = Ok [py "area_frost_eistage.png"; py "area_map.html"]) by (by vm_compute).
  split; [exact H|].
  exact (proj2 (outputs_are_of_this_run default_config Sample.the_world
                  Sample.install_dir _ _ _ _ H)).
Defined.

(** *** The download of a run *)

Section Downloads.
Variable cfg : config.
Variable w : world.
Variable BASE_DIR : path.

Lemma analyze_body_ok (u : upload) (run_id ext : str)
    (run_dir upload_dir upload_path : path) (st st' : state) (r : response) :
  analyze_body cfg w BASE_DIR u run_id ext run_dir upload_dir upload_path st = (Ok r, st') ->
  (run_dir ++ [py "results"]) ∈ files st' /\ runId r = run_id.
Proof.
  unfold analyze_body. intros H.
  do 4 apply bind_Ok in H as (? & ? & _ & H).
  apply bind_Ok in H as (outs & st5 & Hrun & H).
  injection H as <- <-. split; [|done].
  by destruct (run_analyzer_ok _ _ _ _ _ _ _ _ Hrun) as (? & _ & _ & ?).
Qed.

Lemma analyze_geojson_body_ok (lang : option str) (run_id : str)
    (run_dir upload_dir geojson_path : path) (st st' : state) (r : response) :
  analyze_geojson_body cfg w BASE_DIR lang run_id run_dir upload_dir geojson_path st
  = (Ok r, st') ->
  (run_dir ++ [py "results"]) ∈ files st' /\ runId r = run_id.
Proof.
  unfold analyze_geojson_body. intros H.
  do 7 apply bind_Ok in H as (? & ? & _ & H).
  apply bind_Ok in H as (outs & st5 & Hrun & H).
  injection H as <- <-. split; [|done].
  by destruct (run_analyzer_ok _ _ _ _ _ _ _ _ Hrun) as (? & _ & _ & ?).
Qed.

Lemma guarded_ok {A} (run_dir : path) (body : M A) (st st' : state) (a : A) :
  try_except body (cleanup_handler run_dir) st = (Ok a, st') -> body st = (Ok a, st').
Proof.
  unfold try_except. destruct (body st) as [[a0|e] st0]; [done|].
  destruct (cleanup_handler_clean (A:=A) run_dir e st0) as [[e' He] _].
  intros H. rewrite H in He. done.
Qed.

Lemma path_exists_elem (p q : path) (fs : gset path) :
  q ∈ fs -> p `prefix_of` q -> path_exists p fs = true.
Proof. intros Hq Hp. apply bool_decide_eq_true. by exists q. Qed.

Lemma path_exists_none (p : path) (fs : gset path) :
  (forall q, q ∈ fs -> ~ p `prefix_of` q) -> path_exists p fs = false.
Proof. intros H. apply bool_decide_eq_false. intros (q & Hq & Hp). by apply (H q). Qed.

Lemma download_found (run_id : str) (st : state) :
  (RUNS_DIR BASE_DIR ++ [run_id] ++ [py "results"]) ∈ files st ->
  (download_run_outputs BASE_DIR run_id st).1
  = Ok (RUNS_DIR BASE_DIR ++ [run_id] ++ [py "outputs.zip"]).
Proof.
  intros Hin. unfold download_run_outputs, _build_run_zip, bind, get, modify, ret, raise.
  rewrite (path_exists_elem _ _ _ Hin) by (rewrite app_assoc; by eexists).
  cbn [negb]. rewrite <- !app_assoc.
  by rewrite (path_exists_elem _ _ _ Hin).
Qed.

Lemma download_missing (run_id : str) (st : state) :
  (forall q, q ∈ files st -> ~ (RUNS_DIR BASE_DIR ++ [run_id]) `prefix_of` q) ->
  download_run_outputs BASE_DIR run_id st = (Raise (HTTPException 404 "Run not found."), st).
Proof.
  intros H. unfold download_run_outputs, bind, get, raise.
  by rewrite (path_exists_none _ _ H).
Qed.

(** X19. The download of a run follows the outcome of its request. After
    a request that succeeded, the download under the run id of the answer
    finds the results and returns the archive [outputs.zip] of the run
    directory; after a request that failed once its run directory had been
    made, the same download is answered with status 404, the run not being
    found. *)
Theorem download_follows_outcome (run_id : str) (st : state) :
  (forall u r st',
     analyze cfg w BASE_DIR u run_id st = (Ok r, st') ->
     runId r = run_id
     /\ (download_run_outputs BASE_DIR (runId r) st').1
        = Ok (RUNS_DIR BASE_DIR ++ [run_id] ++ [py "outputs.zip"]))
  /\ (forall lang r st',
       analyze_geojson cfg w BASE_DIR lang run_id st = (Ok r, st') ->
       runId r = run_id
       /\ (download_run_outputs BASE_DIR (runId r) st').1
          = Ok (RUNS_DIR BASE_DIR ++ [run_id] ++ [py "outputs.zip"]))
  /\ (forall u e st',
       (free_gb w <? MIN_FREE_DISK_GB cfg) = false ->
       lower (PyPath.suffix (up_filename u)) ∈ ALLOWED_EXT ->
       analyze cfg w BASE_DIR u run_id st = (Raise e, st') ->
       download_run_outputs BASE_DIR run_id st'
       = (Raise (HTTPException 404 "Run not found."), st'))
  /\ (forall lang e st',
       (free_gb w <? MIN_FREE_DISK_GB cfg) = false ->
       analyze_geojson cfg w BASE_DIR lang run_id st = (Raise e, st') ->
       download_run_outputs BASE_DIR run_id st'
       = (Raise (HTTPException 404 "Run not found."), st')).
Proof.
  split; [|split; [|split]].
  - intros u r st' H. unfold analyze in H.
    do 2 apply bind_Ok in H as (? & ? & _ & H).
    destruct (negb _); [done|].
    apply bind_Ok in H as (? & ? & _ & H).
    apply guarded_ok, analyze_body_ok in H as [Hin ->]. split; [done|].
    apply download_found. by rewrite app_assoc.
  - intros lang r st' H. unfold analyze_geojson in H.
    do 3 apply bind_Ok in H as (? & ? & _ & H).
    apply guarded_ok, analyze_geojson_body_ok in H as [Hin ->]. split; [done|].
    apply download_found. by rewrite app_assoc.
  - intros u e st' Hdisk Hext H. apply download_missing.
    unfold analyze in H. rewrite (bool_decide_eq_true_2 _ Hext) in H. cbn [negb] in H.
    apply bind_Raise in H as [H|(? & ? & _ & H)];
      [unfold _ensure_disk_space in H; by rewrite Hdisk in H|].
    apply bind_Raise in H as [H|(? & ? & _ & H)]; [done|].
    apply bind_Raise in H as [H|(? & ? & _ & H)]; [done|].
    intros q. pose proof (guarded_failure_clean _ _ _ e (f_equal fst H) q) as Hc.
    by rewrite H in Hc.
  - intros lang e st' Hdisk H. apply download_missing.
    unfold analyze_geojson in H.
    apply bind_Raise in H as [H|(? & ? & _ & H)];
      [unfold _ensure_disk_space in H; by rewrite Hdisk in H|].
    apply bind_Raise in H as [H|(? & ? & _ & H)]; [done|].
    apply bind_Raise in H as [H|(? & ? & _ & H)]; [done|].
    intros q. pose proof (guarded_failure_clean _ _ _ e (f_equal fst H) q) as Hc.
    by rewrite H in Hc.
Qed.

End Downloads.

Lemma download_follows_outcome_witness :
  (exists r st',
     analyze default_config Sample.the_world Sample.install_dir Sample.small_upload
       (py "r1") Sample.before = (Ok r, st')
     /\ runId r = py "r1"
     /\ (download_run_outputs Sample.install_dir (runId r) st').1
        = Ok (RUNS_DIR Sample.install_dir ++ [py "r1"] ++ [py "outputs.zip"]))
  /\ (exists e st',
        analyze default_config Sample.the_world Sample.install_dir Sample.oversized_upload
          (py "r1") Sample.before = (Raise e, st')
        /\ download_run_outputs Sample.install_dir (py "r1") st'
           = (Raise (HTTPException 404 "Run not found."), st')).
Proof.
  split.
  - assert (H : exists r,
               (analyze default_config Sample.the_world Sample.install_dir
                  Sample.small_upload (py "r1") Sample.before).1 = Ok r)
      by (eexists; by vm_compute).
    destruct H as [r H].
    destruct (analyze default_config Sample.the_world Sample.install_dir
                Sample.small_upload (py "r1") Sample.before) as [r0 st'] eqn:E.
    cbn [fst] in H. subst r0.
    exists r, st'. split; [done|].
    exact (proj1 (download_follows_outcome default_config Sample.the_world
                    Sample.install_dir (py "r1") Sample.before)
                 Sample.small_upload r st' E).
  - assert (H : (analyze default_config Sample.the_world Sample.install_dir
                   Sample.oversized_upload (py "r1") Sample.before).1
                = Raise (HTTPException 413 "Upload too large.")) by (by vm_compute).
    destruct (analyze default_config Sample.the_world Sample.install_dir
                Sample.oversized_upload (py "r1") Sample.before) as [r0 st'] eqn:E.
    cbn [fst] in H. subst r0.
    eexists _, st'. split; [done|].
    refine (proj1 (proj2 (proj2 (download_follows_outcome default_config Sample.the_world
                    Sample.install_dir (py "r1") Sample.before)))
                 Sample.oversized_upload _ st' eq_refl _ E).
    apply (bool_decide_unpack _). by vm_compute.
Defined.

End HandlerSpec.

(** ** A shapefile uploaded on its own *)

Module UploadSpec.
Import PyStr Server Gateway CleanupSpec HandlerSpec.
Local Open Scope M_scope.

Section Bare.
Variable cfg : config.
Variable w : world.
Variable BASE_DIR : path.

Lemma foldr_rmtree_subseteq (ds : list path) (fs : gset path) :
  foldr rmtree fs ds ⊆ fs.
Proof.
  induction ds as [|d ds IH]; [done|]. cbn [foldr]. unfold rmtree at 1.
  intros q [_ Hq]%elem_of_filter. by apply IH.
Qed.

Lemma prefix_of_snoc_length (p q : path) (a : str) :
  (p ++ [a]) `prefix_of` q -> (length p < length q)%nat.
Proof. intros [k ->]. rewrite !length_app. cbn. lia. Qed.

Lemma snoc_prefix_snoc (p : path) (a n : str) :
  (p ++ [a]) `prefix_of` (p ++ [n]) -> a = n.
Proof.
  intros [k E]%prefix_app_inv. by injection E.
Qed.

Lemma shp_not_shx (n : str) :
  endswith (py ".shp") n = true -> PyPath.stem n ++ py ".shx" <> n.
Proof.
  intros [b Hb]%PyStrFacts.endswith_inv E. rewrite Hb in E at 2.
  change (py ".shx") with (py ".sh" ++ ["x"%char]) in E.
  change (py ".shp") with (py ".sh" ++ ["p"%char]) in E.
  rewrite !app_assoc in E. by apply app_inj_tail in E as [_ ?].
Qed.

Lemma lone_shapefile_refused {A} (run_dir upload_path : path) (st : state)
    (k : path -> M A) :
  only_upload run_dir upload_path (files st) ->
  exists e,
    (shp_path <- _find_shapefile (run_dir ++ [py "upload"]) ;;
     _validate_shapefile shp_path ;; k shp_path) st = (Raise e, st).
Proof.
  intros Hinv. unfold bind at 1, _find_shapefile, bind at 1, get, raise, ret.
  destruct (rglob_shp _ (files st)) as [|first rest] eqn:Eg; [by eexists|].
  assert (Hfirst : first ∈ rglob_shp (run_dir ++ [py "upload"]) (files st))
    by (rewrite Eg; by left).
  unfold rglob_shp in Hfirst. rewrite merge_sort_Permutation in Hfirst.
  apply list_elem_of_filter in Hfirst as [(Hpre & Hne & Hshp) Hin].
  apply elem_of_elements in Hin.
  assert (Hup : first = upload_path).
  { destruct (Hinv first Hin) as [-> | [-> | ->]]; [| |done|done].
    - etransitivity; [|exact Hpre]. by eexists.
    - apply prefix_of_snoc_length in Hpre. lia. }
  destruct Hpre as [kk Hkk].
  destruct (exists_last (l:=kk)) as (k0 & n & ->).
  { intros ->. by rewrite app_nil_r in Hkk. }
  assert (Hlast : default [] (last first) = n).
  { by rewrite Hkk, !app_assoc, last_snoc. }
  assert (Hrl : removelast first = run_dir ++ [py "upload"] ++ k0).
  { by rewrite Hkk, !app_assoc, removelast_last, <- !app_assoc. }
  assert (Hmiss : path_exists (with_suffix first (py ".shx")) (files st) = false).
  { apply path_exists_none. intros q Hq Hp. unfold with_suffix in Hp.
    rewrite Hlast, Hrl in Hp.
    assert (Hrun : run_dir `prefix_of` q).
    { etransitivity; [|exact Hp]. rewrite <- !app_assoc. by eexists. }
    destruct (Hinv q Hq Hrun) as [-> | [-> | ->]].
    - rewrite !app_assoc in Hp. apply prefix_of_snoc_length in Hp.
      rewrite !length_app in Hp. cbn in Hp. lia.
    - rewrite !app_assoc in Hp. apply prefix_of_snoc_length in Hp.
      rewrite !length_app in Hp. cbn in Hp. lia.
    - rewrite <- Hup, Hkk in Hp. rewrite !app_assoc in Hp.
      apply snoc_prefix_snoc in Hp. rewrite Hlast in Hshp.
      by apply (shp_not_shx n Hshp). }
  unfold bind, _validate_shapefile, bind, get, raise. cbn [filter list_filter].
  rewrite decide_True by done. by eexists.
Qed.

Lemma write_upload_cases (size : Z) (p : path) (st : state) :
  _write_upload cfg w size p st = (Ok size, set_files (fun fs => fs ∪ {[p]}) st)
  \/ exists e st', _write_upload cfg w size p st = (Raise e, st') /\ log st' = log st.
Proof.
  unfold _write_upload, bind, modify, raise, ret.
  destruct (upload_writable w); cbn [negb]; [|right; by eexists _, _].
  destruct (_ <? _); [right; by eexists _, _|by left].
Qed.

Lemma run_clamscan_cases (p : path) (st : state) :
  _run_clamscan cfg w p st = (Ok tt, st)
  \/ exists e, _run_clamscan cfg w p st = (Raise e, st).
Proof.
  unfold _run_clamscan, raise, ret.
  repeat case_match; first [by left | right; by eexists].
Qed.

Lemma cleanup_handler_log {A} (run_dir : path) (e : exn) (st : state) :
  exists e' st', cleanup_handler (A:=A) run_dir e st = (Raise e', st') /\ log st' = log st.
Proof.
  unfold cleanup_handler, _cleanup_run_dir, bind, get, modify, raise, ret.
  destruct e; destruct (path_exists _ _); by eexists _, _.
Qed.

Lemma bare_body_refused (u : upload) (run_id : str) (run_dir upload_path : path)
    (st : state) :
  (forall q, q ∈ files st -> run_dir `prefix_of` q ->
     q = run_dir \/ q = run_dir ++ [py "upload"]) ->
  exists e st',
    analyze_body cfg w BASE_DIR u run_id (py ".shp") run_dir (run_dir ++ [py "upload"])
      upload_path st = (Raise e, st')
    /\ log st' = log st.
Proof.
  intros Hinv. unfold analyze_body. unfold bind at 1.
  destruct (write_upload_cases (up_size u) upload_path st) as [->|(e & st' & -> & Hl)];
    [|by exists e, st'].
  unfold bind at 1.
  destruct (run_clamscan_cases upload_path (set_files (fun fs => fs ∪ {[upload_path]}) st))
    as [->|(e & ->)]; [|by eexists _, _].
  rewrite decide_False by done. unfold bind at 1, ret at 1.
  rewrite bool_decide_eq_false_2 by (by intros [?|?]).
  unfold bind at 1.
  destruct (lone_shapefile_refused run_dir upload_path
              (set_files (fun fs => fs ∪ {[upload_path]}) st)
              (fun shp_path =>
                 g <- _load_geodataframe w shp_path ;;
                 lift (_validate_geo_limits cfg g) ;;
                 _ensure_within_coverage w g ;; ret shp_path)) as [e He].
  - intros q Hq Hpre. cbn in Hq. apply elem_of_union in Hq as [Hq | ->%elem_of_singleton].
    + destruct (Hinv q Hq Hpre) as [-> | ->]; by auto.
    + by auto.
  - rewrite He. by eexists _, _.
Qed.

Lemma bare_shp_refused (u : upload) (run_id : str) (st : state) :
  lower (PyPath.suffix (up_filename u)) = py ".shp" ->
  (forall q, q ∈ files st -> ~ (RUNS_DIR BASE_DIR ++ [run_id]) `prefix_of` q) ->
  exists e st',
    analyze cfg w BASE_DIR u run_id st = (Raise e, st') /\ log st' = log st.
Proof.
  intros Hext Hfresh. unfold analyze. rewrite Hext.
  rewrite (bool_decide_eq_true_2 (py ".shp" ∈ ALLOWED_EXT))
    by (apply (bool_decide_unpack _); by vm_compute).
  cbn [negb]. unfold bind at 1, _ensure_disk_space.
  destruct (free_gb w <? MIN_FREE_DISK_GB cfg); [by eexists _, _|].
  unfold ret at 1, bind at 1, _cleanup_old_runs, modify at 1.
  unfold bind at 1, mkdir_upload, modify at 1, try_except.
  set (st2 := set_files _ (set_files _ st)).
  destruct (bare_body_refused u run_id (RUNS_DIR BASE_DIR ++ [run_id])
              (resolve (pjoin (path_str ((RUNS_DIR BASE_DIR ++ [run_id]) ++ [py "upload"]))
                              (up_filename u))) st2)
    as (e & st3 & -> & Hl).
  - intros q Hq Hpre. subst st2. cbn in Hq.
    apply elem_of_union in Hq as [Hq|Hq].
    + apply foldr_rmtree_subseteq in Hq. by destruct (Hfresh q Hq).
    + apply elem_of_union in Hq as [ ->%elem_of_singleton | ->%elem_of_singleton]; by auto.
  - destruct (cleanup_handler_log (A:=response) (RUNS_DIR BASE_DIR ++ [run_id]) e st3)
      as (e' & st' & -> & Hl').
    exists e', st'. split; [done|]. by rewrite Hl', Hl.
Qed.

End Bare.

(** X20. A shapefile uploaded on its own is never analysed, although
    [.shp] is one of the allowed extensions: under a fresh run id, a request
    whose file name ends in [.shp] (in any case of the letters) always ends
    in an error, and the pipeline is not started. The companions [.shx] and
    [.dbf] that [_validate_shapefile] asks for cannot be in the run
    directory, which holds nothing but the one uploaded file. *)
Theorem bare_shp_upload_refused (cfg : config) (w : world) (BASE_DIR : path)
    (u : upload) (run_id : str) (st : state) :
  lower (PyPath.suffix (up_filename u)) = py ".shp" ->
  (forall q, q ∈ files st -> ~ (RUNS_DIR BASE_DIR ++ [run_id]) `prefix_of` q) ->
  (exists e, (analyze cfg w BASE_DIR u run_id st).1 = Raise e)
  /\ log (analyze cfg w BASE_DIR u run_id st).2 = log st.
Proof.
  intros Hext Hfresh.
  destruct (bare_shp_refused cfg w BASE_DIR u run_id st Hext Hfresh)
    as (e & st' & -> & Hl).
  split; [by exists e|done].
Qed.

Lemma bare_shp_upload_refused_witness :
  let u := {| up_filename := py "area.SHP"; up_size := 1000; up_lang := None |} in
  (exists e, (analyze default_config Sample.the_world Sample.install_dir u (py "r1")
                Sample.before).1 = Raise e)
  /\ log (analyze default_config Sample.the_world Sample.install_dir u (py "r1")
            Sample.before).2 = log Sample.before.
Proof.
  intros u.
  apply (bare_shp_upload_refused default_config Sample.the_world Sample.install_dir u
           (py "r1") Sample.before).
  - reflexivity.
  - intros q Hq. unfold Sample.before in Hq. cbn [files] in Hq.
    apply elem_of_singleton in Hq as ->.
    apply (bool_decide_unpack _). by vm_compute.
Defined.

End UploadSpec.

(** ** Archives that are extracted *)

Module ExtractSpec.
Import PyStr Server ZipSpec PathFacts.






End ExtractSpec.

(** ** The origins allowed by CORS *)

Module OriginSpec.
Import PyStr Server Gateway PathFacts.

Lemma lstrip_space_head (s : str) (a : ascii) (s' : str) :
  lstrip_space s = a :: s' -> is_space a = false.
Proof.
  induction s as [|c s IH]; cbn; [done|].
  destruct (is_space c) eqn:E; [done|]. by intros [= <- _].
Qed.

Lemma lstrip_space_fix (s : str) :
  (forall a s', s = a :: s' -> is_space a = false) -> lstrip_space s = s.
Proof. destruct s as [|c s]; [done|]. intros H. cbn. by rewrite (H c s). Qed.

Lemma lstrip_space_suffix (s : str) : exists k, s = k ++ lstrip_space s.
Proof.
  induction s as [|c s [k IH]]; [by exists []|]. cbn.
  destruct (is_space c); [|by exists []]. exists (c :: k). cbn. by f_equal.
Qed.

Lemma elem_of_rev_iff (c : ascii) (l : str) : c ∈ rev l <-> c ∈ l.
Proof. rewrite !list_elem_of_In. symmetry. apply in_rev. Qed.

Lemma lstrip_space_blank (s : str) :
  (forall c, c ∈ s -> is_space c = true) -> lstrip_space s = [].
Proof.
  induction s as [|a s IH]; intros H; [done|]. cbn.
  rewrite (H a) by (by left). apply IH. intros c Hc. apply H. by right.
Qed.

Lemma split_chars (sep : ascii) (s x : str) (c : ascii) :
  x ∈ split sep s -> c ∈ x -> c ∈ s.
Proof.
  revert x. induction s as [|a s IH]; intros x; cbn.
  - intros ->%list_elem_of_singleton. by intros ?%elem_of_nil.
  - destruct (decide (a = sep)) as [->|Hne].
    + intros [-> | H]%elem_of_cons Hc; [by apply elem_of_nil in Hc|].
      right. by apply (IH x).
    + destruct (split sep s) as [|p ps] eqn:E.
      * intros ->%list_elem_of_singleton Hc.
        apply list_elem_of_singleton in Hc as ->. by left.
      * intros [-> | H]%elem_of_cons Hc.
        -- apply elem_of_cons in Hc as [-> | Hc]; [by left|].
           right. apply (IH p); [by left|done].
        -- right. apply (IH x); [by right|done].
Qed.

Lemma strip_idempotent (s : str) : strip (strip s) = strip s.
Proof.
  unfold strip. set (u := lstrip_space s). set (v := lstrip_space (rev u)).
  assert (Hv : lstrip_space v = v).
  { apply lstrip_space_fix. intros a s' E. by apply (lstrip_space_head (rev u) a s'). }
  assert (Hr : lstrip_space (rev v) = rev v).
  { apply lstrip_space_fix. intros a s' E.
    destruct (lstrip_space_suffix (rev u)) as [k Hk]. fold v in Hk.
    apply (f_equal (@rev _)) in Hk. rewrite rev_involutive, rev_app_distr, E in Hk.
    by apply (lstrip_space_head s a (s' ++ rev k)). }
  by rewrite Hr, rev_involutive, Hv.
Qed.

Lemma strip_subset (s : str) (c : ascii) : c ∈ strip s -> c ∈ s.
Proof.
  unfold strip. intros H. rewrite elem_of_rev_iff in H.
  destruct (lstrip_space_suffix (rev (lstrip_space s))) as [k Hk].
  assert (H1 : c ∈ rev (lstrip_space s)). { rewrite Hk. apply elem_of_app. by right. }
  rewrite elem_of_rev_iff in H1.
  destruct (lstrip_space_suffix s) as [k' Hk']. rewrite Hk'. apply elem_of_app. by right.
Qed.

(** X22. The origins [_allowed_origins] returns are clean: none is empty,
    none has white space at either end, and none holds a comma. The two
    local defaults are returned exactly when the variable is unset or
    empty; a value made of blanks and commas only gives no origin at
    all. *)
Theorem allowed_origins_clean (raw : option str) :
  (forall origin, origin ∈ _allowed_origins raw ->
     origin <> [] /\ strip origin = origin /\ (","%char ∉ origin))
  /\ (raw = None \/ raw = Some [] ->
      _allowed_origins raw = [py "http://localhost:5173"; py "http://127.0.0.1:5173"])
  /\ (forall r, raw = Some r -> r <> [] ->
      (forall c, c ∈ r -> is_space c = true \/ c = ","%char) ->
      _allowed_origins raw = []).
Proof.
  split; [|split].
  - intros origin. destruct raw as [[|c r]|].
    1,3: cbn; intros [-> | [-> | []%elem_of_nil]%elem_of_cons]%elem_of_cons;
      (split; [done|]); (split; [reflexivity|]);
      apply (bool_decide_unpack _); by vm_compute.
    unfold _allowed_origins. intros [Hne Hin]%list_elem_of_filter.
    apply list_elem_of_fmap in Hin as (x & -> & Hx).
    split; [done|]. split; [apply strip_idempotent|].
    intros Hc%strip_subset. by apply (split_sep_free _ _ _ Hx).
  - by intros [-> | ->].
  - intros r -> Hne Hall. destruct r as [|c r]; [done|]. unfold _allowed_origins.
    apply elem_of_nil_inv. intros o [Ho Hin]%list_elem_of_filter.
    apply list_elem_of_fmap in Hin as (x & -> & Hx). apply Ho.
    assert (Hb : lstrip_space x = []).
    { apply lstrip_space_blank. intros a Ha.
      destruct (Hall a (split_chars _ _ _ _ Hx Ha)) as [?| ->]; [done|].
      by destruct (split_sep_free _ _ _ Hx). }
    unfold strip. by rewrite Hb.
Qed.

Lemma allowed_origins_clean_witness :
  _allowed_origins (Some (py " https://a.example , ,https://b.example"))
  = [py "https://a.example"; py "https://b.example"]
  /\ _allowed_origins (Some (py " , ")) = [].
Proof.
  split; [reflexivity|].
  apply (proj2 (proj2 (allowed_origins_clean (Some (py " , ")))) (py " , ")).
  - reflexivity.
  - done.
  - intros c Hc. unfold py in Hc. cbn in Hc.
    repeat (apply elem_of_cons in Hc as [-> | Hc]; [by (left + right)|]).
    by apply elem_of_nil in Hc.
Defined.

End OriginSpec.
